(** * DeckBot ingestion and retrieval scripts: a shallow embedding

    The development follows the Python sources under [scripts/]:
    - [transform_to_pinecone_format.py]: [sanitize_id], the record builder
      [transform_metadata_to_records], [create_batches], [validate_record] and
      the driver [process_metadata_file];
    - [upsert_to_pinecone.py]: [sanitize_pdf_id];
    - [validate_transformation.py]: [validate_pinecone_records];
    - [deckbot_unified_index.py]: [_merge_results] and [cascading_search];
    - [setup_hybrid_search.py]: [merge_results] and [hybrid_search].

    Python values are modelled as the code sees them: a [str] is a sequence of
    Unicode code points, a [dict] with string keys is a finite map, a float is
    an IEEE binary64 number, an exception is an error result. *)

From Stdlib Require Import ZArith NArith List String Ascii Lia Bool.
From Stdlib Require Import Floats DecimalString Sorting.Permutation.
From stdpp Require Import base gmap strings list.
Import ListNotations.

Local Open Scope Z_scope.

(** ** Python strings *)

(** A Python [str] is a sequence of code points. *)
Abbreviation pychar := N (only parsing).
Abbreviation pystr := (list N) (only parsing).

(** An ASCII literal of the source as a [str]. *)
Definition py (s : string) : pystr :=
  map N_of_ascii (list_ascii_of_string s).

Definition chr (a : ascii) : pychar := N_of_ascii a.

Module Py.

(** Python exceptions the modelled code can raise.  A [KeyError] carries
    the missing key. *)
Inductive exn :=
| KeyError (key : string)
| ValueError
| TypeError
| OverflowError
| ServiceError (code : N).

(** The outcome of running a piece of code: a value or a raised exception. *)
Inductive result (A : Type) :=
| Ok (a : A)
| Raise (e : exn).
Arguments Ok {A} a.
Arguments Raise {A} e.

Definition bind {A B} (r : result A) (k : A -> result B) : result B :=
  match r with
  | Ok a => k a
  | Raise e => Raise e
  end.

(** [for x in l: st = body(st, x)], stopping at the first exception. *)
Fixpoint for_each {A S} (body : S -> A -> result S) (l : list A) (st : S)
  : result S :=
  match l with
  | [] => Ok st
  | x :: l' => bind (body st x) (for_each body l')
  end.

Definition str_eqb (a b : pystr) : bool := bool_decide (a = b).

(** [s.startswith(p)] *)
Fixpoint startswith (s p : pystr) {struct p} : bool :=
  match p with
  | [] => true
  | x :: p' =>
      match s with
      | [] => false
      | y :: s' => N.eqb x y && startswith s' p'
      end
  end.

(** [s.endswith(p)] *)
Definition endswith (s p : pystr) : bool :=
  (length p <=? length s)%nat && str_eqb (skipn (length s - length p) s) p.

(** An index of a slice, clamped as Python does for a sequence of length
    [len]: a negative index counts from the end. *)
Definition slice_index (len : nat) (i : Z) : nat :=
  if i <? 0 then Z.to_nat (Z.max 0 (i + Z.of_nat len))
  else Nat.min (Z.to_nat i) len.

(** [l[lo:hi]] with step 1; [None] is an omitted bound. *)
Definition slice {A} (l : list A) (lo hi : option Z) : list A :=
  let a := match lo with Some i => slice_index (length l) i | None => 0%nat end in
  let b := match hi with Some j => slice_index (length l) j | None => length l end in
  firstn (b - a) (skipn a l).

(** [s.replace(old, new)]: the non-overlapping occurrences of [old], found
    from the left, are replaced.  [skip] counts the characters of a match
    still to be passed over. *)
Fixpoint replace_from (old new : pystr) (skip : nat) (s : pystr) : pystr :=
  match s with
  | [] => []
  | c :: s' =>
      match skip with
      | S k => replace_from old new k s'
      | O =>
          if startswith s old
          then new ++ replace_from old new (length old - 1) s'
          else c :: replace_from old new 0 s'
      end
  end.

Definition replace (s old new : pystr) : pystr :=
  match old with
  | [] => new ++ flat_map (fun c => c :: new) s
  | _ :: _ => replace_from old new 0 s
  end.

(** [sub in s] for strings: [sub] occurs in [s] as a contiguous run. *)
Fixpoint contains (sub s : pystr) : bool :=
  startswith s sub ||
  match s with
  | [] => false
  | _ :: s' => contains sub s'
  end.

(** [s.lstrip(chars)], [s.rstrip(chars)], [s.strip(chars)] *)
Fixpoint lstrip (chars s : pystr) : pystr :=
  match s with
  | [] => []
  | c :: s' => if existsb (N.eqb c) chars then lstrip chars s' else s
  end.

Definition rstrip (chars s : pystr) : pystr := rev (lstrip chars (rev s)).

Definition strip (chars s : pystr) : pystr := rstrip chars (lstrip chars s).

(** [c.isascii()] *)
Definition isascii (c : pychar) : bool := (c <? 128)%N.

Definition is_digit (c : pychar) : bool := ((48 <=? c) && (c <=? 57))%N.
Definition is_upper (c : pychar) : bool := ((65 <=? c) && (c <=? 90))%N.
Definition is_lower (c : pychar) : bool := ((97 <=? c) && (c <=? 122))%N.

(** [c.isalnum()] on the ASCII range, the only one where the modelled code
    consults it ([c.isascii() and c.isalnum()] short-circuits). *)
Definition isalnum_ascii (c : pychar) : bool :=
  is_digit c || is_upper c || is_lower c.

(** [s.lower()] on a string of ASCII characters: [A-Z] go to [a-z]. *)
Definition lower_char (c : pychar) : pychar :=
  if is_upper c then (c + 32)%N else c.
Definition lower (s : pystr) : pystr := map lower_char s.

(** The characters [str.isspace] accepts; [s.strip()] without an argument
    removes them at both ends. *)
Definition isspace (c : pychar) : bool :=
  (((9 <=? c) && (c <=? 13)) || ((28 <=? c) && (c <=? 32))
   || (c =? 133) || (c =? 160) || (c =? 5760)
   || ((8192 <=? c) && (c <=? 8202)) || (c =? 8232) || (c =? 8233)
   || (c =? 8239) || (c =? 8287) || (c =? 12288))%N.

Fixpoint lstrip_ws (s : pystr) : pystr :=
  match s with
  | [] => []
  | c :: s' => if isspace c then lstrip_ws s' else s
  end.
Definition strip_ws (s : pystr) : pystr :=
  rev (lstrip_ws (rev (lstrip_ws s))).

(** [sep.join(parts)] *)
Fixpoint join (sep : pystr) (parts : list pystr) : pystr :=
  match parts with
  | [] => []
  | [p] => p
  | p :: rest => p ++ sep ++ join sep rest
  end.

(** [range(start, stop, step)] as the list of its elements; a zero step
    raises [ValueError]. *)
Definition range_len (start stop step : Z) : Z :=
  if (0 <? step) && (start <? stop) then (stop - start - 1) / step + 1
  else if (step <? 0) && (stop <? start) then (start - stop - 1) / (- step) + 1
  else 0.

Definition range (start stop step : Z) : result (list Z) :=
  if step =? 0 then Raise ValueError
  else Ok (map (fun j => start + Z.of_nat j * step)
               (seq 0 (Z.to_nat (range_len start stop step)))).

(** The decimal digits of a natural number. *)
Definition decimal (n : N) : pystr :=
  py (NilZero.string_of_uint (N.to_uint n)).

(** [format(z, "03d")]: sign-aware zero padding to width 3. *)
Definition format_03d (z : Z) : pystr :=
  let ds := decimal (Z.to_N (Z.abs z)) in
  let sign := if z <? 0 then py "-" else [] in
  sign ++ repeat (chr "0") (3 - length sign - length ds) ++ ds.

End Py.

(** [x ← c; k] runs [c] and passes its value on, or propagates its exception. *)
#[export] Instance result_bind : MBind Py.result :=
  fun A B k r => Py.bind r k.
#[export] Instance result_ret : MRet Py.result := @Py.Ok.

(** ** Python values and dictionaries *)

(** The values a JSON document or an index record holds. *)
Inductive value :=
| VNone
| VBool (b : bool)
| VInt (z : Z)
| VFloat (x : float)
| VStr (s : pystr)
| VList (l : list pystr).

(** A [dict] with string keys. *)
Abbreviation dict := (gmap string value) (only parsing).

Module Value.

(** [bool(v)]: the truth value tested by [if v] and [not v]. *)
Definition truthy (v : value) : bool :=
  match v with
  | VNone => false
  | VBool b => b
  | VInt z => negb (z =? 0)
  | VFloat x => negb (PrimFloat.eqb x 0)
  | VStr s => match s with [] => false | _ => true end
  | VList l => match l with [] => false | _ => true end
  end.

(** [isinstance(v, str)] *)
Definition is_str (v : value) : bool :=
  match v with VStr _ => true | _ => false end.

(** [v == "literal"] *)
Definition eq_str (v : value) (s : pystr) : bool :=
  match v with VStr t => Py.str_eqb t s | _ => false end.

(** [float(z)], rounding to nearest even; too large an integer raises. *)
Definition float_of_Z (z : Z) : Py.result float :=
  let x := SF2Prim (binary_normalize prec emax z 0 false) in
  if PrimFloat.is_infinity x then Py.Raise Py.OverflowError else Py.Ok x.

(** [v + x] for a float [x]. *)
Definition add_float (v : value) (x : float) : Py.result float :=
  match v with
  | VFloat y => Py.Ok (y + x)%float
  | VInt z => y ← float_of_Z z; Py.Ok (y + x)%float
  | VBool b => Py.Ok ((if b then 1 else 0) + x)%float
  | VNone | VStr _ | VList _ => Py.Raise Py.TypeError
  end.

(** Exact comparison of an integer with a float, as [int.__lt__] and
    [float.__lt__] do it. *)
Definition signed (sign : bool) (m : positive) : Z :=
  if sign then Z.neg m else Z.pos m.

Definition Z_lt_float (n : Z) (x : float) : bool :=
  match Prim2SF x with
  | S754_zero _ => n <? 0
  | S754_infinity sign => negb sign
  | S754_nan => false
  | S754_finite sign m e =>
      if 0 <=? e then n <? signed sign m * 2 ^ e
      else n * 2 ^ (- e) <? signed sign m
  end.

Definition float_lt_Z (x : float) (n : Z) : bool :=
  match Prim2SF x with
  | S754_zero _ => 0 <? n
  | S754_infinity sign => sign
  | S754_nan => false
  | S754_finite sign m e =>
      if 0 <=? e then signed sign m * 2 ^ e <? n
      else signed sign m <? n * 2 ^ (- e)
  end.

(** [a < b] on strings: lexicographic on code points. *)
Fixpoint str_lt (a b : pystr) : bool :=
  match a, b with
  | _, [] => false
  | [], _ :: _ => true
  | x :: a', y :: b' => (x <? y)%N || ((x =? y)%N && str_lt a' b')
  end.

Fixpoint list_lt (a b : list pystr) : bool :=
  match a, b with
  | _, [] => false
  | [], _ :: _ => true
  | x :: a', y :: b' => str_lt x y || (Py.str_eqb x y && list_lt a' b')
  end.

Definition as_int (v : value) : option Z :=
  match v with
  | VBool b => Some (if b then 1 else 0)
  | VInt z => Some z
  | _ => None
  end.

(** [a < b]; values of unrelated types do not compare. *)
Definition lt (a b : value) : Py.result bool :=
  match a, b with
  | VFloat x, VFloat y => Py.Ok (PrimFloat.ltb x y)
  | VStr x, VStr y => Py.Ok (str_lt x y)
  | VList x, VList y => Py.Ok (list_lt x y)
  | VFloat x, _ =>
      match as_int b with
      | Some n => Py.Ok (float_lt_Z x n)
      | None => Py.Raise Py.TypeError
      end
  | _, VFloat y =>
      match as_int a with
      | Some n => Py.Ok (Z_lt_float n y)
      | None => Py.Raise Py.TypeError
      end
  | _, _ =>
      match as_int a, as_int b with
      | Some m, Some n => Py.Ok (m <? n)
      | _, _ => Py.Raise Py.TypeError
      end
  end.

(** [d[key]] *)
Definition getitem (d : dict) (key : string) : Py.result value :=
  match d !! key with
  | Some v => Py.Ok v
  | None => Py.Raise (Py.KeyError key)
  end.

(** [d.get(key)] *)
Definition get (d : dict) (key : string) : value :=
  default VNone (d !! key).

End Value.

(** A [dict] keyed by record id that remembers the order of insertion;
    assigning to a present key keeps its place. *)
Module ODict.

Definition t (V : Type) := list (pystr * V).

Fixpoint get {V} (d : t V) (k : pystr) : option V :=
  match d with
  | [] => None
  | (k', v) :: d' => if Py.str_eqb k k' then Some v else get d' k
  end.

Fixpoint set {V} (d : t V) (k : pystr) (v : V) : t V :=
  match d with
  | [] => [(k, v)]
  | (k', v') :: d' =>
      if Py.str_eqb k k' then (k, v) :: d' else (k', v') :: set d' k v
  end.

Definition keys {V} (d : t V) : list pystr := map fst d.
Definition values {V} (d : t V) : list V := map snd d.

End ODict.

(** [sorted(docs, key=lambda x: x[key], reverse=True)]: the keys are read
    first, then the documents are ordered by decreasing key, documents with
    equal keys staying in their original order.  Only [<] is consulted.
    This is Python's result wherever [<] orders the keys, which is the case
    of scores without a NaN.  With a NaN among the keys the arrangement
    Python returns depends on the comparisons its sorting algorithm happens
    to make and is not what this function computes: of such a result the
    development states only what holds of every rearrangement of the
    input, and every statement about the order carries the hypothesis that
    no score is a NaN. *)
Module Sorted.

Fixpoint insert_desc {A} (x : value * A) (l : list (value * A))
  : Py.result (list (value * A)) :=
  match l with
  | [] => Py.Ok [x]
  | y :: l' =>
      b ← Value.lt (fst x) (fst y);
      if b : bool then r ← insert_desc x l'; Py.Ok (y :: r)
      else Py.Ok (x :: y :: l')
  end.

Fixpoint sort_desc {A} (l : list (value * A)) : Py.result (list (value * A)) :=
  match l with
  | [] => Py.Ok []
  | x :: l' => r ← sort_desc l'; insert_desc x r
  end.

Fixpoint with_keys (key : string) (docs : list dict)
  : Py.result (list (value * dict)) :=
  match docs with
  | [] => Py.Ok []
  | d :: docs' =>
      k ← Value.getitem d key;
      r ← with_keys key docs';
      Py.Ok ((k, d) :: r)
  end.

Definition sorted_by_desc (key : string) (docs : list dict)
  : Py.result (list dict) :=
  keyed ← with_keys key docs;
  r ← sort_desc keyed;
  Py.Ok (map snd r).

End Sorted.

(** The loop [while '__' in clean: clean = clean.replace('__', '_')] that
    both sanitizers contain, with the number of iterations left as fuel. *)
Fixpoint collapse_loop (fuel : nat) (clean : pystr) : pystr :=
  match fuel with
  | O => clean
  | S fuel' =>
      if Py.contains (py "__") clean
      then collapse_loop fuel' (Py.replace clean (py "__") (py "_"))
      else clean
  end.

(** Every iteration shortens the string, so its length is fuel enough: the
    loop has met its exit condition when the fuel is spent (lemma
    [collapse_underscores_done]). *)
Definition collapse_underscores (clean : pystr) : pystr :=
  collapse_loop (length clean) clean.

(** ** [transform_to_pinecone_format.py] *)

(** The input document, typed as the docstring of
    [transform_metadata_to_records] gives it; a key the JSON object lacks is
    [None]. *)
Record Slide := {
  slide_number : option Z;
  slide_content : option pystr;
  slide_summary : option pystr;
  keywords : option (list pystr);
  slide_layout : option pystr;
  image_url : option pystr
}.

Record DeckMeta := {
  filename : option pystr;
  deck_industry : option pystr;
  company_name : option pystr;
  executive_summary : option pystr;
  total_pages : option Z;
  created_date : option pystr;
  pdf_url : option pystr
}.

Record Metadata := {
  deck_metadata : option DeckMeta;
  slide_data : option (list Slide)
}.

Module Transform.

(** [MAX_BATCH_SIZE = 96] *)
Definition MAX_BATCH_SIZE : Z := 96.

(** [if text.endswith('.pdf'): text = text[:-4]] *)
Definition strip_pdf_ext (text : pystr) : pystr :=
  if Py.endswith text (py ".pdf") then Py.slice text None (Some (-4))
  else text.

(** The two lines of [str.replace] calls. *)
Definition replace_specials (text : pystr) : pystr :=
  let clean := Py.replace text (py " ") (py "_") in
  let clean := Py.replace clean (py "(") (py "") in
  let clean := Py.replace clean (py ")") (py "") in
  let clean := Py.replace clean (py "[") (py "") in
  let clean := Py.replace clean (py "]") (py "") in
  Py.replace clean (py "-") (py "_").

(** [c.isascii() and (c.isalnum() or c == '_')] *)
Definition keeps (c : pychar) : bool :=
  Py.isascii c && (Py.isalnum_ascii c || N.eqb c (chr "_")).

(** [''.join(c if ... else '_' for c in clean)] *)
Definition ascii_only (clean : pystr) : pystr :=
  map (fun c => if keeps c then c else chr "_") clean.

Definition sanitize_id (text : pystr) : pystr :=
  let text := strip_pdf_ext text in
  let clean := replace_specials text in
  let clean := ascii_only clean in
  let clean := collapse_underscores clean in
  Py.lower (Py.strip (py "_") clean).

(** [d.get(key, '')] on an optional text field. *)
Definition get_str (o : option pystr) : pystr := default [] o.

Definition build_deck_content (deck_meta : DeckMeta) : pystr :=
  let parts := [
    py "Filename: " ++ get_str (filename deck_meta);
    py "Industry: " ++ get_str (deck_industry deck_meta);
    py "Company: " ++ get_str (company_name deck_meta);
    py "Executive Summary: " ++ get_str (executive_summary deck_meta)
  ] in
  Py.join [10%N] parts.

(** [if slide.get(key)]: present and not empty. *)
Definition nonempty {A} (o : option (list A)) : option (list A) :=
  match o with
  | Some (x :: l) => Some (x :: l)
  | _ => None
  end.

Definition build_slide_content (slide : Slide) : pystr :=
  let parts := [] in
  let parts :=
    match nonempty (slide_content slide) with
    | Some c => parts ++ [py "Content: " ++ c]
    | None => parts
    end in
  let parts :=
    match nonempty (slide_summary slide) with
    | Some c => parts ++ [py "Summary: " ++ c]
    | None => parts
    end in
  let parts :=
    match nonempty (keywords slide) with
    | Some ks => parts ++ [py "Keywords: " ++ Py.join (py ", ") ks]
    | None => parts
    end in
  let parts :=
    match nonempty (slide_layout slide) with
    | Some c => parts ++ [py "Layout: " ++ c]
    | None => parts
    end in
  Py.join [10%N] parts.

(** [d[key]] on the typed input. *)
Definition require {A} (key : string) (o : option A) : Py.result A :=
  match o with
  | Some a => Py.Ok a
  | None => Py.Raise (Py.KeyError key)
  end.

Definition deck_record (pdf_id fname : pystr) (deck_meta : DeckMeta) : dict :=
  let rec : dict :=
    <["created_date" := VStr (get_str (created_date deck_meta))]>
    (<["total_pages" := VInt (default 0 (total_pages deck_meta))]>
    (<["industry" := VStr (get_str (deck_industry deck_meta))]>
    (<["company" := VStr (get_str (company_name deck_meta))]>
    (<["pdf_filename" := VStr fname]>
    (<["pdf_id" := VStr pdf_id]>
    (<["type" := VStr (py "deck_metadata")]>
    (<["content" := VStr (build_deck_content deck_meta)]>
    (<["_id" := VStr (pdf_id ++ py "_meta")]> ∅)))))))) in
  match nonempty (pdf_url deck_meta) with
  | Some u => <["pdf_url" := VStr u]> rec
  | None => rec
  end.

(** The [slide_record] literal, once [slide['slide_number']] is read. *)
Definition slide_record_of (pdf_id fname : pystr) (deck_meta : DeckMeta)
    (slide : Slide) (n : Z) : dict :=
  <["image_url" := VStr (get_str (image_url slide))]>
  (<["slide_layout" := VStr (get_str (slide_layout slide))]>
  (<["keywords" := VStr (Py.join (py ", ") (default [] (keywords slide)))]>
  (<["slide_number" := VInt n]>
  (<["industry" := VStr (get_str (deck_industry deck_meta))]>
  (<["company" := VStr (get_str (company_name deck_meta))]>
  (<["pdf_filename" := VStr fname]>
  (<["pdf_id" := VStr pdf_id]>
  (<["type" := VStr (py "slide")]>
  (<["content" := VStr (build_slide_content slide)]>
  (<["_id" := VStr (pdf_id ++ py "_slide_" ++ Py.format_03d n)]>
     ∅)))))))))).

Definition slide_record (pdf_id fname : pystr) (deck_meta : DeckMeta)
    (slide : Slide) : Py.result dict :=
  n ← require "slide_number" (slide_number slide);
  Py.Ok (slide_record_of pdf_id fname deck_meta slide n).

(** [pdf_id]: the sanitized file name, or the timestamp fallback when
    nothing is left of it. *)
Definition document_id (timestamp fname : pystr) : pystr :=
  let pdf_id := sanitize_id fname in
  if Py.str_eqb pdf_id [] || Py.str_eqb pdf_id (py "_")
  then py "doc_" ++ timestamp else pdf_id.

(** One round of [for slide in slides: ... records.append(slide_record)]. *)
Definition append_slide (pdf_id fname : pystr) (deck_meta : DeckMeta)
    (records : list dict) (slide : Slide) : Py.result (list dict) :=
  r ← slide_record pdf_id fname deck_meta slide;
  Py.Ok (records ++ [r]).

Record DocInfo := {
  di_pdf_id : pystr;
  di_filename : pystr;
  di_company : pystr;
  di_industry : pystr;
  di_total_records : nat;
  di_deck_metadata_record : nat;
  di_slide_records : nat
}.

(** [timestamp] is what [datetime.now().strftime('%Y%m%d_%H%M%S')] would
    give at the call. *)
Definition transform_metadata_to_records (timestamp : pystr) (data : Metadata)
  : Py.result (list dict * DocInfo) :=
  deck_meta ← require "deck_metadata" (deck_metadata data);
  slides ← require "slide_data" (slide_data data);
  fname ← require "filename" (filename deck_meta);
  let pdf_id := document_id timestamp fname in
  let records := [deck_record pdf_id fname deck_meta] in
  records ← Py.for_each (append_slide pdf_id fname deck_meta) slides records;
  Py.Ok (records,
         {| di_pdf_id := pdf_id;
            di_filename := fname;
            di_company := get_str (company_name deck_meta);
            di_industry := get_str (deck_industry deck_meta);
            di_total_records := length records;
            di_deck_metadata_record := 1;
            di_slide_records := length slides |}).

Definition create_batches {A} (records : list A) (batch_size : Z)
  : Py.result (list (list A)) :=
  starts ← Py.range 0 (Z.of_nat (length records)) batch_size;
  Py.Ok (map (fun i => Py.slice records (Some i) (Some (i + batch_size)))
             starts).

Definition validate_record (record : dict) : bool * string :=
  match record !! "_id" with
  | None => (false, "Missing '_id' field"%string)
  | Some _ =>
      match record !! "content" with
      | None => (false, "Missing 'content' field"%string)
      | Some content =>
          if negb (Value.truthy content) || negb (Value.is_str content)
          then (false, "Invalid or empty 'content' field"%string)
          else
            match content with
            | VStr s =>
                if (length (Py.strip_ws s) =? 0)%nat
                then (false, "Empty 'content' field"%string)
                else (true, "Valid"%string)
            | _ => (true, "Valid"%string)
            end
      end
  end.

(** The file system as [process_metadata_file] uses it; each operation
    may raise (a directory that cannot be made, a disk that is full, a
    text that the encoding refuses).  [fs_mkdir pdf_id] is
    [batch_dir.mkdir(parents=True, exist_ok=True)], [fs_write_batch
    pdf_id idx batch] opens [batch_<idx>.json] and dumps the batch into
    it, [fs_write_summary doc_info total_batches] writes
    [summary.json]. *)
Record FileSystem := {
  fs_mkdir : pystr -> Py.result unit;
  fs_write_batch : pystr -> nat -> list dict -> Py.result unit;
  fs_write_summary : DocInfo -> nat -> Py.result unit
}.

(** What one run of [process_metadata_file] does: the value it returns,
    the lines it prints for invalid records (the record's id and the
    reason), and the batches whose files it has written in full. *)
Record Outcome := {
  returned : bool;
  invalid_reports : list (value * string);
  saved_batches : list (list dict)
}.

(** The validation loop of [process_metadata_file]. *)
Fixpoint validation_loop (records : list dict)
  : list (value * string) * nat :=
  match records with
  | [] => ([], 0%nat)
  | record :: records' =>
      let '(is_valid, message) := validate_record record in
      let '(reports, invalid_count) := validation_loop records' in
      if is_valid then (reports, invalid_count)
      else ((default (VStr (py "unknown")) (record !! "_id"), message)
              :: reports, S invalid_count)
  end.

(** The loop of [save_batches] over [enumerate(batches, 1)], from the
    batch numbered [idx] on: how it ends, and the batches written. *)
Fixpoint save_loop (fs : FileSystem) (pdf_id : pystr) (idx : nat)
    (batches : list (list dict)) : Py.result unit * list (list dict) :=
  match batches with
  | [] => (Py.Ok tt, [])
  | batch :: batches' =>
      match fs_write_batch fs pdf_id idx batch with
      | Py.Raise e => (Py.Raise e, [])
      | Py.Ok _ =>
          let '(r, saved) := save_loop fs pdf_id (S idx) batches' in
          (r, batch :: saved)
      end
  end.

Definition save_batches (fs : FileSystem) (batches : list (list dict))
    (pdf_id : pystr) : Py.result unit * list (list dict) :=
  match fs_mkdir fs pdf_id with
  | Py.Raise e => (Py.Raise e, [])
  | Py.Ok _ => save_loop fs pdf_id 1 batches
  end.

(** The [try] block; [except Exception] turns any exception into the
    return value [False], whatever has been written by then. *)
Definition process_metadata_file (fs : FileSystem) (timestamp : pystr)
    (data : Metadata) : Outcome :=
  match transform_metadata_to_records timestamp data with
  | Py.Raise _ =>
      {| returned := false; invalid_reports := []; saved_batches := [] |}
  | Py.Ok (records, doc_info) =>
      let '(reports, invalid_count) := validation_loop records in
      if (0 <? invalid_count)%nat
      then {| returned := false; invalid_reports := reports;
              saved_batches := [] |}
      else
        match create_batches records MAX_BATCH_SIZE with
        | Py.Raise _ =>
            {| returned := false; invalid_reports := reports;
               saved_batches := [] |}
        | Py.Ok batches =>
            let '(r, saved) :=
              save_batches fs batches (di_pdf_id doc_info) in
            match r with
            | Py.Raise _ =>
                {| returned := false; invalid_reports := reports;
                   saved_batches := saved |}
            | Py.Ok _ =>
                match fs_write_summary fs doc_info (length batches) with
                | Py.Raise _ =>
                    {| returned := false; invalid_reports := reports;
                       saved_batches := saved |}
                | Py.Ok _ =>
                    {| returned := true; invalid_reports := reports;
                       saved_batches := saved |}
                end
            end
        end
  end.

End Transform.

(** ** [upsert_to_pinecone.py] *)

Module Upsert.

Section SanitizePdfId.

(** [Path(filename).stem] of the standard library's [pathlib]; the
    sanitizer is modelled for whatever it returns. *)
Variable stem : pystr -> pystr.

(** [c.isascii() and (c.isalnum() or c in '_- ')] *)
Definition keeps (c : pychar) : bool :=
  Py.isascii c && (Py.isalnum_ascii c || Py.contains [c] (py "_- ")).

Definition sanitize_pdf_id (filename : pystr) : pystr :=
  let base := stem filename in
  let clean := Py.replace base (py "(") (py "") in
  let clean := Py.replace clean (py ")") (py "") in
  let clean := Py.replace clean (py "[") (py "") in
  let clean := Py.replace clean (py "]") (py "") in
  let clean := map (fun c => if keeps c then c else chr "_") clean in
  let clean := Py.replace clean (py " ") (py "_") in
  let clean := Py.replace clean (py "-") (py "_") in
  let clean := collapse_underscores clean in
  Py.lower (Py.strip (py "_") clean).

End SanitizePdfId.

End Upsert.

(** ** [validate_transformation.py] *)

Module ValidateTransformation.

(** The entries of [self.validation_errors]: each constructor stands for
    one of the formatted messages, with the record index it names. *)
Inductive message :=
| MissingFields (idx : nat) (missing : list string)
| EmptyId (idx : nat)
| BadContent (idx : nat)
| BadType (idx : nat)
| SlideMissingNumber (idx : nat)
| SlideMissingKeywords (idx : nat)
| Earlier (text : string).

Definition required_fields : list string :=
  ["_id"; "content"; "type"; "pdf_id"; "pdf_title"; "company"; "industry"]%string.

(** [key in record] *)
Definition has_key (record : dict) (key : string) : bool :=
  match record !! key with Some _ => true | None => false end.

(** [v in ["deck_metadata", "slide"]] *)
Definition known_type (v : value) : bool :=
  Value.eq_str v (py "deck_metadata") || Value.eq_str v (py "slide").

(** The body of the loop over [enumerate(records)]: the messages it
    appends for one record. *)
Definition check_record (idx : nat) (record : dict) : list message :=
  let missing_fields :=
    List.filter (fun key => negb (has_key record key)) required_fields in
  (match missing_fields with
   | [] => []
   | _ :: _ => [MissingFields idx missing_fields]
   end)
  ++ (if negb (Value.truthy (Value.get record "_id"))
      then [EmptyId idx] else [])
  ++ (if negb (Value.is_str (Value.get record "content"))
         || negb (Value.truthy (Value.get record "content"))
      then [BadContent idx] else [])
  ++ (if negb (known_type (Value.get record "type"))
      then [BadType idx] else [])
  ++ (if Value.eq_str (Value.get record "type") (py "slide")
      then (if negb (has_key record "slide_number")
            then [SlideMissingNumber idx] else [])
           ++ (if negb (has_key record "keywords")
               then [SlideMissingKeywords idx] else [])
      else []).

Fixpoint check_records (idx : nat) (records : list dict)
    (validation_errors : list message) : list message :=
  match records with
  | [] => validation_errors
  | record :: records' =>
      check_records (S idx) records'
        (validation_errors ++ check_record idx record)
  end.

(** The method, with [self.validation_errors] passed in and out. *)
Definition validate_pinecone_records (validation_errors : list message)
    (records : list dict) : bool * list message :=
  let validation_errors := check_records 0 records validation_errors in
  match validation_errors with
  | [] => (true, validation_errors)
  | _ :: _ => (false, validation_errors)
  end.

End ValidateTransformation.

(** ** Search hits and merged results *)

(** One element of [results['result']['hits']]: [_id], [_score], [fields]. *)
Record Hit := {
  hit_id : pystr;
  hit_score : float;
  hit_fields : gmap string value
}.

(** The body that [_merge_results] and [merge_results] share word for
    word; they differ in how the document of a hit is built. *)
Module Merge.

Section WithDoc.

(** The [doc] built for a new hit. *)
Variable make_doc : Hit -> Py.result (gmap string value).

(** One round of the loop over the dense hits: [hits[hit['_id']] = doc]. *)
Definition add_dense (hits : ODict.t (gmap string value)) (hit : Hit)
  : Py.result (ODict.t (gmap string value)) :=
  doc ← make_doc hit;
  Py.Ok (ODict.set hits (hit_id hit) doc).

(** One round of the loop over the sparse hits. *)
Definition add_sparse (hits : ODict.t (gmap string value)) (hit : Hit)
  : Py.result (ODict.t (gmap string value)) :=
  match ODict.get hits (hit_id hit) with
  | Some doc =>
      old ← Value.getitem doc "_score";
      sum ← Value.add_float old (hit_score hit);
      Py.Ok (ODict.set hits (hit_id hit)
               (<["_score" := VFloat (sum / 2)%float]> doc))
  | None =>
      doc ← make_doc hit;
      Py.Ok (ODict.set hits (hit_id hit) doc)
  end.

Definition merge_hits (dense_results sparse_results : list Hit)
  : Py.result (list (gmap string value)) :=
  hits ← Py.for_each add_dense dense_results [];
  hits ← Py.for_each add_sparse sparse_results hits;
  Sorted.sorted_by_desc "_score" (ODict.values hits).

End WithDoc.

End Merge.

(** ** [deckbot_unified_index.py] *)

Module UnifiedIndex.

Definition DENSE_INDEX_NAME : pystr := py "deckbot-dense-korean".
Definition SPARSE_INDEX_NAME : pystr := py "deckbot-sparse-korean".
Definition GLOBAL_NAMESPACE : pystr := py "global".

(** [for key, value in hit['fields'].items(): if key != 'content':
    doc[key] = value] *)
Definition copy_fields (fields doc : dict) : dict :=
  map_fold
    (fun key v doc => if String.eqb key "content" then doc else <[key := v]> doc)
    doc fields.

(** [{'_id': hit['_id'], 'content': hit['fields']['content'], '_score':
    hit['_score']}], then the other fields. *)
Definition make_doc (hit : Hit) : Py.result dict :=
  content ← Value.getitem (hit_fields hit) "content";
  let doc : dict :=
    <["_score" := VFloat (hit_score hit)]>
    (<["content" := content]>
    (<["_id" := VStr (hit_id hit)]> ∅)) in
  Py.Ok (copy_fields (hit_fields hit) doc).

Definition _merge_results (dense_results sparse_results : list Hit)
  : Py.result (list dict) :=
  Merge.merge_hits make_doc dense_results sparse_results.

End UnifiedIndex.

(** ** [setup_hybrid_search.py] *)

Module HybridSearch.

Definition DENSE_INDEX : pystr := py "ilgram-db-insurance-korean".
Definition SPARSE_INDEX : pystr := py "ilgram-db-insurance-korean-sparse".
Definition NAMESPACE : pystr := py "db-insurance-campaign".

Definition copied_keys : list string :=
  ["keywords"; "slide_number"; "type"]%string.

(** [for key in ['keywords', 'slide_number', 'type']: if key in
    hit['fields']: doc[key] = hit['fields'][key]] *)
Definition copy_keys (fields doc : dict) : dict :=
  fold_left
    (fun doc key =>
       match fields !! key with
       | Some v => <[key := v]> doc
       | None => doc
       end)
    copied_keys doc.

Definition make_doc (hit : Hit) : Py.result dict :=
  content ← Value.getitem (hit_fields hit) "content";
  let doc : dict :=
    <["_score" := VFloat (hit_score hit)]>
    (<["content" := content]>
    (<["_id" := VStr (hit_id hit)]> ∅)) in
  Py.Ok (copy_keys (hit_fields hit) doc).

Definition merge_results (dense_results sparse_results : list Hit)
  : Py.result (list dict) :=
  Merge.merge_hits make_doc dense_results sparse_results.

End HybridSearch.

(** ** The external services and the searches that call them *)

(** The [query] argument of an index search. *)
Record SearchQuery := {
  sq_top_k : Z;
  sq_text : pystr;
  sq_filter : option (gmap string value)
}.

(** What the reranker returns: documents with their relevance scores. *)
Abbreviation Reranked := (list (gmap string value * float)) (only parsing).

(** A call made to an external service. *)
Inductive Call :=
| CallSearch (index namespace : pystr) (query : SearchQuery)
| CallRerank (query : pystr) (documents : list (gmap string value)) (top_n : Z).

(** The services as the scripts use them: [pc.Index(name).search] and
    [pc.inference.rerank]; either may raise. *)
Record Services := {
  index_search : pystr -> pystr -> SearchQuery -> Py.result (list Hit);
  inference_rerank : pystr -> list (gmap string value) -> Z -> Py.result Reranked
}.

(** Code that calls services: it extends the log of calls made so far and
    ends with a value or an exception. *)
Module IO.

Definition t (A : Type) : Type := list Call -> Py.result A * list Call.

Definition ret {A} (a : A) : t A := fun log => (Py.Ok a, log).

Definition bind {A B} (m : t A) (k : A -> t B) : t B :=
  fun log =>
    match m log with
    | (Py.Ok a, log') => k a log'
    | (Py.Raise e, log') => (Py.Raise e, log')
    end.

(** A call of a service: it is logged, and its outcome is the result. *)
Definition call {A} (c : Call) (outcome : Py.result A) : t A :=
  fun log => (outcome, log ++ [c]).

(** Code that calls no service. *)
Definition pure {A} (r : Py.result A) : t A := fun log => (r, log).

Definition run {A} (m : t A) : Py.result A * list Call := m [].

End IO.

#[export] Instance io_bind : MBind IO.t := fun A B k m => IO.bind m k.
#[export] Instance io_ret : MRet IO.t := @IO.ret.


Module UnifiedSearch.

Import UnifiedIndex.

(** [x[:n]] and [len(x)] need a string or a list. *)
Definition sliceable (v : value) : Py.result unit :=
  match v with
  | VStr _ | VList _ => Py.Ok tt
  | _ => Py.Raise Py.TypeError
  end.

(** [content[:200] + "..." if len(content) > 200 else content]: [len]
    needs a string or a list, and a list of more than 200 items cannot
    be added to a string. *)
Definition preview (content : value) : Py.result unit :=
  match content with
  | VStr _ => Py.Ok tt
  | VList l =>
      if (200 <? length l)%nat then Py.Raise Py.TypeError else Py.Ok tt
  | _ => Py.Raise Py.TypeError
  end.

(** [_display_results] prints only; what is kept of it is where it can
    raise: [doc['_id']], [doc['keywords'][:100]] and the preview of
    [doc.get('content', '')]. *)
Definition display_item (st : unit) (item : gmap string value * float)
  : Py.result unit :=
  let doc := fst item in
  _ ← Value.getitem doc "_id";
  _ ← match doc !! "keywords" with
      | Some v => sliceable v
      | None => Py.Ok tt
      end;
  match doc !! "content" with
  | Some v => preview v
  | None => Py.Ok tt
  end.

Definition _display_results (results : Reranked) : Py.result unit :=
  Py.for_each display_item results tt.

(** [if filters: search_query["filter"] = filters] *)
Definition with_filter (filters : option (gmap string value))
  : option (gmap string value) :=
  match filters with
  | Some f => if bool_decide (dom f = ∅) then None else Some f
  | None => None
  end.

Definition cascading_search (svc : Services) (query namespace : pystr)
    (filters : option (gmap string value)) (top_k rerank_top_n : Z)
  : IO.t Reranked :=
  let search_query :=
    {| sq_top_k := top_k; sq_text := query; sq_filter := with_filter filters |} in
  dense_results ←
    IO.call (CallSearch DENSE_INDEX_NAME namespace search_query)
            (index_search svc DENSE_INDEX_NAME namespace search_query);
  sparse_results ←
    IO.call (CallSearch SPARSE_INDEX_NAME namespace search_query)
            (index_search svc SPARSE_INDEX_NAME namespace search_query);
  merged ← IO.pure (_merge_results dense_results sparse_results);
  let top_n := Z.min rerank_top_n (Z.of_nat (length merged)) in
  final_results ←
    IO.call (CallRerank query merged top_n)
            (inference_rerank svc query merged top_n);
  _ ← IO.pure (_display_results final_results);
  mret final_results.

End UnifiedSearch.

Module HybridSearchRun.

Import HybridSearch.

(** The printing loop of [hybrid_search], kept where it can raise:
    [doc['_id']] and [doc['content'][:150]]. *)
Definition display_item (st : unit) (item : gmap string value * float)
  : Py.result unit :=
  let doc := fst item in
  _ ← Value.getitem doc "_id";
  content ← Value.getitem doc "content";
  UnifiedSearch.sliceable content.

Definition hybrid_search (svc : Services) (query : pystr)
    (top_k rerank_top_n : Z) : IO.t Reranked :=
  let search_query :=
    {| sq_top_k := top_k; sq_text := query; sq_filter := None |} in
  dense_results ←
    IO.call (CallSearch DENSE_INDEX NAMESPACE search_query)
            (index_search svc DENSE_INDEX NAMESPACE search_query);
  sparse_results ←
    IO.call (CallSearch SPARSE_INDEX NAMESPACE search_query)
            (index_search svc SPARSE_INDEX NAMESPACE search_query);
  merged ← IO.pure (merge_results dense_results sparse_results);
  final_results ←
    IO.call (CallRerank query merged rerank_top_n)
            (inference_rerank svc query merged rerank_top_n);
  _ ← IO.pure (Py.for_each display_item final_results tt);
  mret final_results.

End HybridSearchRun.

(** ** Vocabulary of the statements *)

(** A character of a sanitized identifier: [a-z], [0-9] or [_]. *)
Definition id_char (c : pychar) : bool :=
  Py.is_lower c || Py.is_digit c || N.eqb c (chr "_").

(** A sanitized identifier: lowercase ASCII letters, digits and
    underscores, no underscore at either end, no two underscores in a row. *)
Definition canonical_id (s : pystr) : Prop :=
  Forall (fun c => id_char c = true) s
  /\ Py.startswith s (py "_") = false
  /\ Py.endswith s (py "_") = false
  /\ Py.contains (py "__") s = false.

Definition ascii_safe (s : pystr) : Prop :=
  Forall (fun c => Py.isascii c = true) s.

(** A character of an identifier under construction, once the non-ASCII
    characters are gone: an ASCII letter, a digit or an underscore. *)
Definition mid_char (c : pychar) : bool := Py.isalnum_ascii c || N.eqb c 95.

(** What the [str.replace] calls of [sanitize_id] do to one character: a
    space or a hyphen becomes an underscore, a parenthesis or a bracket
    disappears, any other character stays. *)
Definition replace_special_char (c : pychar) : pystr :=
  if N.eqb 32 c || N.eqb 45 c then [95%N]
  else if N.eqb 40 c || N.eqb 41 c || N.eqb 91 c || N.eqb 93 c then []
  else [c].

(** The replacement step as the specification words it: every whitespace
    character and every one of [()[]-] becomes an underscore. *)
Definition spec_replace_specials (text : pystr) : pystr :=
  map (fun c => if Py.isspace c || Py.contains [c] (py "()[]-")
                then chr "_" else c) text.

(** [m] consecutive batches of size [k] cut from [l]. *)
Definition batches_of {A} (k m : nat) (l : list A) : list (list A) :=
  map (fun j => firstn k (skipn (j * k) l)) (seq 0 m).

(** The number of start indices [range(0, len(records), batch_size)] yields. *)
Definition batch_count {A} (l : list A) (batch_size : Z) : nat :=
  Z.to_nat (Py.range_len 0 (Z.of_nat (length l)) batch_size).

(** The [_id] of a record. *)
Definition record_id (record : gmap string value) : option value :=
  record !! "_id".

(** The class of an exception, by its Python name. *)
Definition exn_class (e : Py.exn) : string :=
  match e with
  | Py.KeyError _ => "KeyError"
  | Py.ValueError => "ValueError"
  | Py.TypeError => "TypeError"
  | Py.OverflowError => "OverflowError"
  | Py.ServiceError _ => "ServiceError"
  end.

(** The id [transform_metadata_to_records] gives the record of a slide
    that has a number. *)
Definition slide_id (pdf_id : pystr) (slide : Slide) : option value :=
  match slide_number slide with
  | Some n => Some (VStr (pdf_id ++ py "_slide_" ++ Py.format_03d n))
  | None => None
  end.

(** A record in which [validate_pinecone_records] finds nothing to report. *)
Definition record_ok (record : gmap string value) : bool :=
  forallb (ValidateTransformation.has_key record)
          ValidateTransformation.required_fields
  && Value.truthy (Value.get record "_id")
  && Value.is_str (Value.get record "content")
  && Value.truthy (Value.get record "content")
  && ValidateTransformation.known_type (Value.get record "type")
  && (if Value.eq_str (Value.get record "type") (py "slide")
      then ValidateTransformation.has_key record "slide_number"
           && ValidateTransformation.has_key record "keywords"
      else true).

(** The record a message of [validate_pinecone_records] names. *)
Definition message_index (m : ValidateTransformation.message) : option nat :=
  match m with
  | ValidateTransformation.MissingFields idx _
  | ValidateTransformation.EmptyId idx
  | ValidateTransformation.BadContent idx
  | ValidateTransformation.BadType idx
  | ValidateTransformation.SlideMissingNumber idx
  | ValidateTransformation.SlideMissingKeywords idx => Some idx
  | ValidateTransformation.Earlier _ => None
  end.

(** The validity of a record as the specification words it: id present and
    non-empty; content present, text, non-empty after trimming; a known
    type; a slide has [slide_number] and [keywords]. *)
Definition spec_record_valid (record : gmap string value) : bool :=
  Value.truthy (Value.get record "_id")
  && match record !! "content" with
     | Some (VStr s) => negb (Py.str_eqb (Py.strip_ws s) [])
     | _ => false
     end
  && ValidateTransformation.known_type (Value.get record "type")
  && (if Value.eq_str (Value.get record "type") (py "slide")
      then ValidateTransformation.has_key record "slide_number"
           && ValidateTransformation.has_key record "keywords"
      else true).

(** A record [validate_record] accepts, and the line
    [process_metadata_file] prints for one it rejects. *)
Definition record_passes (record : gmap string value) : bool :=
  fst (Transform.validate_record record).

Definition invalid_report (record : gmap string value) : value * string :=
  (default (VStr (py "unknown")) (record !! "_id"),
   snd (Transform.validate_record record)).

(** A hit as an index returns it: its fields hold the content, and [_id]
    and [_score] are the hit's own entries, not names of fields. *)
Definition wf_hit (h : Hit) : Prop :=
  is_Some (hit_fields h !! "content")
  /\ hit_fields h !! "_id" = None
  /\ hit_fields h !! "_score" = None.


(** The entry of a hit under a name a merged result uses: its id, or one
    of its fields. *)
Definition hit_field (h : Hit) (key : string) : option value :=
  if String.eqb key "_id" then Some (VStr (hit_id h)) else hit_fields h !! key.

(** [(s1 + s2) / 2] on floats. *)
Definition mean (s1 s2 : float) : float := ((s1 + s2) / 2)%float.

(** The names [merge_results] of [setup_hybrid_search.py] gives a result. *)
Definition hybrid_keys : list string :=
  ["_id"; "content"; "keywords"; "slide_number"; "type"]%string.

(** A document paired with a float as its sort key. *)
Definition float_key {A} (x : value * A) : Prop := exists s, fst x = VFloat s.

(** An entry of the dictionary [hits] as the merge keeps it: the document
    carries its key as [_id] and a float as [_score]. *)
Definition merged_entry (entry : pystr * gmap string value) : Prop :=
  snd entry !! "_id" = Some (VStr (fst entry))
  /\ exists s, snd entry !! "_score" = Some (VFloat s).

(** The invariant of [hits] through both loops of the merge: distinct
    keys, each document filed under its own id with a float score. *)
Definition good (hits : ODict.t (gmap string value)) : Prop :=
  List.NoDup (ODict.keys hits) /\ Forall merged_entry hits.

(** The three entries every merged document starts with. *)
Definition base_doc (h : Hit) : gmap string value :=
  <["_score" := VFloat (hit_score h)]>
  (<["content" := Value.get (hit_fields h) "content"]>
  (<["_id" := VStr (hit_id h)]> ∅)).


(** The documents the two scripts build for a hit that has a content. *)
Definition unified_doc (h : Hit) : gmap string value :=
  UnifiedIndex.copy_fields (hit_fields h) (base_doc h).

Definition hybrid_doc (h : Hit) : gmap string value :=
  HybridSearch.copy_keys (hit_fields h) (base_doc h).

(** The query both index searches of [cascading_search] receive. *)
Definition search_query_of (query : pystr)
    (filters : option (gmap string value)) (top_k : Z) : SearchQuery :=
  {| sq_top_k := top_k; sq_text := query;
     sq_filter := UnifiedSearch.with_filter filters |}.

(** What [cascading_search] returns once the reranker has answered. *)
Definition after_rerank (answer : Py.result (list (gmap string value * float)))
  : Py.result (list (gmap string value * float)) :=
  final_results ← answer;
  _ ← UnifiedSearch._display_results final_results;
  Py.Ok final_results.

(** ** Example inputs *)

Module Examples.

Definition title : pystr := py "DB (Insurance) 2025.pdf".

Definition slide_numbered (n : Z) : Slide :=
  {| slide_number := Some n;
     slide_content := None;
     slide_summary := Some (py "Campaign overview");
     keywords := Some [py "insurance"; py "campaign"];
     slide_layout := None;
     image_url := None |}.

(** A slide whose JSON object has no [slide_number] key. *)
Definition slide_unnumbered : Slide :=
  {| slide_number := None;
     slide_content := None;
     slide_summary := Some (py "Closing");
     keywords := None;
     slide_layout := None;
     image_url := None |}.

(** A numbered slide with nothing to index: its content comes out empty. *)
Definition slide_blank (n : Z) : Slide :=
  {| slide_number := Some n;
     slide_content := None;
     slide_summary := None;
     keywords := None;
     slide_layout := None;
     image_url := None |}.

Definition deck : DeckMeta :=
  {| filename := Some title;
     deck_industry := Some (py "insurance");
     company_name := Some (py "DB");
     executive_summary := Some (py "Summary");
     total_pages := Some 2;
     created_date := None;
     pdf_url := None |}.

Definition document (slides : list Slide) : Metadata :=
  {| deck_metadata := Some deck; slide_data := Some slides |}.

Definition timestamp : pystr := py "20250101_000000".

(** A record with every required field whose content is blank. *)
Definition blank_content_record : gmap string value :=
  <["_id" := VStr (py "d_meta")]>
  (<["content" := VStr (py "   ")]>
  (<["type" := VStr (py "deck_metadata")]>
  (<["pdf_id" := VStr (py "d")]>
  (<["pdf_title" := VStr (py "d.pdf")]>
  (<["company" := VStr (py "c")]>
  (<["industry" := VStr (py "i")]> ∅)))))).

(** A record with an id and a content, and a type no script knows. *)
Definition odd_type_record : gmap string value :=
  <["_id" := VStr (py "")]>
  (<["content" := VStr (py "text")]>
  (<["type" := VStr (py "appendix")]> ∅)).

Definition hit (id : string) (score : float) (content company : string) : Hit :=
  {| hit_id := py id;
     hit_score := score;
     hit_fields :=
       <["content" := VStr (py content)]>
       (<["company" := VStr (py company)]> ∅) |}.

Definition dense_hits : list Hit :=
  [hit "a" 0.75 "dense a" "acme"; hit "b" 0.5 "dense b" "acme"].
Definition sparse_hits : list Hit :=
  [hit "a" 0.25 "sparse a" "other"; hit "c" 0.875 "sparse c" "other"].

End Examples.

(** ** Vocabulary of the further properties *)

From Stdlib Require DecimalFacts DecimalPos DecimalN.

(** A list of scores in which no score is directly followed by a greater
    one. *)
Fixpoint descending (scores : list float) : Prop :=
  match scores with
  | [] => True
  | a :: rest =>
      match rest with
      | [] => True
      | b :: _ => PrimFloat.ltb a b = false
      end
      /\ descending rest
  end.






(** The float a sort key holds. *)
Definition key_float (v : value) : float :=
  match v with VFloat s => s | _ => 0%float end.

(** A document whose entries all go by names [merge_results] of
    [setup_hybrid_search.py] writes. *)
Definition within_hybrid_keys (doc : gmap string value) : Prop :=
  forall key, is_Some (doc !! key) ->
    In key ("_score" :: hybrid_keys)%string.

(** The floats of a list of keyed documents. *)
Definition floats_of {A} (l : list (value * A)) : list float :=
  map (fun kd => key_float (fst kd)) l.

(** The ids of a list of hits, and the [_id] entries of merged results. *)
Definition hit_ids (hits : list Hit) : list pystr := map hit_id hits.

Definition doc_ids (docs : list (gmap string value)) : list (option value) :=
  map (fun d => d !! "_id") docs.

(** A hit as the sparse loop sees it when its id is already in [hits]:
    the id and the score, nothing of the fields. *)
Definition without_fields (h : Hit) : Hit :=
  {| hit_id := hit_id h; hit_score := hit_score h; hit_fields := ∅ |}.

Definition forget_seen (ids : list pystr) (h : Hit) : Hit :=
  if existsb (Py.str_eqb (hit_id h)) ids then without_fields h else h.

(** The invariant of [hits] in [merge_results]: no document has a name
    outside the six. *)
Definition hybrid_hits_ok (hits : ODict.t (gmap string value)) : Prop :=
  Forall (fun kv => within_hybrid_keys (snd kv)) hits.

(** What a search has in hand when it reaches the reranker: the hits of
    the two index searches, merged. *)
Definition before_rerank (svc : Services) (dense_index sparse_index ns : pystr)
    (q : SearchQuery)
    (merge : list Hit -> list Hit -> Py.result (list (gmap string value)))
  : Py.result (list (gmap string value)) :=
  dense ← index_search svc dense_index ns q;
  sparse ← index_search svc sparse_index ns q;
  merge dense sparse.

(** The calls made by then: the dense search and, unless it failed, the
    sparse search. *)
Definition calls_before_rerank (svc : Services)
    (dense_index sparse_index ns : pystr) (q : SearchQuery) : list Call :=
  CallSearch dense_index ns q
  :: match index_search svc dense_index ns q with
     | Py.Raise _ => []
     | Py.Ok _ => [CallSearch sparse_index ns q]
     end.

(** An index service that is down, with the error code it answers. *)
Definition failing_services (code : N) : Services :=
  {| index_search := fun _ _ _ => Py.Raise (Py.ServiceError code);
     inference_rerank := fun _ _ _ => Py.Ok [] |}.

(** What either sanitizer makes of one character before it collapses the
    underscores: a parenthesis or a bracket goes, an ASCII letter or digit
    stays, anything else is an underscore. *)
Definition sanitize_char (c : pychar) : pystr :=
  if N.eqb 40 c || N.eqb 41 c || N.eqb 91 c || N.eqb 93 c then []
  else if Py.isalnum_ascii c then [c] else [95%N].

(** The ASCII letters and digits of a string, in order. *)
Definition alnums (s : pystr) : pystr := List.filter Py.isalnum_ascii s.

(** The records of a document whose slides all have a number: the deck
    record, then one record per slide. *)
Definition built_records (pdf_id fname : pystr) (deck : DeckMeta)
    (slides : list Slide) : list (gmap string value) :=
  Transform.deck_record pdf_id fname deck
  :: map (fun s => Transform.slide_record_of pdf_id fname deck s
                     (default 0 (slide_number s))) slides.

(** A slide with something to index: a non-empty content, summary, list of
    keywords or layout. *)
Definition slide_has_text (s : Slide) : bool :=
  match Transform.nonempty (slide_content s),
        Transform.nonempty (slide_summary s),
        Transform.nonempty (keywords s),
        Transform.nonempty (slide_layout s) with
  | None, None, None, None => false
  | _, _, _, _ => true
  end.

(** The fields every record of one document shares. *)
Definition of_document (pdf_id fname : pystr) (deck : DeckMeta)
    (record : gmap string value) : Prop :=
  record !! "pdf_id" = Some (VStr pdf_id)
  /\ record !! "pdf_filename" = Some (VStr fname)
  /\ record !! "company" = Some (VStr (Transform.get_str (company_name deck)))
  /\ record !! "industry"
     = Some (VStr (Transform.get_str (deck_industry deck))).

(** Reading a number back from its decimal digits, with an optional minus
    sign in front. *)
Definition unpy (s : pystr) : string :=
  string_of_list_ascii (map ascii_of_N s).

Definition parse_int (s : pystr) : option Z :=
  if Py.startswith s (py "-")
  then option_map (fun d => - Z.of_N (N.of_uint d))
                  (NilZero.uint_of_string (unpy (skipn 1 s)))
  else option_map (fun d => Z.of_N (N.of_uint d))
                  (NilZero.uint_of_string (unpy s)).

(** Indexes that answer the dense index names with the example dense hits
    and the sparse index names with the example sparse hits, with a
    reranker that returns the first [top_n] documents it is given. *)
Definition example_index : Services :=
  {| index_search := fun index _ _ =>
       if Py.str_eqb index UnifiedIndex.DENSE_INDEX_NAME
          || Py.str_eqb index HybridSearch.DENSE_INDEX
       then Py.Ok Examples.dense_hits
       else if Py.str_eqb index UnifiedIndex.SPARSE_INDEX_NAME
               || Py.str_eqb index HybridSearch.SPARSE_INDEX
            then Py.Ok Examples.sparse_hits
            else Py.Ok [];
     inference_rerank := fun _ documents top_n =>
       Py.Ok (map (fun d => (d, 1%float))
                  (firstn (Z.to_nat top_n) documents)) |}.

(** What [hybrid_search] returns once the reranker has answered: it
    prints the answer and returns it. *)
Definition hybrid_after_rerank
    (answer : Py.result (list (gmap string value * float)))
  : Py.result (list (gmap string value * float)) :=
  final_results ← answer;
  _ ← Py.for_each HybridSearchRun.display_item final_results tt;
  Py.Ok final_results.

(** File systems for the examples: one that accepts every write, and one
    on which the summary cannot be written. *)
Definition accepting_files : Transform.FileSystem :=
  {| Transform.fs_mkdir := fun _ => Py.Ok tt;
     Transform.fs_write_batch := fun _ _ _ => Py.Ok tt;
     Transform.fs_write_summary := fun _ _ => Py.Ok tt |}.

Definition summary_refused : Transform.FileSystem :=
  {| Transform.fs_mkdir := fun _ => Py.Ok tt;
     Transform.fs_write_batch := fun _ _ _ => Py.Ok tt;
     Transform.fs_write_summary := fun _ _ => Py.Raise Py.ValueError |}.

(** ** [validate_transformation.py]: the other methods of the validator *)

(** [s.split(sep)] for a separator of one character. *)
Fixpoint split (sep : pychar) (s : pystr) : list pystr :=
  match s with
  | [] => [[]]
  | c :: s' =>
      if N.eqb c sep then [] :: split sep s'
      else match split sep s' with
           | [] => [[c]]
           | part :: parts => (c :: part) :: parts
           end
  end.

Module TransformationValidator.

Import ValidateTransformation.

Definition REQUIRED_DECK_FIELDS : list string :=
  ["filename"; "deck_industry"; "company_name"; "executive_summary";
   "total_pages"]%string.

Definition REQUIRED_SLIDE_FIELDS : list string :=
  ["slide_number"; "slide_summary"; "keywords"; "slide_layout";
   "image_url"]%string.

(** [key in deck_meta.keys()] and [key in slide.keys()] on the typed
    input. *)
Definition deck_has (deck_meta : DeckMeta) (key : string) : bool :=
  if String.eqb key "filename" then bool_decide (is_Some (filename deck_meta))
  else if String.eqb key "deck_industry"
       then bool_decide (is_Some (deck_industry deck_meta))
  else if String.eqb key "company_name"
       then bool_decide (is_Some (company_name deck_meta))
  else if String.eqb key "executive_summary"
       then bool_decide (is_Some (executive_summary deck_meta))
  else if String.eqb key "total_pages"
       then bool_decide (is_Some (total_pages deck_meta))
  else if String.eqb key "created_date"
       then bool_decide (is_Some (created_date deck_meta))
  else if String.eqb key "pdf_url"
       then bool_decide (is_Some (pdf_url deck_meta))
  else false.

Definition slide_has (slide : Slide) (key : string) : bool :=
  if String.eqb key "slide_number"
  then bool_decide (is_Some (slide_number slide))
  else if String.eqb key "slide_content"
       then bool_decide (is_Some (slide_content slide))
  else if String.eqb key "slide_summary"
       then bool_decide (is_Some (slide_summary slide))
  else if String.eqb key "keywords"
       then bool_decide (is_Some (keywords slide))
  else if String.eqb key "slide_layout"
       then bool_decide (is_Some (slide_layout slide))
  else if String.eqb key "image_url"
       then bool_decide (is_Some (image_url slide))
  else false.

Section WithEnvironment.

(** [Path(filename).stem], and the text Python prints for a set of
    field names (its order is not fixed by the language). *)
Variable stem : pystr -> pystr.
Variable repr_set : list string -> string.

Definition sanitize_filename (fname : pystr) : pystr :=
  let base := stem fname in
  let parts := split (chr "_") base in
  if (3 <=? length parts)%nat
  then if (4 <=? length parts)%nat
       then Py.join (py "_") (firstn 4 parts)
       else base
  else base.

(** The number [idx + 1] as an f-string prints it. *)
Definition ordinal (idx : nat) : string :=
  NilZero.string_of_uint (N.to_uint (N.of_nat (S idx))).

(** One round of the loop over [enumerate(data["slide_data"])].  The
    input being typed, [keywords] is a list whenever it is present, so
    the second test of the loop appends nothing. *)
Definition check_slide (idx : nat) (slide : Slide) : list message :=
  match List.filter (fun key => negb (slide_has slide key))
                    REQUIRED_SLIDE_FIELDS with
  | [] => []
  | missing =>
      [Earlier ("Slide " ++ ordinal idx ++ " missing fields: "
                ++ repr_set missing)]
  end.

Fixpoint check_slides (idx : nat) (slides : list Slide)
    (validation_errors : list message) : list message :=
  match slides with
  | [] => validation_errors
  | slide :: slides' =>
      check_slides (S idx) slides'
        (validation_errors ++ check_slide idx slide)
  end.

(** The method, with [self.validation_errors] passed in and out.
    [slide_data] is typed as a list, so the [isinstance] test holds. *)
Definition validate_typescript_structure
    (validation_errors : list message) (data : Metadata)
  : bool * list message :=
  match deck_metadata data with
  | None =>
      (false, validation_errors ++ [Earlier "Missing 'deck_metadata' field"])
  | Some deck_meta =>
      match slide_data data with
      | None =>
          (false,
           validation_errors ++ [Earlier "Missing 'slide_data' field"])
      | Some slides =>
          let validation_errors :=
            match List.filter (fun key => negb (deck_has deck_meta key))
                              REQUIRED_DECK_FIELDS with
            | [] => validation_errors
            | missing =>
                validation_errors
                ++ [Earlier ("Missing deck_metadata fields: "
                             ++ repr_set missing)]
            end in
          let validation_errors :=
            check_slides 0 slides validation_errors in
          match validation_errors with
          | [] => (true, validation_errors)
          | _ :: _ => (false, validation_errors)
          end
      end
  end.

Definition _build_deck_content (deck_meta : DeckMeta) : Py.result pystr :=
  fname ← Transform.require "filename" (filename deck_meta);
  industry ← Transform.require "deck_industry" (deck_industry deck_meta);
  company ← Transform.require "company_name" (company_name deck_meta);
  summary ←
    Transform.require "executive_summary" (executive_summary deck_meta);
  Py.Ok (Py.join [10%N]
           [py "Filename: " ++ fname; py "Industry: " ++ industry;
            py "Company: " ++ company; py "Summary: " ++ summary]).

Definition _build_slide_content (slide : Slide) : Py.result pystr :=
  let parts :=
    match Transform.nonempty (slide_content slide) with
    | Some c => [py "Content: " ++ c]
    | None => []
    end in
  summary ← Transform.require "slide_summary" (slide_summary slide);
  Py.Ok (Py.join [10%N] (parts ++ [py "Summary: " ++ summary])).

(** [keywords] is typed as a list, the first branch of the method. *)
Definition _format_keywords (keywords : list pystr) : pystr :=
  Py.join (py ", ") keywords.

Definition deck_record (deck_meta : DeckMeta) : Py.result dict :=
  fname ← Transform.require "filename" (filename deck_meta);
  let pdf_id := sanitize_filename fname in
  let pdf_title := fname in
  company ← Transform.require "company_name" (company_name deck_meta);
  industry ← Transform.require "deck_industry" (deck_industry deck_meta);
  content ← _build_deck_content deck_meta;
  pages ← Transform.require "total_pages" (total_pages deck_meta);
  let rec : dict :=
    <["pdf_title" := VStr pdf_title]>
    (<["pdf_id" := VStr pdf_id]>
    (<["total_pages" := VInt pages]>
    (<["company" := VStr company]>
    (<["industry" := VStr industry]>
    (<["filename" := VStr fname]>
    (<["type" := VStr (py "deck_metadata")]>
    (<["content" := VStr content]>
    (<["_id" := VStr (pdf_id ++ py "_meta")]> ∅)))))))) in
  Py.Ok (match created_date deck_meta with
         | Some d => <["created_date" := VStr d]> rec
         | None => rec
         end).

Definition slide_record (pdf_id pdf_title company industry : pystr)
    (slide : Slide) : Py.result dict :=
  n ← Transform.require "slide_number" (slide_number slide);
  content ← _build_slide_content slide;
  layout ← Transform.require "slide_layout" (slide_layout slide);
  image ← Transform.require "image_url" (image_url slide);
  Py.Ok (<["industry" := VStr industry]>
         (<["company" := VStr company]>
         (<["pdf_title" := VStr pdf_title]>
         (<["pdf_id" := VStr pdf_id]>
         (<["image_url" := VStr image]>
         (<["layout" := VStr layout]>
         (<["keywords" :=
              VStr (_format_keywords (default [] (keywords slide)))]>
         (<["slide_number" := VInt n]>
         (<["type" := VStr (py "slide")]>
         (<["content" := VStr content]>
         (<["_id" := VStr (pdf_id ++ py "_slide_" ++ Py.format_03d n)]>
            ∅))))))))))).

Definition append_slide (pdf_id pdf_title company industry : pystr)
    (records : list dict) (slide : Slide) : Py.result (list dict) :=
  r ← slide_record pdf_id pdf_title company industry slide;
  Py.Ok (records ++ [r]).

Definition transform_to_pinecone (data : Metadata)
  : Py.result (list dict) :=
  deck_meta ← Transform.require "deck_metadata" (deck_metadata data);
  fname ← Transform.require "filename" (filename deck_meta);
  let pdf_id := sanitize_filename fname in
  company ← Transform.require "company_name" (company_name deck_meta);
  industry ← Transform.require "deck_industry" (deck_industry deck_meta);
  deck ← deck_record deck_meta;
  slides ← Transform.require "slide_data" (slide_data data);
  Py.for_each (append_slide pdf_id fname company industry) slides [deck].

(** What [main] does with a loaded document: the three steps, each of
    the first three able to end the run. *)
Inductive Run :=
| StructureRejected (validation_errors : list message)
| TransformRaised (e : Py.exn)
| RecordsRejected (validation_errors : list message)
| Saved (records : list dict).

Definition main (typescript_data : Metadata) : Run :=
  let '(ok, validation_errors) :=
    validate_typescript_structure [] typescript_data in
  if negb ok then StructureRejected validation_errors
  else
    match transform_to_pinecone typescript_data with
    | Py.Raise e => TransformRaised e
    | Py.Ok pinecone_records =>
        let '(ok, validation_errors) :=
          validate_pinecone_records validation_errors pinecone_records in
        if negb ok then RecordsRejected validation_errors
        else Saved pinecone_records
    end.

End WithEnvironment.

End TransformationValidator.

(** ** [deckbot_unified_index.py]: ingestion *)

Module Ingest.

Import UnifiedIndex.

(** A call of [pc.Index(index).upsert_records(records=..., namespace=...)]. *)
Record UpsertCall := {
  uc_index : pystr;
  uc_namespace : pystr;
  uc_records : list dict
}.

Section WithEnvironment.

(** [Path(filename).stem]; reading and parsing a metadata file, which
    may raise; and the upsert of the index service, which may raise. *)
Variable stem : pystr -> pystr.
Variable load : pystr -> Py.result Metadata.
Variable upsert_records : pystr -> pystr -> list dict -> Py.result unit.

Definition _build_deck_content (deck_meta : DeckMeta) : pystr :=
  Py.join [10%N]
    [py "Filename: " ++ Transform.get_str (filename deck_meta);
     py "Industry: " ++ Transform.get_str (deck_industry deck_meta);
     py "Company: " ++ Transform.get_str (company_name deck_meta);
     py "Summary: " ++ Transform.get_str (executive_summary deck_meta)].

Definition _build_slide_content (slide : Slide) : pystr :=
  let parts :=
    match Transform.nonempty (slide_content slide) with
    | Some c => [py "Content: " ++ c]
    | None => []
    end in
  let parts :=
    match Transform.nonempty (slide_summary slide) with
    | Some c => parts ++ [py "Summary: " ++ c]
    | None => parts
    end in
  match parts with
  | [] => Transform.get_str (slide_summary slide)
  | _ :: _ => Py.join [10%N] parts
  end.

Definition deck_record (doc_id pdf_filename : pystr) (deck_meta : DeckMeta)
  : dict :=
  <["created_date" := VStr (Transform.get_str (created_date deck_meta))]>
  (<["total_pages" := VInt (default 0 (total_pages deck_meta))]>
  (<["industry" := VStr (Transform.get_str (deck_industry deck_meta))]>
  (<["company" := VStr (Transform.get_str (company_name deck_meta))]>
  (<["pdf_title" := VStr pdf_filename]>
  (<["pdf_id" := VStr doc_id]>
  (<["type" := VStr (py "deck_metadata")]>
  (<["content" := VStr (_build_deck_content deck_meta)]>
  (<["_id" := VStr (doc_id ++ py "_meta")]> ∅)))))))).

Definition slide_record (doc_id pdf_filename : pystr)
    (deck_meta : DeckMeta) (slide : Slide) : Py.result dict :=
  n ← Transform.require "slide_number" (slide_number slide);
  Py.Ok (<["image_url" := VStr (Transform.get_str (image_url slide))]>
         (<["layout" := VStr (Transform.get_str (slide_layout slide))]>
         (<["keywords" :=
              VStr (Py.join (py ", ") (default [] (keywords slide)))]>
         (<["slide_number" := VInt n]>
         (<["industry" :=
              VStr (Transform.get_str (deck_industry deck_meta))]>
         (<["company" := VStr (Transform.get_str (company_name deck_meta))]>
         (<["pdf_title" := VStr pdf_filename]>
         (<["pdf_id" := VStr doc_id]>
         (<["type" := VStr (py "slide")]>
         (<["content" := VStr (_build_slide_content slide)]>
         (<["_id" := VStr (doc_id ++ py "_slide_" ++ Py.format_03d n)]>
            ∅))))))))))).

Definition append_slide (doc_id pdf_filename : pystr) (deck_meta : DeckMeta)
    (records : list dict) (slide : Slide) : Py.result (list dict) :=
  r ← slide_record doc_id pdf_filename deck_meta slide;
  Py.Ok (records ++ [r]).

(** The part of [ingest_pdf_metadata] before the first upsert: the
    document id and the records. *)
Definition prepare (metadata_path : pystr)
  : Py.result (pystr * list dict) :=
  data ← load metadata_path;
  deck_meta ← Transform.require "deck_metadata" (deck_metadata data);
  slides ← Transform.require "slide_data" (slide_data data);
  pdf_filename ← Transform.require "filename" (filename deck_meta);
  let doc_id := stem pdf_filename in
  records ←
    Py.for_each (append_slide doc_id pdf_filename deck_meta) slides
      [deck_record doc_id pdf_filename deck_meta];
  Py.Ok (doc_id, records).

(** The upserts, one after the other; the first that raises ends the
    sequence.  A call is logged whether it succeeds or raises. *)
Fixpoint upsert_each (targets : list (pystr * pystr)) (records : list dict)
    (log : list UpsertCall) : Py.result unit * list UpsertCall :=
  match targets with
  | [] => (Py.Ok tt, log)
  | (index, namespace) :: targets' =>
      let log :=
        log ++ [{| uc_index := index; uc_namespace := namespace;
                   uc_records := records |}] in
      match upsert_records index namespace records with
      | Py.Ok _ => upsert_each targets' records log
      | Py.Raise e => (Py.Raise e, log)
      end
  end.

Definition targets (namespace : pystr) : list (pystr * pystr) :=
  [(DENSE_INDEX_NAME, namespace); (SPARSE_INDEX_NAME, namespace);
   (DENSE_INDEX_NAME, GLOBAL_NAMESPACE);
   (SPARSE_INDEX_NAME, GLOBAL_NAMESPACE)].

Definition ingest_pdf_metadata (metadata_path : pystr)
    (namespace : option pystr) (log : list UpsertCall)
  : Py.result pystr * list UpsertCall :=
  match prepare metadata_path with
  | Py.Raise e => (Py.Raise e, log)
  | Py.Ok (doc_id, records) =>
      let namespace := default (py "doc:" ++ doc_id) namespace in
      match upsert_each (targets namespace) records log with
      | (Py.Ok _, log) => (Py.Ok doc_id, log)
      | (Py.Raise e, log) => (Py.Raise e, log)
      end
  end.

(** The loop of [ingest_bulk] over the files found; [except Exception]
    files the path under [failed] and goes on. *)
Fixpoint ingest_loop (metadata_files : list pystr)
    (ingested failed : list pystr) (log : list UpsertCall)
  : (list pystr * list pystr) * list UpsertCall :=
  match metadata_files with
  | [] => ((ingested, failed), log)
  | metadata_file :: rest =>
      match ingest_pdf_metadata metadata_file None log with
      | (Py.Ok doc_id, log) =>
          ingest_loop rest (ingested ++ [doc_id]) failed log
      | (Py.Raise _, log) =>
          ingest_loop rest ingested (failed ++ [metadata_file]) log
      end
  end.

Definition ingest_bulk (metadata_files : list pystr)
  : (list pystr * list pystr) * list UpsertCall :=
  ingest_loop metadata_files [] [] [].

End WithEnvironment.

End Ingest.

(** ** [upsert_to_pinecone.py]: [prepare_records] *)

Module PrepareRecords.

(** The exceptions of [prepare_records]: those of [Py.exn], and the
    [AttributeError] of a method called on a value that lacks it. *)
Inductive exn :=
| Builtin (e : Py.exn)
| AttributeError (attribute : string).

Inductive result (A : Type) :=
| Ok (a : A)
| Raise (e : exn).
Arguments Ok {A} a.
Arguments Raise {A} e.

Section WithStem.

(** [Path(filename).stem] *)
Variable stem : pystr -> pystr.

(** The body of the loop over the records, which rewrites the record
    in place: the new [_id] and [pdf_id], then the test of the
    content. *)
Definition rewrite_record (original_pdf_id clean_pdf_id : pystr)
    (record : dict) : result dict :=
  match record !! "_id" with
  | None => Raise (Builtin (Py.KeyError "_id"))
  | Some (VStr old_id) =>
      let record : dict :=
        <["_id" :=
            VStr (Py.replace old_id original_pdf_id clean_pdf_id)]>
          record in
      let record : dict := <["pdf_id" := VStr clean_pdf_id]> record in
      match record !! "content" with
      | None => Raise (Builtin Py.ValueError)
      | Some content =>
          if Value.truthy content then Ok record
          else Raise (Builtin Py.ValueError)
      end
  | Some _ => Raise (AttributeError "replace")
  end.

Fixpoint rewrite_records (original_pdf_id clean_pdf_id : pystr)
    (records : list dict) : result (list dict) :=
  match records with
  | [] => Ok []
  | record :: records' =>
      match rewrite_record original_pdf_id clean_pdf_id record with
      | Raise e => Raise e
      | Ok record =>
          match rewrite_records original_pdf_id clean_pdf_id records' with
          | Raise e => Raise e
          | Ok records' => Ok (record :: records')
          end
      end
  end.

(** [records] is what [json.load] returned, typed as a list of
    objects.  [Path] accepts a string only. *)
Definition prepare_records (records : list dict)
  : result (list dict * pystr * value) :=
  match records with
  | [] => Raise (Builtin Py.ValueError)
  | first_record :: _ =>
      let original_pdf_id := default (VStr []) (first_record !! "pdf_id") in
      let company := default (VStr []) (first_record !! "company") in
      match original_pdf_id with
      | VStr original =>
          let clean_pdf_id := Upsert.sanitize_pdf_id stem original in
          match rewrite_records original clean_pdf_id records with
          | Raise e => Raise e
          | Ok records => Ok (records, clean_pdf_id, company)
          end
      | _ => Raise (Builtin Py.TypeError)
      end
  end.

End WithStem.

End PrepareRecords.

(** A record as [prepare_records] leaves it: a string as [_id], the
    document id as [pdf_id], a content that is not empty. *)
Definition prepared (pdf_id : pystr) (record : gmap string value) : Prop :=
  (exists rid, record !! "_id" = Some (VStr rid))
  /\ record !! "pdf_id" = Some (VStr pdf_id)
  /\ exists content,
       record !! "content" = Some content /\ Value.truthy content = true.

(** ** Vocabulary for the validator and the ingestion *)

(** A deck and a slide with all the fields the structure check asks for. *)
Definition deck_complete (deck_meta : DeckMeta) : bool :=
  forallb (TransformationValidator.deck_has deck_meta)
          TransformationValidator.REQUIRED_DECK_FIELDS.

Definition slide_complete (slide : Slide) : bool :=
  forallb (TransformationValidator.slide_has slide)
          TransformationValidator.REQUIRED_SLIDE_FIELDS.


(** The upsert calls for some targets, all with the same records. *)
Definition upsert_calls (records : list (gmap string value))
    (targets : list (pystr * pystr)) : list Ingest.UpsertCall :=
  map (fun t => {| Ingest.uc_index := fst t; Ingest.uc_namespace := snd t;
                   Ingest.uc_records := records |}) targets.

(** The targets up to and including the first whose upsert raises. *)
Fixpoint attempted
    (upsert_records : pystr -> pystr -> list (gmap string value)
                      -> Py.result unit)
    (records : list (gmap string value)) (targets : list (pystr * pystr))
  : list (pystr * pystr) :=
  match targets with
  | [] => []
  | t :: targets' =>
      t :: match upsert_records (fst t) (snd t) records with
           | Py.Ok _ => attempted upsert_records records targets'
           | Py.Raise _ => []
           end
  end.

(** The first exception among the upserts, if any. *)
Fixpoint first_failure
    (upsert_records : pystr -> pystr -> list (gmap string value)
                      -> Py.result unit)
    (records : list (gmap string value)) (targets : list (pystr * pystr))
  : option Py.exn :=
  match targets with
  | [] => None
  | t :: targets' =>
      match upsert_records (fst t) (snd t) records with
      | Py.Ok _ => first_failure upsert_records records targets'
      | Py.Raise e => Some e
      end
  end.

(** A file that is ingested, with its document id, or not. *)
Definition ingested_id (outcome : Py.result pystr * list Ingest.UpsertCall)
  : option pystr :=
  match fst outcome with Py.Ok doc_id => Some doc_id | Py.Raise _ => None end.

Definition ingest_failed (outcome : Py.result pystr * list Ingest.UpsertCall)
  : bool :=
  match fst outcome with Py.Ok _ => false | Py.Raise _ => true end.

(** Environments for the examples: a stem that drops a [.pdf] extension, a
    loader that knows one file, and an index service that accepts every
    upsert or refuses those to the sparse index. *)
Definition example_load (path : pystr) : Py.result Metadata :=
  if Py.str_eqb path (py "deck_metadata.json")
  then Py.Ok (Examples.document
                [Examples.slide_numbered 1; Examples.slide_numbered 2])
  else Py.Raise Py.ValueError.

Definition accept_all (index namespace : pystr)
    (records : list (gmap string value)) : Py.result unit := Py.Ok tt.

Definition sparse_down (index namespace : pystr)
    (records : list (gmap string value)) : Py.result unit :=
  if Py.str_eqb index UnifiedIndex.SPARSE_INDEX_NAME
  then Py.Raise (Py.ServiceError 503) else Py.Ok tt.

Definition example_repr (names : list string) : string :=
  String.concat ", " names.

(** Two records of a validated file, before and after [prepare_records]. *)
Definition example_validated (pdf_id suffix : string) : gmap string value :=
  <["company" := VStr (py "DB")]>
  (<["content" := VStr (py "Summary: campaign")]>
  (<["pdf_id" := VStr (py pdf_id)]>
  (<["_id" := VStr (py pdf_id ++ py suffix)]> ∅))).

Definition example_validated_records (pdf_id : string)
  : list (gmap string value) :=
  [example_validated pdf_id "_meta"; example_validated pdf_id "_slide_001"].

(** * Properties *)

(** ** Python string primitives *)

Section PyStrings.

Implicit Types (s p r old new sub chars : pystr) (c : pychar).

Lemma startswith_spec s p :
  Py.startswith s p = true <-> exists r, s = p ++ r.
Proof.
  revert s. induction p as [|x p IH]; intros s; simpl.
  - split; [intros _; now exists s | reflexivity].
  - destruct s as [|y s]; simpl.
    + split; [discriminate | intros [r Hr]; discriminate].
    + rewrite andb_true_iff, N.eqb_eq, IH. split.
      * intros [-> [r ->]]. now exists r.
      * intros [r Hr]. injection Hr as -> ->. split; [reflexivity | now exists r].
Qed.

Lemma startswith_app p r : Py.startswith (p ++ r) p = true.
Proof. apply startswith_spec. now exists r. Qed.

Lemma contains_spec sub s :
  Py.contains sub s = true <-> exists a b, s = a ++ sub ++ b.
Proof.
  induction s as [|c s IH]; simpl.
  - rewrite orb_false_r, startswith_spec. split.
    + intros [r Hr]. exists [], r. exact Hr.
    + intros [a [b H]]. destruct a; [now exists b | discriminate].
  - rewrite orb_true_iff, startswith_spec, IH. split.
    + intros [[r Hr] | [a [b H]]].
      * exists [], r. exact Hr.
      * exists (c :: a), b. simpl. now rewrite H.
    + intros [a [b H]]. destruct a as [|c' a]; simpl in H.
      * left. now exists b.
      * right. injection H as _ H. now exists a, b.
Qed.

Lemma contains_false_spec sub s :
  Py.contains sub s = false <-> forall a b, s <> a ++ sub ++ b.
Proof.
  rewrite <- not_true_iff_false, contains_spec. split.
  - intros H a b E. apply H. now exists a, b.
  - intros H [a [b E]]. exact (H a b E).
Qed.

(** *** [str.replace] *)

Lemma replace_from_skip old new p r :
  Py.replace_from old new (length p) (p ++ r) = Py.replace_from old new 0 r.
Proof. induction p as [|x p IH]; simpl; [reflexivity | exact IH]. Qed.

Lemma replace_nil s c old new : Py.replace [] (c :: old) new = [].
Proof. reflexivity. Qed.

Lemma replace_match c old new r :
  Py.replace ((c :: old) ++ r) (c :: old) new
  = new ++ Py.replace r (c :: old) new.
Proof.
  unfold Py.replace. cbn [app Py.replace_from].
  change (Py.startswith (c :: old ++ r) (c :: old))
    with (Py.startswith ((c :: old) ++ r) (c :: old)).
  rewrite startswith_app. cbn [length]. rewrite Nat.sub_succ, Nat.sub_0_r.
  now rewrite replace_from_skip.
Qed.

Lemma replace_no_match c s x old new :
  Py.startswith (c :: s) (x :: old) = false ->
  Py.replace (c :: s) (x :: old) new = c :: Py.replace s (x :: old) new.
Proof. intros H. unfold Py.replace. cbn [Py.replace_from]. now rewrite H. Qed.

(** Induction along the scan of [replace]: at each position either a
    match is consumed or one character is copied. *)
Lemma replace_scan_ind (x : pychar) (old : pystr) (P : pystr -> Prop) :
  P [] ->
  (forall r, P r -> P ((x :: old) ++ r)) ->
  (forall c r, Py.startswith (c :: r) (x :: old) = false -> P r -> P (c :: r)) ->
  forall s, P s.
Proof.
  intros Hnil Hmatch Hcopy s.
  remember (length s) as n eqn:Hn. revert s Hn.
  induction n as [n IH] using lt_wf_ind. intros s Hn.
  destruct s as [|c s]; [exact Hnil |].
  destruct (Py.startswith (c :: s) (x :: old)) eqn:E.
  - apply startswith_spec in E. destruct E as [r Hr]. rewrite Hr.
    apply Hmatch. apply (IH (length r)); [| reflexivity].
    subst n. rewrite Hr. simpl. rewrite length_app. lia.
  - apply Hcopy; [exact E |]. apply (IH (length s)); [| reflexivity].
    subst n. simpl. lia.
Qed.

Lemma replace_Forall (P : pychar -> Prop) s old new :
  Forall P s -> Forall P new -> Forall P (Py.replace s old new).
Proof.
  intros Hs Hnew. destruct old as [|x old].
  - simpl. apply Forall_app. split; [exact Hnew |].
    induction Hs; simpl; [constructor |].
    constructor; [assumption |]. apply Forall_app. now split.
  - revert Hs. pattern s. apply (replace_scan_ind x old); clear s.
    + intros _. constructor.
    + intros r IH H. rewrite replace_match. apply Forall_app in H.
      apply Forall_app. split; [exact Hnew | apply IH, H].
    + intros c r E IH H. rewrite replace_no_match by exact E.
      inversion H; subst. constructor; auto.
Qed.

(** Replacing a single character is a character-wise substitution. *)
Lemma replace_char s x new :
  Py.replace s [x] new = flat_map (fun c => if N.eqb x c then new else [c]) s.
Proof.
  induction s as [|c s IH]; [reflexivity |].
  simpl flat_map. destruct (N.eqb x c) eqn:E.
  - apply N.eqb_eq in E. subst c.
    change (x :: s) with ([x] ++ s). rewrite replace_match. now rewrite IH.
  - rewrite replace_no_match; [now rewrite IH |].
    simpl. now rewrite E.
Qed.

Lemma replace_absent s x old new :
  ~ In x s -> Py.replace s (x :: old) new = s.
Proof.
  induction s as [|c s IH]; intros H; [reflexivity |].
  rewrite replace_no_match.
  - rewrite IH; [reflexivity |]. intros Hin. apply H. now right.
  - simpl. destruct (N.eqb x c) eqn:E; [| reflexivity].
    apply N.eqb_eq in E. exfalso. apply H. now left.
Qed.

Lemma replace_length_le s x old new :
  (length new <= length (x :: old))%nat ->
  (length (Py.replace s (x :: old) new) <= length s)%nat.
Proof.
  intros Hlen. pattern s. apply (replace_scan_ind x old); clear s.
  - simpl. lia.
  - intros r IH. rewrite replace_match, !length_app. lia.
  - intros c r E IH. rewrite replace_no_match by exact E. cbn [length]. lia.
Qed.

Lemma replace_length_lt s x old new :
  (length new < length (x :: old))%nat ->
  Py.contains (x :: old) s = true ->
  (length (Py.replace s (x :: old) new) < length s)%nat.
Proof.
  intros Hlen. pattern s. apply (replace_scan_ind x old); clear s.
  - simpl. discriminate.
  - intros r _ _. rewrite replace_match, !length_app.
    assert (length new <= length (x :: old))%nat as Hle by lia.
    pose proof (replace_length_le r x old new Hle). lia.
  - intros c r E IH H. rewrite replace_no_match by exact E.
    cbn [Py.contains] in H. rewrite E in H. simpl in H.
    specialize (IH H). cbn [length]. lia.
Qed.

(** *** [str.strip] *)

Lemma lstrip_suffix chars s : exists p, s = p ++ Py.lstrip chars s.
Proof.
  induction s as [|c s [p Hp]]; simpl; [now exists [] |].
  destruct (existsb (N.eqb c) chars).
  - exists (c :: p). simpl. now rewrite <- Hp.
  - now exists [].
Qed.

Lemma lstrip_head chars s c r :
  Py.lstrip chars s = c :: r -> existsb (N.eqb c) chars = false.
Proof.
  induction s as [|x s IH]; simpl; [discriminate |].
  destruct (existsb (N.eqb x) chars) eqn:E; [exact IH |].
  intros H. injection H as -> _. exact E.
Qed.

Lemma lstrip_id chars s :
  match s with [] => True | c :: _ => existsb (N.eqb c) chars = false end ->
  Py.lstrip chars s = s.
Proof. destruct s as [|c s]; simpl; [reflexivity | now intros ->]. Qed.

Lemma strip_infix chars s : exists p q, s = p ++ Py.strip chars s ++ q.
Proof.
  unfold Py.strip, Py.rstrip.
  destruct (lstrip_suffix chars s) as [p Hp].
  destruct (lstrip_suffix chars (rev (Py.lstrip chars s))) as [q Hq].
  exists p, (rev q). rewrite <- rev_app_distr, <- Hq, rev_involutive. exact Hp.
Qed.

Lemma strip_Forall (P : pychar -> Prop) chars s :
  Forall P s -> Forall P (Py.strip chars s).
Proof.
  intros H. destruct (strip_infix chars s) as [p [q E]].
  rewrite E in H. apply Forall_app in H. destruct H as [_ H].
  apply Forall_app in H. apply H.
Qed.

(** What [strip] returns neither begins nor ends with a stripped character. *)
Lemma strip_last chars s r c :
  Py.strip chars s = r ++ [c] -> existsb (N.eqb c) chars = false.
Proof.
  unfold Py.strip, Py.rstrip. intros H.
  apply (f_equal (@rev _)) in H. rewrite rev_involutive, rev_app_distr in H.
  simpl in H. exact (lstrip_head _ _ _ _ H).
Qed.

Lemma strip_first chars s c r :
  Py.strip chars s = c :: r -> existsb (N.eqb c) chars = false.
Proof.
  unfold Py.strip, Py.rstrip. intros H.
  destruct (Py.lstrip chars s) as [|x t] eqn:El; [discriminate |].
  pose proof (lstrip_head _ _ _ _ El) as Hx.
  destruct (lstrip_suffix chars (rev (x :: t))) as [p Hp].
  apply (f_equal (@rev _)) in Hp.
  rewrite rev_involutive, rev_app_distr, H in Hp.
  simpl in Hp. injection Hp as -> _. exact Hx.
Qed.

Lemma strip_id chars s :
  (forall c r, s = c :: r -> existsb (N.eqb c) chars = false) ->
  (forall r c, s = r ++ [c] -> existsb (N.eqb c) chars = false) ->
  Py.strip chars s = s.
Proof.
  intros Hfirst Hlast. unfold Py.strip, Py.rstrip.
  rewrite (lstrip_id chars s).
  - rewrite lstrip_id; [apply rev_involutive |].
    destruct (rev s) as [|c t] eqn:E; [exact I |].
    apply (Hlast (rev t) c). apply (f_equal (@rev _)) in E.
    now rewrite rev_involutive in E.
  - destruct s as [|c r]; [exact I | now apply (Hfirst c r)].
Qed.

End PyStrings.

(** ** The primitives on sample inputs, as Python evaluates them *)

Example replace_non_overlapping :
  Py.replace (py "aaa") (py "aa") (py "b") = py "ba"
  /\ Py.replace (py "a__b___c") (py "__") (py "_") = py "a_b__c"
  /\ Py.replace (py "ab") (py "") (py "-") = py "-a-b-".
Proof. repeat split. Qed.

Example range_samples :
  Py.range 0 5 2 = Py.Ok [0; 2; 4]
  /\ Py.range 0 6 3 = Py.Ok [0; 3]
  /\ Py.range 5 0 (-2) = Py.Ok [5; 3; 1]
  /\ Py.range 0 5 (-1) = Py.Ok []
  /\ Py.range 0 5 0 = Py.Raise Py.ValueError.
Proof. repeat split. Qed.

Example slice_samples :
  Py.slice [1; 2; 3; 4; 5] (Some 1) (Some 3) = [2; 3]
  /\ Py.slice (py "a.pdf") None (Some (-4)) = py "a"
  /\ Py.slice [1; 2; 3] None (Some (-4)) = []
  /\ Py.slice [1; 2; 3; 4; 5] (Some 4) (Some 100) = [5].
Proof. repeat split. Qed.

Example format_03d_samples :
  Py.format_03d 7 = py "007" /\ Py.format_03d 42 = py "042"
  /\ Py.format_03d 1234 = py "1234" /\ Py.format_03d (-5) = py "-05".
Proof. repeat split. Qed.

Example strip_samples :
  Py.strip (py "_") (py "__a_b_") = py "a_b"
  /\ Py.strip_ws (py "  a b  ") = py "a b"
  /\ Py.strip_ws (py "   ") = py "".
Proof. repeat split. Qed.

Example sanitize_id_samples :
  Transform.sanitize_id (py "DB (Insurance) 2025.pdf") = py "db_insurance_2025"
  /\ Transform.sanitize_id (py "Q3-Report [final].PDF") = py "q3_report_final_pdf"
  /\ Transform.sanitize_id (py "a(b)c") = py "abc".
Proof. repeat split. Qed.

(** A title without any ASCII letter or digit (here five Hangul syllables
    around a space) leaves nothing, and the builder falls back on the
    timestamp. *)
Example sanitize_id_hangul :
  Transform.sanitize_id [54620; 44544; 32; 51228; 47785]%N = []
  /\ Transform.document_id (py "20250101_000000")
       [54620; 44544; 32; 51228; 47785]%N
     = py "doc_20250101_000000".
Proof. repeat split. Qed.

(** ** The identifier sanitizers *)

Section Sanitizers.

Implicit Types (s clean text : pystr) (c : pychar).

Local Ltac chars :=
  unfold Py.lower_char, id_char, Transform.keeps, Upsert.keeps, Py.isascii,
    Py.isalnum_ascii, Py.is_digit, Py.is_upper, Py.is_lower;
  change (chr "_") with 95%N;
  repeat (match goal with
    | |- context [N.leb ?a ?b] => destruct (N.leb_spec a b)
    | |- context [N.ltb ?a ?b] => destruct (N.ltb_spec a b)
    | |- context [N.eqb ?a ?b] => destruct (N.eqb_spec a b)
    end; cbn [andb orb negb] in * );
  try (intros; first [reflexivity | discriminate | lia]).

Lemma endswith_spec s p :
  Py.endswith s p = true <-> exists r, s = r ++ p.
Proof.
  unfold Py.endswith, Py.str_eqb.
  rewrite andb_true_iff, Nat.leb_le, bool_decide_eq_true. split.
  - intros [_ H]. exists (firstn (length s - length p) s).
    pose proof (firstn_skipn (length s - length p) s) as E.
    rewrite H in E. now symmetry.
  - intros [r ->]. rewrite length_app. split; [lia |].
    replace (length r + length p - length p)%nat with (length r) by lia.
    rewrite skipn_app, Nat.sub_diag, skipn_all. reflexivity.
Qed.

Lemma strips_underscore c :
  existsb (N.eqb c) (py "_") = N.eqb c 95.
Proof. change (py "_") with [95%N]. cbn [existsb]. apply orb_false_r. Qed.

Lemma collapse_loop_Forall (P : pychar -> Prop) n s :
  P 95%N -> Forall P s -> Forall P (collapse_loop n s).
Proof.
  intros Hu. revert s.
  induction n as [|n IH]; intros s Hs; cbn [collapse_loop]; [exact Hs |].
  destruct (Py.contains (py "__") s); [| exact Hs].
  apply IH. apply replace_Forall; [exact Hs |]. constructor; [exact Hu | constructor].
Qed.

Lemma collapse_loop_done n s :
  (length s <= n)%nat -> Py.contains (py "__") (collapse_loop n s) = false.
Proof.
  revert s. induction n as [|n IH]; intros s Hlen; cbn [collapse_loop].
  - destruct s; [reflexivity | simpl in Hlen; lia].
  - destruct (Py.contains (py "__") s) eqn:E; [| exact E].
    apply IH.
    pose proof (replace_length_lt s 95%N [95%N] [95%N]) as Hlt.
    specialize (Hlt ltac:(simpl; lia) E).
    change (py "__") with [95%N; 95%N]. change (py "_") with [95%N]. lia.
Qed.

(** The fuel of [collapse_underscores] suffices: the loop has run to its
    exit condition. *)
Lemma collapse_underscores_done s :
  Py.contains (py "__") (collapse_underscores s) = false.
Proof. apply collapse_loop_done. reflexivity. Qed.

Lemma collapse_loop_id n s :
  Py.contains (py "__") s = false -> collapse_loop n s = s.
Proof. intros H. destruct n; cbn [collapse_loop]; [reflexivity | now rewrite H]. Qed.

Lemma lower_char_underscore c : N.eqb 95 (Py.lower_char c) = N.eqb 95 c.
Proof. chars. Qed.

Lemma lower_char_id c : id_char c = true -> Py.lower_char c = c.
Proof. chars. Qed.

Lemma lower_char_mid c : mid_char c = true -> id_char (Py.lower_char c) = true.
Proof. unfold mid_char. chars. Qed.

Lemma contains_uu_lower s :
  Py.contains [95%N; 95%N] (Py.lower s) = Py.contains [95%N; 95%N] s.
Proof.
  induction s as [|c s IH]; [reflexivity |].
  cbn [Py.lower map Py.contains]. fold (Py.lower s). rewrite IH. f_equal.
  cbn [Py.startswith]. rewrite lower_char_underscore.
  destruct s as [|d s]; [reflexivity |].
  cbn [Py.lower map]. now rewrite lower_char_underscore.
Qed.

Lemma map_fixed {A} (f : A -> A) (l : list A) :
  Forall (fun x => f x = x) l -> map f l = l.
Proof. induction 1; simpl; congruence. Qed.

(** The last three steps, common to both sanitizers, turn any string of
    letters, digits and underscores into a canonical identifier. *)
Lemma finish_canonical clean :
  Forall (fun c => mid_char c = true) clean ->
  canonical_id (Py.lower (Py.strip (py "_") (collapse_underscores clean))).
Proof.
  intros Hmid.
  set (t := collapse_underscores clean).
  assert (Ht : Forall (fun c => mid_char c = true) t)
    by (apply collapse_loop_Forall; [reflexivity | exact Hmid]).
  assert (Hd : Py.contains (py "__") t = false)
    by apply collapse_underscores_done.
  set (u := Py.strip (py "_") t).
  assert (Hu : Forall (fun c => mid_char c = true) u)
    by (apply strip_Forall; exact Ht).
  repeat split.
  - unfold Py.lower. apply Forall_map.
    eapply List.Forall_impl; [| exact Hu]. intros c. apply lower_char_mid.
  - destruct u as [|c r] eqn:Eu; [reflexivity |].
    pose proof (strip_first _ _ _ _ Eu) as H.
    rewrite strips_underscore in H.
    change (py "_") with [95%N]. cbn [Py.lower map Py.startswith].
    rewrite lower_char_underscore, andb_true_r.
    rewrite N.eqb_sym. exact H.
  - apply not_true_iff_false. intros H. apply endswith_spec in H.
    destruct H as [r Hr]. unfold Py.lower in Hr.
    apply map_eq_app in Hr. destruct Hr as [r' [l' [Hr [_ Hl]]]].
    destruct l' as [|c [|? ?]]; try discriminate.
    pose proof (strip_last _ _ _ _ Hr) as H.
    rewrite strips_underscore in H. injection Hl as Hl.
    pose proof (lower_char_underscore c) as E.
    change (N_of_ascii "_") with 95%N in Hl.
    rewrite Hl, N.eqb_refl, N.eqb_sym, H in E. discriminate.
  - change (py "__") with [95%N; 95%N]. rewrite contains_uu_lower.
    apply contains_false_spec. intros a b E.
    destruct (strip_infix (py "_") t) as [p [q Hpq]].
    fold u in Hpq. rewrite E in Hpq.
    apply (proj1 (contains_false_spec _ _) Hd (p ++ a) (b ++ q)).
    rewrite Hpq. change (py "__") with [95%N; 95%N].
    rewrite <- !app_assoc. reflexivity.
Qed.

Lemma ascii_only_mid clean :
  Forall (fun c => mid_char c = true) (Transform.ascii_only clean).
Proof.
  unfold Transform.ascii_only. apply Forall_map, Forall_forall. intros c _.
  unfold mid_char. change (chr "_") with 95%N.
  destruct (Transform.keeps c) eqn:E; [| reflexivity].
  revert E. chars.
Qed.

Lemma canonical_ascii s : canonical_id s -> ascii_safe s.
Proof.
  intros [H _]. unfold ascii_safe. eapply List.Forall_impl; [| exact H].
  intros c. chars.
Qed.

Lemma sanitize_id_canonical text : canonical_id (Transform.sanitize_id text).
Proof. apply finish_canonical, ascii_only_mid. Qed.

Lemma replace_char_Forall (P Q : pychar -> Prop) s x new :
  (forall c, P c -> c <> x -> Q c) -> Forall Q new ->
  Forall P s -> Forall Q (Py.replace s [x] new).
Proof.
  intros HPQ Hnew Hs. rewrite replace_char.
  induction Hs as [|c s Hc Hs IH]; simpl; [constructor |].
  apply Forall_app. split; [| exact IH].
  destruct (N.eqb_spec x c) as [->|Hne]; [exact Hnew |].
  constructor; [| constructor]. apply HPQ; [exact Hc | congruence].
Qed.

Lemma sanitize_pdf_id_canonical (stem : pystr -> pystr) text :
  canonical_id (Upsert.sanitize_pdf_id stem text).
Proof.
  apply finish_canonical.
  eapply (replace_char_Forall
            (fun c => mid_char c = true \/ c = 45%N) _ _ 45%N).
  { intros c [H | H] Hne; [exact H | contradiction]. }
  { repeat constructor. }
  eapply (replace_char_Forall
            (fun c => mid_char c = true \/ c = 45%N \/ c = 32%N) _ _ 32%N).
  { intros c [H | [H | H]] Hne; [now left | now right | contradiction]. }
  { constructor; [now left | constructor]. }
  apply Forall_map, Forall_forall. intros c _.
  destruct (Upsert.keeps c) eqn:E; [| now left].
  unfold Upsert.keeps in E. apply andb_true_iff in E. destruct E as [_ E].
  apply orb_true_iff in E. destruct E as [E | E].
  - left. unfold mid_char. now rewrite E.
  - cbn in E. unfold mid_char.
    repeat match type of E with
           | context [N.eqb ?a ?b] => destruct (N.eqb_spec a b)
           end; subst; simpl in E; try discriminate; auto.
Qed.

(** *** A canonical identifier is a fixed point *)

Lemma canonical_not_in s x :
  Forall (fun c => id_char c = true) s -> id_char x = false -> ~ In x s.
Proof.
  intros H Hx Hin. rewrite List.Forall_forall in H. specialize (H x Hin). congruence.
Qed.

Lemma sanitize_id_fixed s : canonical_id s -> Transform.sanitize_id s = s.
Proof.
  intros (Hc & Hfirst & Hlast & Hd). unfold Transform.sanitize_id.
  assert (E1 : Transform.strip_pdf_ext s = s).
  { unfold Transform.strip_pdf_ext.
    destruct (Py.endswith s (py ".pdf")) eqn:E; [| reflexivity].
    apply endswith_spec in E. destruct E as [r Hr]. exfalso.
    apply (canonical_not_in s 46%N Hc); [reflexivity |].
    rewrite Hr. apply in_or_app. right. now left. }
  assert (E2 : Transform.replace_specials s = s).
  { unfold Transform.replace_specials.
    change (py " ") with [32%N]. change (py "(") with [40%N].
    change (py ")") with [41%N]. change (py "[") with [91%N].
    change (py "]") with [93%N]. change (py "-") with [45%N].
    assert (Hout : forall x, id_char x = false -> ~ In x s)
      by (intros x; apply canonical_not_in; exact Hc).
    rewrite (replace_absent s 32%N) by (apply Hout; reflexivity).
    rewrite (replace_absent s 40%N) by (apply Hout; reflexivity).
    rewrite (replace_absent s 41%N) by (apply Hout; reflexivity).
    rewrite (replace_absent s 91%N) by (apply Hout; reflexivity).
    rewrite (replace_absent s 93%N) by (apply Hout; reflexivity).
    apply replace_absent, Hout. reflexivity. }
  assert (E3 : Transform.ascii_only s = s).
  { unfold Transform.ascii_only. apply map_fixed.
    eapply List.Forall_impl; [| exact Hc]. intros c Hcc. simpl in Hcc.
    change (chr "_") with 95%N.
    replace (Transform.keeps c) with true; [reflexivity |].
    symmetry. revert Hcc. change (chr "_") with 95%N. chars. }
  assert (E4 : collapse_underscores s = s)
    by (apply collapse_loop_id; exact Hd).
  assert (E5 : Py.strip (py "_") s = s).
  { apply strip_id.
    - intros c r ->. rewrite strips_underscore.
      change (py "_") with [95%N] in Hfirst. cbn [Py.startswith] in Hfirst.
      rewrite andb_true_r in Hfirst.
      rewrite N.eqb_sym. exact Hfirst.
    - intros r c ->. rewrite strips_underscore.
      destruct (N.eqb_spec c 95) as [->|]; [| reflexivity].
      rewrite <- Hlast. symmetry. apply endswith_spec. now exists r. }
  rewrite E1, E2, E3, E4, E5.
  unfold Py.lower. apply map_fixed.
  eapply List.Forall_impl; [| exact Hc]. intros c. apply lower_char_id.
Qed.

Lemma sanitize_id_idempotent_all text :
  Transform.sanitize_id (Transform.sanitize_id text) = Transform.sanitize_id text.
Proof. apply sanitize_id_fixed, sanitize_id_canonical. Qed.

(** *** The replacement step, character by character *)

Lemma flat_map_flat_map {A B C} (f : A -> list B) (g : B -> list C) l :
  flat_map g (flat_map f l) = flat_map (fun x => flat_map g (f x)) l.
Proof.
  induction l as [|x l IH]; [reflexivity |].
  simpl. now rewrite flat_map_app, IH.
Qed.

Lemma replace_specials_chars text :
  Transform.replace_specials text = flat_map replace_special_char text.
Proof.
  unfold Transform.replace_specials.
  change (py " ") with [32%N]. change (py "(") with [40%N].
  change (py ")") with [41%N]. change (py "[") with [91%N].
  change (py "]") with [93%N]. change (py "-") with [45%N].
  change (py "_") with [95%N]. change (py "") with (@nil N).
  rewrite !replace_char, !flat_map_flat_map.
  apply flat_map_ext. intros c. unfold replace_special_char.
  destruct (N.eqb_spec 32 c) as [<- | H1]; [reflexivity |].
  destruct (N.eqb_spec 45 c) as [<- | H2]; [reflexivity |].
  destruct (N.eqb_spec 40 c) as [<- | H3]; [reflexivity |].
  destruct (N.eqb_spec 41 c) as [<- | H4]; [reflexivity |].
  destruct (N.eqb_spec 91 c) as [<- | H5]; [reflexivity |].
  destruct (N.eqb_spec 93 c) as [<- | H6]; [reflexivity |].
  apply N.eqb_neq in H2, H3, H4, H5, H6.
  cbn [flat_map app orb]. rewrite H3. cbn [flat_map app].
  rewrite H4. cbn [flat_map app]. rewrite H5. cbn [flat_map app].
  rewrite H6. cbn [flat_map app]. rewrite H2. reflexivity.
Qed.

Lemma isspace_not_kept c : Py.isspace c = true -> Transform.keeps c = false.
Proof.
  intros H. apply not_true_iff_false. intros K.
  unfold Py.isspace in H.
  unfold Transform.keeps, Py.isascii, Py.isalnum_ascii, Py.is_digit,
    Py.is_upper, Py.is_lower in K.
  change (chr "_") with 95%N in K.
  repeat rewrite ?orb_true_iff, ?andb_true_iff, ?N.leb_le, ?N.ltb_lt,
    ?N.eqb_eq in H.
  repeat rewrite ?orb_true_iff, ?andb_true_iff, ?N.leb_le, ?N.ltb_lt,
    ?N.eqb_eq in K.
  lia.
Qed.

Lemma whitespace_becomes_underscore c :
  Py.isspace c = true ->
  Transform.ascii_only (Transform.replace_specials [c]) = [95%N].
Proof.
  intros H. rewrite replace_specials_chars. cbn [flat_map]. rewrite app_nil_r.
  pose proof (isspace_not_kept c H) as K.
  unfold replace_special_char.
  destruct (N.eqb_spec 32 c) as [<- | H1]; [reflexivity |].
  destruct (N.eqb_spec 45 c) as [<- | H2]; [reflexivity |].
  destruct (N.eqb_spec 40 c) as [<- | H3]; [discriminate |].
  destruct (N.eqb_spec 41 c) as [<- | H4]; [discriminate |].
  destruct (N.eqb_spec 91 c) as [<- | H5]; [discriminate |].
  destruct (N.eqb_spec 93 c) as [<- | H6]; [discriminate |].
  cbn [orb Transform.ascii_only map]. now rewrite K.
Qed.

End Sanitizers.

(** ** Batching *)

Section Batches.

Context {A : Type}.
Implicit Types (l records : list A) (k m j : nat).

Lemma firstn_min_length k l : firstn (Nat.min k (length l)) l = firstn k l.
Proof.
  destruct (Nat.le_ge_cases k (length l)) as [H | H].
  - now rewrite Nat.min_l.
  - rewrite Nat.min_r by exact H. now rewrite !firstn_all2 by lia.
Qed.

(** [records[i:i + k]] for a start [i >= 0] and a size [k > 0]. *)
Lemma slice_batch l (i k : Z) :
  (0 <= i)%Z -> (0 < k)%Z ->
  Py.slice l (Some i) (Some (i + k)%Z)
  = firstn (Z.to_nat k) (skipn (Z.to_nat i) l).
Proof.
  intros Hi Hk. unfold Py.slice, Py.slice_index.
  destruct (Z.ltb_spec i 0) as [? | _]; [lia |].
  destruct (Z.ltb_spec (i + k) 0) as [? | _]; [lia |].
  destruct (Nat.le_gt_cases (Z.to_nat i) (length l)) as [H | H].
  - rewrite (Nat.min_l (Z.to_nat i)) by exact H.
    rewrite <- (firstn_min_length (Z.to_nat k)). f_equal.
    rewrite length_skipn. lia.
  - rewrite (Nat.min_r (Z.to_nat i)) by lia.
    now rewrite !skipn_all2, !firstn_nil by lia.
Qed.

Lemma batches_of_succ k m l :
  batches_of k (S m) l = firstn k l :: batches_of k m (skipn k l).
Proof.
  unfold batches_of. cbn [seq map]. f_equal.
  rewrite <- seq_shift, map_map. apply map_ext. intros j.
  rewrite skipn_skipn. do 2 f_equal. lia.
Qed.

Lemma batches_of_concat k m l :
  (length l <= m * k)%nat -> concat (batches_of k m l) = l.
Proof.
  revert l. induction m as [|m IH]; intros l Hlen.
  - destruct l; [reflexivity | simpl in Hlen; lia].
  - rewrite batches_of_succ. cbn [concat]. rewrite IH.
    + apply firstn_skipn.
    + rewrite length_skipn. lia.
Qed.

Lemma batches_of_lengths k m l :
  map (@length A) (batches_of k m l)
  = map (fun j => Nat.min k (length l - j * k)) (seq 0 m).
Proof.
  unfold batches_of. rewrite map_map. apply map_ext. intros j.
  now rewrite length_firstn, length_skipn.
Qed.


Lemma batches_of_snoc k m l :
  batches_of k (S m) l = batches_of k m l ++ [firstn k (skipn (m * k) l)].
Proof. unfold batches_of. now rewrite seq_S, map_app. Qed.

Lemma batches_of_full k m l :
  (m * k <= length l)%nat ->
  Forall (fun b => length b = k) (batches_of k m l).
Proof.
  intros Hlen. unfold batches_of. apply Forall_map, List.Forall_forall.
  intros j Hj. apply in_seq in Hj.
  rewrite length_firstn, length_skipn. nia.
Qed.

Lemma batch_count_bounds l (batch_size : Z) :
  (0 < batch_size)%Z ->
  let m := batch_count l batch_size in
  let k := Z.to_nat batch_size in
  (length l <= m * k)%nat
  /\ (0 < m -> (m - 1) * k < length l)%nat
  /\ (length l = 0%nat -> m = 0%nat).
Proof.
  intros Hk. unfold batch_count, Py.range_len. cbv zeta.
  destruct (Z.ltb_spec 0 batch_size) as [_ | ?]; [| lia]. cbn [andb].
  destruct (Z.ltb_spec 0 (Z.of_nat (length l))) as [Hl | Hl].
  - set (n := Z.of_nat (length l)) in *.
    pose proof (Z.div_mod (n - 0 - 1) batch_size ltac:(lia)) as Hdiv.
    pose proof (Z.mod_pos_bound (n - 0 - 1) batch_size Hk) as Hmod.
    set (q := ((n - 0 - 1) / batch_size)%Z) in *.
    assert (0 <= q)%Z by (apply Z.div_pos; lia).
    repeat split; try nia.
  - destruct (Z.ltb_spec batch_size 0); [lia |]. cbn [andb].
    change (Z.to_nat 0) with 0%nat. repeat split; lia.
Qed.

Lemma create_batches_pos records (batch_size : Z) :
  (0 < batch_size)%Z ->
  Transform.create_batches records batch_size
  = Py.Ok (batches_of (Z.to_nat batch_size) (batch_count records batch_size)
             records).
Proof.
  intros Hk. unfold Transform.create_batches, Py.range.
  destruct (Z.eqb_spec batch_size 0) as [? | _]; [lia |].
  unfold mbind, result_bind, Py.bind. f_equal. unfold batches_of, batch_count.
  rewrite map_map. apply map_ext. intros j.
  rewrite slice_batch by lia. do 2 f_equal. lia.
Qed.

Lemma create_batches_zero records :
  Transform.create_batches records 0 = Py.Raise Py.ValueError.
Proof. reflexivity. Qed.

Lemma create_batches_neg records (batch_size : Z) :
  (batch_size < 0)%Z -> Transform.create_batches records batch_size = Py.Ok [].
Proof.
  intros Hk. unfold Transform.create_batches, Py.range, Py.range_len.
  destruct (Z.eqb_spec batch_size 0) as [? | _]; [lia |].
  destruct (Z.ltb_spec 0 batch_size) as [? | _]; [lia |]. cbn [andb].
  destruct (Z.ltb_spec batch_size 0) as [_ | ?]; [| lia]. cbn [andb].
  destruct (Z.ltb_spec (Z.of_nat (length records)) 0) as [? | _]; [lia |].
  reflexivity.
Qed.

End Batches.

(** ** The record builder *)

Ltac pysimpl :=
  cbn [mbind mret result_bind result_ret Py.bind Transform.require].

Section Builder.

Import Transform.

Implicit Types (deck : DeckMeta) (slide : Slide) (slides : list Slide)
  (data : Metadata) (records : list (gmap string value)).

Lemma slide_record_missing pdf_id fname deck slide :
  slide_number slide = None ->
  slide_record pdf_id fname deck slide = Py.Raise (Py.KeyError "slide_number").
Proof. intros H. unfold slide_record. rewrite H. reflexivity. Qed.

Lemma slide_record_numbered pdf_id fname deck slide n :
  slide_number slide = Some n ->
  slide_record pdf_id fname deck slide
  = Py.Ok (slide_record_of pdf_id fname deck slide n).
Proof. intros H. unfold slide_record. rewrite H. reflexivity. Qed.

Lemma deck_record_id pdf_id fname deck :
  record_id (deck_record pdf_id fname deck) = Some (VStr (pdf_id ++ py "_meta")).
Proof.
  unfold record_id, deck_record.
  destruct (nonempty (pdf_url deck)); by simplify_map_eq.
Qed.

Lemma slide_record_of_id pdf_id fname deck slide n :
  record_id (slide_record_of pdf_id fname deck slide n)
  = Some (VStr (pdf_id ++ py "_slide_" ++ Py.format_03d n)).
Proof. unfold record_id, slide_record_of. by simplify_map_eq. Qed.

(** The loop over the slides stops with a [KeyError] at the first slide
    without a number, whatever was built before. *)
Lemma slides_loop_missing pdf_id fname deck slides slide records :
  In slide slides -> slide_number slide = None ->
  Py.for_each (append_slide pdf_id fname deck) slides records
  = Py.Raise (Py.KeyError "slide_number").
Proof.
  intros Hin Hnone. revert records.
  induction slides as [|s slides IH]; intros records; [destruct Hin |].
  cbn [Py.for_each]. unfold append_slide at 1.
  destruct (slide_number s) as [n|] eqn:Es.
  - rewrite (slide_record_numbered _ _ _ _ n Es). pysimpl.
    destruct Hin as [-> | Hin]; [congruence |]. now apply IH.
  - now rewrite slide_record_missing.
Qed.

(** With every slide numbered, the loop appends one record per slide. *)
Lemma slides_loop_numbered pdf_id fname deck slides records :
  Forall (fun s => slide_number s <> None) slides ->
  exists built,
    Py.for_each (append_slide pdf_id fname deck) slides records
    = Py.Ok (records ++ built)
    /\ map record_id built = map (slide_id pdf_id) slides.
Proof.
  intros Hall. revert records.
  induction Hall as [|s slides Hs Hall IH]; intros records.
  - exists []. split; [now rewrite app_nil_r | reflexivity].
  - destruct (slide_number s) as [n|] eqn:Es; [| congruence].
    cbn [Py.for_each]. unfold append_slide at 1.
    rewrite (slide_record_numbered _ _ _ _ n Es). pysimpl.
    destruct (IH (records ++ [slide_record_of pdf_id fname deck s n]))
      as [built [Hrun Hids]].
    exists (slide_record_of pdf_id fname deck s n :: built). split.
    + rewrite Hrun, <- app_assoc. reflexivity.
    + cbn [map]. rewrite Hids, slide_record_of_id.
      unfold slide_id at 2. now rewrite Es.
Qed.

Lemma transform_missing_number timestamp data deck slides fname slide :
  deck_metadata data = Some deck -> slide_data data = Some slides ->
  filename deck = Some fname ->
  In slide slides -> slide_number slide = None ->
  transform_metadata_to_records timestamp data
  = Py.Raise (Py.KeyError "slide_number").
Proof.
  intros Hd Hs Hf Hin Hnone. unfold transform_metadata_to_records.
  rewrite Hd, Hs. pysimpl. rewrite Hf. pysimpl. cbv zeta.
  now rewrite (slides_loop_missing _ _ _ _ slide) by assumption.
Qed.

(** Whatever else the document holds, a slide without a number makes the
    builder raise a [KeyError]. *)
Lemma transform_keyerror timestamp data slides slide :
  slide_data data = Some slides ->
  In slide slides -> slide_number slide = None ->
  exists key,
    transform_metadata_to_records timestamp data = Py.Raise (Py.KeyError key).
Proof.
  intros Hs Hin Hnone. unfold transform_metadata_to_records.
  destruct (deck_metadata data) as [deck|]; [| now eexists].
  rewrite Hs. pysimpl.
  destruct (filename deck) as [fname|]; [| now eexists].
  pysimpl. cbv zeta.
  rewrite (slides_loop_missing _ _ _ _ slide) by assumption. now eexists.
Qed.

Lemma transform_numbered timestamp data deck slides fname :
  deck_metadata data = Some deck -> slide_data data = Some slides ->
  filename deck = Some fname ->
  Forall (fun s => slide_number s <> None) slides ->
  exists records info,
    transform_metadata_to_records timestamp data = Py.Ok (records, info)
    /\ map record_id records
       = Some (VStr (document_id timestamp fname ++ py "_meta"))
         :: map (slide_id (document_id timestamp fname)) slides.
Proof.
  intros Hd Hs Hf Hall. unfold transform_metadata_to_records.
  rewrite Hd, Hs. pysimpl. rewrite Hf. pysimpl. cbv zeta.
  destruct (slides_loop_numbered (document_id timestamp fname) fname deck
              slides [deck_record (document_id timestamp fname) fname deck]
              Hall) as [built [Hrun Hids]].
  rewrite Hrun. pysimpl. do 2 eexists. split; [reflexivity |].
  cbn [app map]. now rewrite deck_record_id, Hids.
Qed.

Lemma process_metadata_file_raise fs timestamp data e :
  transform_metadata_to_records timestamp data = Py.Raise e ->
  process_metadata_file fs timestamp data
  = {| returned := false; invalid_reports := []; saved_batches := [] |}.
Proof. intros H. unfold process_metadata_file. now rewrite H. Qed.

End Builder.

(** ** The validators *)

Section Validators.

Import ValidateTransformation.

Implicit Types (record : gmap string value)
  (records : list (gmap string value)) (errs : list message).

Lemma check_record_nil idx record :
  check_record idx record = [] <-> record_ok record = true.
Proof.
  unfold check_record, record_ok.
  assert (Hmiss : forall l,
    List.filter (fun key => negb (has_key record key)) l = []
    <-> forallb (has_key record) l = true).
  { induction l as [|k l IH]; cbn [List.filter forallb]; [tauto |].
    destruct (has_key record k); cbn [negb andb]; [exact IH |].
    split; discriminate. }
  destruct (List.filter _ required_fields) as [|k ks] eqn:Ef.
  - rewrite (proj1 (Hmiss _) Ef). cbn [app andb].
    destruct (Value.truthy (Value.get record "_id")); cbn [negb app andb];
      [| split; discriminate].
    destruct (Value.is_str (Value.get record "content")); cbn [negb orb app andb];
      [| split; discriminate].
    destruct (Value.truthy (Value.get record "content")); cbn [negb app andb];
      [| split; discriminate].
    destruct (known_type (Value.get record "type")); cbn [negb app andb];
      [| split; discriminate].
    destruct (Value.eq_str (Value.get record "type") (py "slide"));
      [| tauto].
    destruct (has_key record "slide_number"), (has_key record "keywords");
      cbn [negb app andb]; split; (reflexivity || discriminate).
  - split; [discriminate |]. intros H.
    assert (forallb (has_key record) required_fields = true) as Hf.
    { do 5 (apply andb_true_iff in H; destruct H as [H ?]). exact H. }
    apply Hmiss in Hf. congruence.
Qed.

Lemma check_record_index idx record m :
  In m (check_record idx record) -> message_index m = Some idx.
Proof.
  unfold check_record. intros H.
  repeat (apply in_app_or in H; destruct H as [H | H]);
    repeat match type of H with
           | In _ (match ?l with [] => _ | _ :: _ => _ end) => destruct l
           | In _ (if ?b then _ else _) => destruct b
           | In _ (_ ++ _) => apply in_app_or in H; destruct H as [H | H]
           end;
    try (destruct H as [<- | []]; reflexivity); try destruct H.
Qed.

Lemma check_records_app idx records errs :
  check_records idx records errs = errs ++ check_records idx records [].
Proof.
  revert idx errs. induction records as [|r records IH]; intros idx errs.
  - cbn. now rewrite app_nil_r.
  - cbn [check_records]. rewrite IH. rewrite (IH _ ([] ++ _)).
    cbn [app]. now rewrite app_assoc.
Qed.

Lemma check_records_cons idx record records :
  check_records idx (record :: records) []
  = check_record idx record ++ check_records (S idx) records [].
Proof. cbn [check_records app]. apply check_records_app. Qed.

Lemma check_records_nil idx records :
  check_records idx records [] = []
  <-> Forall (fun r => record_ok r = true) records.
Proof.
  revert idx. induction records as [|r records IH]; intros idx.
  - split; [constructor | reflexivity].
  - rewrite check_records_cons. split.
    + intros H. apply app_eq_nil in H. destruct H as [H1 H2].
      constructor; [now apply (check_record_nil idx) | now apply (IH (S idx))].
    + intros H. inversion H; subst.
      rewrite (proj2 (check_record_nil idx r)) by assumption.
      now apply IH.
Qed.

(** Every message names a record of the sequence, and comes from the
    checks of that record. *)
Lemma check_records_origin idx records m k :
  In m (check_records idx records []) -> message_index m = Some k ->
  exists i r, k = (idx + i)%nat /\ nth_error records i = Some r
              /\ In m (check_record k r).
Proof.
  revert idx. induction records as [|r records IH]; intros idx Hin Hk;
    [destruct Hin |].
  rewrite check_records_cons in Hin. apply in_app_or in Hin.
  destruct Hin as [Hin | Hin].
  - pose proof (check_record_index _ _ _ Hin) as E.
    rewrite Hk in E. injection E as ->.
    exists 0%nat, r. split; [lia | split; [reflexivity | exact Hin]].
  - destruct (IH (S idx) Hin Hk) as [i [r' [-> [Hnth Hm]]]].
    exists (S i), r'. split; [lia | split; [exact Hnth | exact Hm]].
Qed.

Lemma check_records_reports idx records i r :
  nth_error records i = Some r -> record_ok r = false ->
  exists m, In m (check_records idx records [])
            /\ message_index m = Some (idx + i)%nat.
Proof.
  revert idx i. induction records as [|r' records IH]; intros idx i Hnth Hbad;
    [destruct i; discriminate |].
  rewrite check_records_cons. destruct i as [|i]; cbn [nth_error] in Hnth.
  - injection Hnth as ->.
    destruct (check_record idx r) as [|m ms] eqn:E.
    + apply check_record_nil in E. congruence.
    + exists m. split; [now left |].
      replace (idx + 0)%nat with idx by lia.
      apply (check_record_index idx r). rewrite E. now left.
  - destruct (IH (S idx) i Hnth Hbad) as [m [Hin Hm]].
    exists m. split; [apply in_or_app; now right |].
    rewrite Hm. f_equal. lia.
Qed.

(** *** [validate_record] and the loop of [process_metadata_file] *)

Lemma validate_record_passes record :
  record_passes record = true
  <-> is_Some (record !! "_id")
      /\ exists s, record !! "content" = Some (VStr s) /\ Py.strip_ws s <> [].
Proof.
  unfold record_passes, Transform.validate_record.
  destruct (record !! "_id") as [i|].
  2:{ split; [discriminate | intros [[? ?] _]; discriminate]. }
  destruct (record !! "content") as [c|].
  2:{ split; [discriminate | intros [_ [s [? _]]]; discriminate]. }
  destruct c as [| b | z | x | s | l];
    try (cbn [Value.is_str negb]; rewrite orb_true_r; cbn [fst];
         split; [discriminate | intros [_ [s' [E _]]]; discriminate]).
  cbn [Value.truthy Value.is_str negb orb].
  destruct s as [|c s].
  - split; [discriminate |]. intros [_ [s' [E H]]].
    injection E as <-. now contradiction H.
  - cbn [negb orb]. destruct (Py.strip_ws (c :: s)) as [|c' t] eqn:E.
    + split; [discriminate |]. intros [_ [s' [E' H]]].
      injection E' as <-. rewrite E in H. now contradiction H.
    + split; [| reflexivity]. intros _. split; [now eexists |].
      exists (c :: s). split; [reflexivity |]. now rewrite E.
Qed.

(** The loop reports each rejected record once, in order, and counts them. *)
Lemma validation_loop_reports records :
  Transform.validation_loop records
  = (map invalid_report (List.filter (fun r => negb (record_passes r)) records),
     length (List.filter (fun r => negb (record_passes r)) records)).
Proof.
  induction records as [|r records IH]; [reflexivity |].
  cbn [Transform.validation_loop List.filter]. rewrite IH.
  assert (E1 : record_passes r = fst (Transform.validate_record r))
    by reflexivity.
  assert (E2 : invalid_report r
               = (default (VStr (py "unknown")) (r !! "_id"),
                  snd (Transform.validate_record r))) by reflexivity.
  destruct (Transform.validate_record r) as [[|] msg];
    cbn [fst snd] in E1, E2; rewrite E1; cbn [negb map length];
    [reflexivity | now rewrite E2].
Qed.

Lemma process_metadata_file_blocked fs timestamp data records info :
  Transform.transform_metadata_to_records timestamp data = Py.Ok (records, info) ->
  Exists (fun r => record_passes r = false) records ->
  Transform.process_metadata_file fs timestamp data
  = {| Transform.returned := false;
       Transform.invalid_reports :=
         map invalid_report
             (List.filter (fun r => negb (record_passes r)) records);
       Transform.saved_batches := [] |}.
Proof.
  intros Hrun Hbad. unfold Transform.process_metadata_file.
  rewrite Hrun, validation_loop_reports.
  destruct (List.filter _ records) as [|r rs] eqn:Ef; [| reflexivity].
  exfalso. apply List.Exists_exists in Hbad. destruct Hbad as [r [Hin Hr]].
  assert (In r (List.filter (fun r => negb (record_passes r)) records)) as H
    by (apply filter_In; split; [exact Hin | now rewrite Hr]).
  rewrite Ef in H. destruct H.
Qed.




(** A file system that accepts a batch list writes all of it. *)
Lemma save_loop_accepts fs pdf_id idx (batches : list (list (gmap string value))) :
  (forall i b, Transform.fs_write_batch fs pdf_id i b = Py.Ok tt) ->
  Transform.save_loop fs pdf_id idx batches = (Py.Ok tt, batches).
Proof.
  intros Hw. revert idx. induction batches as [|b batches IH]; intros idx;
    [reflexivity |].
  cbn [Transform.save_loop]. now rewrite Hw, IH.
Qed.

End Validators.

(** ** The insertion-ordered dictionary *)

Section ODictFacts.

Context {V : Type}.
Implicit Types (d : ODict.t V) (k : pystr) (v : V).

Lemma str_eqb_eq (a b : pystr) : Py.str_eqb a b = true <-> a = b.
Proof. unfold Py.str_eqb. apply bool_decide_eq_true. Qed.

Lemma str_eqb_refl (a : pystr) : Py.str_eqb a a = true.
Proof. now apply str_eqb_eq. Qed.

Lemma str_eqb_neq (a b : pystr) : a <> b -> Py.str_eqb a b = false.
Proof. intros H. apply not_true_iff_false. now rewrite str_eqb_eq. Qed.

Lemma odict_get_set_eq d k v : ODict.get (ODict.set d k v) k = Some v.
Proof.
  induction d as [|[k' v'] d IH]; cbn [ODict.set ODict.get].
  - now rewrite str_eqb_refl.
  - destruct (Py.str_eqb k k') eqn:E; cbn [ODict.get].
    + now rewrite str_eqb_refl.
    + now rewrite E.
Qed.

Lemma odict_get_set_ne d k k' v :
  k <> k' -> ODict.get (ODict.set d k v) k' = ODict.get d k'.
Proof.
  intros Hne. induction d as [|[k0 v0] d IH]; cbn [ODict.set ODict.get].
  - rewrite str_eqb_neq by congruence. reflexivity.
  - destruct (Py.str_eqb k k0) eqn:E; cbn [ODict.get].
    + apply str_eqb_eq in E. subst k0.
      now rewrite !(str_eqb_neq k' k) by congruence.
    + now rewrite IH.
Qed.

Lemma odict_get_None d k : ODict.get d k = None <-> ~ In k (ODict.keys d).
Proof.
  induction d as [|[k' v'] d IH]; cbn [ODict.get ODict.keys map fst].
  - split; [intros _ [] | reflexivity].
  - destruct (Py.str_eqb k k') eqn:E.
    + apply str_eqb_eq in E. subst. split; [discriminate |].
      intros H. exfalso. apply H. now left.
    + rewrite IH. unfold ODict.keys. split.
      * intros H [H' | H']; [| now apply H].
        subst. now rewrite str_eqb_refl in E.
      * intros H H'. apply H. now right.
Qed.

Lemma odict_keys_set d k v :
  ODict.keys (ODict.set d k v)
  = match ODict.get d k with
    | Some _ => ODict.keys d
    | None => ODict.keys d ++ [k]
    end.
Proof.
  induction d as [|[k' v'] d IH]; cbn [ODict.set ODict.get]; [reflexivity |].
  destruct (Py.str_eqb k k') eqn:E.
  - apply str_eqb_eq in E. now subst.
  - unfold ODict.keys in *. cbn [map fst]. rewrite IH.
    now destruct (ODict.get d k).
Qed.

Lemma odict_set_NoDup d k v :
  List.NoDup (ODict.keys d) -> List.NoDup (ODict.keys (ODict.set d k v)).
Proof.
  intros H. rewrite odict_keys_set.
  destruct (ODict.get d k) eqn:E; [exact H |].
  apply odict_get_None in E.
  apply NoDup_rev in H. rewrite <- (rev_involutive (_ ++ _)).
  apply NoDup_rev. rewrite rev_app_distr. cbn [rev app].
  constructor; [now rewrite <- in_rev | exact H].
Qed.

Lemma odict_set_Forall (P : pystr * V -> Prop) d k v :
  Forall P d -> P (k, v) -> Forall P (ODict.set d k v).
Proof.
  intros Hd Hkv. induction Hd as [|[k' v'] d Hx Hd IH]; cbn [ODict.set].
  - constructor; [exact Hkv | constructor].
  - destruct (Py.str_eqb k k'); constructor; assumption.
Qed.

Lemma odict_get_In d k v : ODict.get d k = Some v -> In (k, v) d.
Proof.
  induction d as [|[k' v'] d IH]; cbn [ODict.get]; [discriminate |].
  destruct (Py.str_eqb k k') eqn:E.
  - apply str_eqb_eq in E. subst. intros [= ->]. now left.
  - intros H. right. now apply IH.
Qed.


End ODictFacts.

(** ** Sorting by score *)

Section SortFacts.

Context {A : Type}.

Lemma insert_desc_float (x : value * A) l :
  float_key x -> Forall float_key l ->
  exists r, Sorted.insert_desc x l = Py.Ok r
            /\ Permutation (x :: l) r /\ Forall float_key r.
Proof.
  unfold float_key at 1. intros [s Hs] Hl.
  induction Hl as [|y l [t Ht] Hl IH];
    cbn [Sorted.insert_desc].
  - exists [x]. repeat split; [reflexivity | constructor; [now exists s | constructor]].
  - rewrite Hs, Ht. cbn [Value.lt]. pysimpl.
    destruct (PrimFloat.ltb s t).
    + destruct IH as [r [-> [Hp Hf]]]. pysimpl.
      exists (y :: r). repeat split.
      * rewrite perm_swap. now constructor.
      * constructor; [now exists t | exact Hf].
    + exists (x :: y :: l). repeat split; [reflexivity |].
      constructor; [now exists s |]. constructor; [now exists t | exact Hl].
Qed.

Lemma sort_desc_float (l : list (value * A)) :
  Forall float_key l ->
  exists r, Sorted.sort_desc l = Py.Ok r
            /\ Permutation l r /\ Forall float_key r.
Proof.
  induction 1 as [|x l Hx Hl IH]; cbn [Sorted.sort_desc].
  - exists []. repeat split; constructor.
  - destruct IH as [r [-> [Hp Hf]]]. pysimpl.
    destruct (insert_desc_float x r Hx Hf) as [r' [-> [Hp' Hf']]].
    exists r'. repeat split; [| exact Hf'].
    rewrite <- Hp'. now constructor.
Qed.

End SortFacts.


Lemma sorted_by_desc_scores (docs : list (gmap string value)) :
  Forall (fun d => exists s, d !! "_score" = Some (VFloat s)) docs ->
  exists merged,
    Sorted.sorted_by_desc "_score" docs = Py.Ok merged
    /\ Permutation docs merged.
Proof.
  intros H. unfold Sorted.sorted_by_desc.
  assert (exists keyed, Sorted.with_keys "_score" docs = Py.Ok keyed
                        /\ map snd keyed = docs /\ Forall float_key keyed)
    as [keyed [-> [Hsnd Hkeys]]].
  { induction H as [|d docs [s Hs] _ [keyed [IH [Hsnd Hk]]]];
      cbn [Sorted.with_keys].
    - exists []. repeat split; constructor.
    - unfold Value.getitem. rewrite Hs. pysimpl. rewrite IH. pysimpl.
      exists ((VFloat s, d) :: keyed). repeat split.
      + cbn [map snd]. now rewrite Hsnd.
      + constructor; [now exists s | exact Hk]. }
  pysimpl. destruct (sort_desc_float keyed Hkeys) as [r [-> [Hp _]]]. pysimpl.
  exists (map snd r). split; [reflexivity |].
  rewrite <- Hsnd. now apply Permutation_map.
Qed.

(** ** The merge of dense and sparse hits *)

Section MergeFacts.

(** The two merges differ in [make_doc] only; the facts are proved for
    any builder that, on a well-formed hit, returns a document with the
    hit's id and score. *)
Variable make_doc : Hit -> Py.result (gmap string value).
Variable doc_of : Hit -> gmap string value.
Hypothesis make_doc_wf : forall h, wf_hit h -> make_doc h = Py.Ok (doc_of h).
Hypothesis doc_of_id :
  forall h, wf_hit h -> doc_of h !! "_id" = Some (VStr (hit_id h)).
Hypothesis doc_of_score :
  forall h, wf_hit h -> doc_of h !! "_score" = Some (VFloat (hit_score h)).

Implicit Types (hits : ODict.t (gmap string value)) (h : Hit).

Lemma good_set hits k doc :
  good hits -> merged_entry (k, doc) -> good (ODict.set hits k doc).
Proof.
  intros [Hnd Hall] Hdoc. split.
  - now apply odict_set_NoDup.
  - now apply odict_set_Forall.
Qed.

Lemma good_get hits k doc :
  good hits -> ODict.get hits k = Some doc -> merged_entry (k, doc).
Proof.
  intros [_ Hall] Hget. apply odict_get_In in Hget.
  rewrite List.Forall_forall in Hall. now apply Hall.
Qed.

Lemma doc_of_entry h : wf_hit h -> merged_entry (hit_id h, doc_of h).
Proof.
  intros Hwf. split; cbn [fst snd]; [now apply doc_of_id |].
  exists (hit_score h). now apply doc_of_score.
Qed.

Lemma add_dense_wf hits h :
  wf_hit h ->
  Merge.add_dense make_doc hits h
  = Py.Ok (ODict.set hits (hit_id h) (doc_of h)).
Proof. intros Hwf. unfold Merge.add_dense. now rewrite make_doc_wf. Qed.

(** The dense loop: it succeeds, keeps the entries of other ids, and
    leaves each dense hit's own document under its id. *)
Lemma dense_loop dense hits :
  Forall wf_hit dense -> good hits ->
  exists hits',
    Py.for_each (Merge.add_dense make_doc) dense hits = Py.Ok hits'
    /\ good hits'
    /\ (forall k, ~ In k (map hit_id dense) ->
                  ODict.get hits' k = ODict.get hits k)
    /\ (List.NoDup (map hit_id dense) ->
        forall h, In h dense -> ODict.get hits' (hit_id h) = Some (doc_of h)).
Proof.
  intros Hwf. revert hits.
  induction Hwf as [|h0 dense Hh0 Hwf IH]; intros hits Hgood.
  - exists hits. repeat split; try assumption; try apply Hgood.
    intros _ h [].
  - cbn [Py.for_each]. rewrite add_dense_wf by exact Hh0. pysimpl.
    destruct (IH (ODict.set hits (hit_id h0) (doc_of h0))) as
      [hits' [Hrun [Hgood' [Hother Hown]]]].
    { apply good_set; [exact Hgood | now apply doc_of_entry]. }
    exists hits'. split; [exact Hrun |]. split; [exact Hgood' |]. split.
    + intros k Hk. cbn [map] in Hk. rewrite Hother.
      * apply odict_get_set_ne. intros E. apply Hk. now left.
      * intros H. apply Hk. now right.
    + cbn [map]. intros Hnd h Hin. inversion Hnd as [|? ? Hnotin Hnd']; subst.
      destruct Hin as [<- | Hin]; [| now apply Hown].
      rewrite Hother by exact Hnotin. apply odict_get_set_eq.
Qed.

Lemma add_sparse_new hits h :
  wf_hit h -> ODict.get hits (hit_id h) = None ->
  Merge.add_sparse make_doc hits h
  = Py.Ok (ODict.set hits (hit_id h) (doc_of h)).
Proof.
  intros Hwf Hget. unfold Merge.add_sparse. rewrite Hget.
  now rewrite make_doc_wf.
Qed.

Lemma add_sparse_seen hits h doc s :
  ODict.get hits (hit_id h) = Some doc -> doc !! "_score" = Some (VFloat s) ->
  Merge.add_sparse make_doc hits h
  = Py.Ok (ODict.set hits (hit_id h)
             (<["_score" := VFloat (mean s (hit_score h))]> doc)).
Proof.
  intros Hget Hs. unfold Merge.add_sparse, Value.getitem.
  rewrite Hget, Hs. reflexivity.
Qed.

Lemma rescored_entry k doc s :
  merged_entry (k, doc) -> merged_entry (k, <["_score" := VFloat s]> doc).
Proof.
  intros [Hid _]. split; cbn [fst snd] in *.
  - rewrite lookup_insert_ne by discriminate. exact Hid.
  - exists s. apply lookup_insert_eq.
Qed.

(** One sparse hit: the entries of other ids stay, and the entry of its
    own id is the rescored document or the new one. *)
Lemma add_sparse_good hits h :
  wf_hit h -> good hits ->
  exists hits',
    Merge.add_sparse make_doc hits h = Py.Ok hits'
    /\ good hits'
    /\ (forall k, k <> hit_id h -> ODict.get hits' k = ODict.get hits k)
    /\ (forall doc s,
          ODict.get hits (hit_id h) = Some doc ->
          doc !! "_score" = Some (VFloat s) ->
          ODict.get hits' (hit_id h)
          = Some (<["_score" := VFloat (mean s (hit_score h))]> doc)).
Proof.
  intros Hwf Hgood.
  destruct (ODict.get hits (hit_id h)) as [doc|] eqn:Hget.
  - pose proof (good_get _ _ _ Hgood Hget) as Hentry.
    destruct Hentry as [Hid [s Hs]]. cbn [fst snd] in *.
    eexists. split; [exact (add_sparse_seen _ _ _ _ Hget Hs) |].
    split; [| split].
    + apply good_set; [exact Hgood |]. apply rescored_entry.
      split; [exact Hid | now exists s].
    + intros k Hk. apply odict_get_set_ne. congruence.
    + intros doc' s' [= <-] Hs'. rewrite Hs in Hs'. injection Hs' as <-.
      apply odict_get_set_eq.
  - eexists. split; [exact (add_sparse_new _ _ Hwf Hget) |].
    split; [| split].
    + apply good_set; [exact Hgood | now apply doc_of_entry].
    + intros k Hk. apply odict_get_set_ne. congruence.
    + intros doc s [=].
Qed.

Lemma sparse_loop sparse hits :
  Forall wf_hit sparse -> good hits ->
  exists hits',
    Py.for_each (Merge.add_sparse make_doc) sparse hits = Py.Ok hits'
    /\ good hits'
    /\ (forall k, ~ In k (map hit_id sparse) ->
                  ODict.get hits' k = ODict.get hits k)
    /\ (List.NoDup (map hit_id sparse) ->
        forall h doc s,
          In h sparse -> ODict.get hits (hit_id h) = Some doc ->
          doc !! "_score" = Some (VFloat s) ->
          ODict.get hits' (hit_id h)
          = Some (<["_score" := VFloat (mean s (hit_score h))]> doc)).
Proof.
  intros Hwf. revert hits.
  induction Hwf as [|h0 sparse Hh0 Hwf IH]; intros hits Hgood.
  - exists hits. repeat split; try assumption; try apply Hgood.
    intros _ h doc s [].
  - cbn [Py.for_each].
    destruct (add_sparse_good hits h0 Hh0 Hgood)
      as [hits1 [Hrun1 [Hgood1 [Hother1 Hown1]]]].
    rewrite Hrun1. pysimpl.
    destruct (IH hits1 Hgood1) as [hits' [Hrun [Hgood' [Hother Hown]]]].
    exists hits'. split; [exact Hrun |]. split; [exact Hgood' |]. split.
    + intros k Hk. cbn [map] in Hk. rewrite Hother.
      * apply Hother1. intros E. apply Hk. now left.
      * intros H. apply Hk. now right.
    + cbn [map]. intros Hnd h doc s Hin Hget Hs.
      inversion Hnd as [|? ? Hnotin Hnd']; subst.
      destruct Hin as [<- | Hin].
      * rewrite Hother by exact Hnotin. now apply Hown1.
      * apply Hown; try assumption.
        rewrite Hother1; [exact Hget |].
        intros E. apply Hnotin. rewrite <- E. now apply in_map.
Qed.


End MergeFacts.

(** ** The two document builders *)

Section DocBuilders.

Implicit Types (h : Hit) (fields doc : gmap string value) (key : string).

Lemma copy_fields_lookup fields doc key :
  UnifiedIndex.copy_fields fields doc !! key
  = if String.eqb key "content" then doc !! key
    else match fields !! key with
         | Some v => Some v
         | None => doc !! key
         end.
Proof.
  unfold UnifiedIndex.copy_fields. revert key.
  apply (map_fold_weak_ind
           (fun r (m : gmap string value) => forall key,
              r !! key = if String.eqb key "content" then doc !! key
                         else match m !! key with
                              | Some v => Some v
                              | None => doc !! key
                              end)).
  - intros key. rewrite lookup_empty. now destruct (String.eqb key "content").
  - intros i x m r Hi IH key.
    destruct (String.eqb_spec key "content") as [-> | Hkey].
    + destruct (String.eqb_spec i "content") as [-> | Hi'].
      * rewrite IH. reflexivity.
      * rewrite lookup_insert_ne by exact Hi'. rewrite IH. reflexivity.
    + destruct (String.eqb_spec i "content") as [-> | Hi'].
      * rewrite IH. rewrite (proj2 (String.eqb_neq _ _) Hkey).
        rewrite lookup_insert_ne by congruence. reflexivity.
      * destruct (decide (i = key)) as [-> | Hne].
        -- now rewrite !lookup_insert_eq.
        -- rewrite !lookup_insert_ne by exact Hne. rewrite IH.
           now rewrite (proj2 (String.eqb_neq _ _) Hkey).
Qed.

Lemma base_doc_lookup h key :
  base_doc h !! key
  = if String.eqb key "_score" then Some (VFloat (hit_score h))
    else if String.eqb key "content"
         then Some (Value.get (hit_fields h) "content")
         else if String.eqb key "_id" then Some (VStr (hit_id h)) else None.
Proof.
  unfold base_doc.
  destruct (String.eqb_spec key "_score") as [-> | H1];
    [now rewrite lookup_insert_eq |].
  rewrite lookup_insert_ne by congruence.
  destruct (String.eqb_spec key "content") as [-> | H2];
    [now rewrite lookup_insert_eq |].
  rewrite lookup_insert_ne by congruence.
  destruct (String.eqb_spec key "_id") as [-> | H3];
    [now rewrite lookup_insert_eq |].
  rewrite lookup_insert_ne by congruence. apply lookup_empty.
Qed.

Lemma get_content h :
  wf_hit h ->
  hit_fields h !! "content" = Some (Value.get (hit_fields h) "content").
Proof. intros [[c Hc] _]. unfold Value.get. now rewrite Hc. Qed.

(** *** [deckbot_unified_index.py] *)

Lemma unified_make_doc h :
  wf_hit h -> UnifiedIndex.make_doc h = Py.Ok (unified_doc h).
Proof.
  intros Hwf. unfold UnifiedIndex.make_doc, Value.getitem.
  rewrite (get_content h Hwf). reflexivity.
Qed.

(** Every entry of the document but the score is the hit's. *)
Lemma unified_doc_fields h key :
  wf_hit h -> key <> "_score"%string ->
  unified_doc h !! key = hit_field h key.
Proof.
  intros Hwf Hkey. pose proof (get_content h Hwf) as Hc.
  destruct Hwf as (_ & Hid & Hscore).
  unfold unified_doc, hit_field. rewrite copy_fields_lookup, base_doc_lookup.
  rewrite (proj2 (String.eqb_neq _ _) Hkey).
  destruct (String.eqb_spec key "content") as [-> | H2].
  - cbn. now rewrite Hc.
  - destruct (String.eqb_spec key "_id") as [-> | H3]; [now rewrite Hid |].
    now destruct (hit_fields h !! key).
Qed.

Lemma unified_doc_id h :
  wf_hit h -> unified_doc h !! "_id" = Some (VStr (hit_id h)).
Proof. intros Hwf. now rewrite unified_doc_fields. Qed.

Lemma unified_doc_score h :
  wf_hit h -> unified_doc h !! "_score" = Some (VFloat (hit_score h)).
Proof.
  intros (_ & _ & Hscore). unfold unified_doc.
  rewrite copy_fields_lookup, base_doc_lookup. cbn. now rewrite Hscore.
Qed.

(** *** [setup_hybrid_search.py] *)

Lemma hybrid_make_doc h :
  wf_hit h -> HybridSearch.make_doc h = Py.Ok (hybrid_doc h).
Proof.
  intros Hwf. unfold HybridSearch.make_doc, Value.getitem.
  rewrite (get_content h Hwf). reflexivity.
Qed.

Lemma copy_keys_lookup fields doc key :
  HybridSearch.copy_keys fields doc !! key
  = if existsb (String.eqb key) HybridSearch.copied_keys
    then match fields !! key with
         | Some v => Some v
         | None => doc !! key
         end
    else doc !! key.
Proof.
  unfold HybridSearch.copy_keys, HybridSearch.copied_keys.
  cbn [fold_left existsb].
  destruct (String.eqb_spec key "keywords") as [-> | H1];
    [| destruct (String.eqb_spec key "slide_number") as [-> | H2];
       [| destruct (String.eqb_spec key "type") as [-> | H3]]];
    cbn [orb];
    destruct (fields !! "keywords"), (fields !! "slide_number"),
      (fields !! "type");
    by simplify_map_eq.
Qed.

(** The document holds the hit's id and content and, of its fields, the
    three the script copies. *)
Lemma hybrid_doc_fields h key :
  wf_hit h -> key <> "_score"%string ->
  hybrid_doc h !! key
  = if existsb (String.eqb key) hybrid_keys then hit_field h key else None.
Proof.
  intros Hwf Hkey. pose proof (get_content h Hwf) as Hc.
  unfold hybrid_doc, hit_field. rewrite copy_keys_lookup, base_doc_lookup.
  rewrite (proj2 (String.eqb_neq _ _) Hkey).
  unfold HybridSearch.copied_keys, hybrid_keys. cbn [existsb].
  destruct (String.eqb_spec key "_id") as [-> | H1]; [reflexivity |].
  destruct (String.eqb_spec key "content") as [-> | H2];
    [cbn; now rewrite Hc |].
  destruct (String.eqb_spec key "keywords") as [-> | H3];
    [cbn; now destruct (hit_fields h !! "keywords") |].
  destruct (String.eqb_spec key "slide_number") as [-> | H4];
    [cbn; now destruct (hit_fields h !! "slide_number") |].
  destruct (String.eqb_spec key "type") as [-> | H5];
    [cbn; now destruct (hit_fields h !! "type") |].
  reflexivity.
Qed.

Lemma hybrid_doc_id h :
  wf_hit h -> hybrid_doc h !! "_id" = Some (VStr (hit_id h)).
Proof. intros Hwf. now rewrite hybrid_doc_fields. Qed.

Lemma hybrid_doc_score h :
  hybrid_doc h !! "_score" = Some (VFloat (hit_score h)).
Proof.
  unfold hybrid_doc. rewrite copy_keys_lookup, base_doc_lookup. reflexivity.
Qed.

End DocBuilders.

(** ** The searches *)

Section Searches.

Import UnifiedIndex UnifiedSearch.

Lemma merge_nothing : _merge_results [] [] = Py.Ok [].
Proof. reflexivity. Qed.

(** [cascading_search] has one path: two index searches, the merge, the
    reranker.  Nothing in it looks at the size of the merged list. *)
Lemma cascading_search_run svc query namespace filters top_k rerank_top_n
    dense sparse merged :
  let q := search_query_of query filters top_k in
  index_search svc DENSE_INDEX_NAME namespace q = Py.Ok dense ->
  index_search svc SPARSE_INDEX_NAME namespace q = Py.Ok sparse ->
  _merge_results dense sparse = Py.Ok merged ->
  let top_n := Z.min rerank_top_n (Z.of_nat (length merged)) in
  IO.run (cascading_search svc query namespace filters top_k rerank_top_n)
  = (after_rerank (inference_rerank svc query merged top_n),
     [CallSearch DENSE_INDEX_NAME namespace q;
      CallSearch SPARSE_INDEX_NAME namespace q;
      CallRerank query merged top_n]).
Proof.
  intros q Hd Hs Hm top_n.
  unfold IO.run, cascading_search. fold (search_query_of query filters top_k).
  fold q. unfold mbind, io_bind, IO.bind, IO.call, IO.pure, mret, io_ret, IO.ret.
  rewrite Hd, Hs, Hm. fold top_n. unfold after_rerank.
  destruct (inference_rerank svc query merged top_n) as [r | e];
    [| reflexivity].
  cbn [mbind result_bind Py.bind].
  destruct (_display_results r); reflexivity.
Qed.

(** [hybrid_search] of [setup_hybrid_search.py] has the same single path. *)
Lemma hybrid_search_run svc query top_k rerank_top_n dense sparse merged :
  let q := {| sq_top_k := top_k; sq_text := query; sq_filter := None |} in
  index_search svc HybridSearch.DENSE_INDEX HybridSearch.NAMESPACE q
  = Py.Ok dense ->
  index_search svc HybridSearch.SPARSE_INDEX HybridSearch.NAMESPACE q
  = Py.Ok sparse ->
  HybridSearch.merge_results dense sparse = Py.Ok merged ->
  snd (IO.run (HybridSearchRun.hybrid_search svc query top_k rerank_top_n))
  = [CallSearch HybridSearch.DENSE_INDEX HybridSearch.NAMESPACE q;
     CallSearch HybridSearch.SPARSE_INDEX HybridSearch.NAMESPACE q;
     CallRerank query merged rerank_top_n].
Proof.
  intros q Hd Hs Hm.
  unfold IO.run, HybridSearchRun.hybrid_search. fold q.
  unfold mbind, io_bind, IO.bind, IO.call, IO.pure, mret, io_ret, IO.ret.
  rewrite Hd, Hs, Hm.
  destruct (inference_rerank svc query merged rerank_top_n) as [r | e];
    [| reflexivity].
  destruct (Py.for_each HybridSearchRun.display_item r tt); reflexivity.
Qed.

End Searches.

(** * The claims *)

(** Five records in batches of two, and 97 records in batches of 96. *)
Example create_batches_five :
  Transform.create_batches [1; 2; 3; 4; 5]%nat 2
  = Py.Ok [[1; 2]; [3; 4]; [5]]%nat.
Proof. reflexivity. Qed.

Example create_batches_97_by_96 :
  match Transform.create_batches (seq 0 97) 96 with
  | Py.Ok batches => map (@length nat) batches
  | Py.Raise _ => []
  end = [96; 1]%nat.
Proof. vm_compute. reflexivity. Qed.

(** Claim C7.  For every record sequence and every batch size
    [k > 0], [create_batches] returns batches whose concatenation is the
    input sequence; every batch holds at least one and at most [k] records;
    all batches but the last hold exactly [k]; and 97 records with [k = 96]
    give two batches, of 96 records and of 1. *)
Theorem batches_partition_records {A} (records : list A) (k : Z) :
  0 < k ->
  exists batches,
    Transform.create_batches records k = Py.Ok batches
    /\ concat batches = records
    /\ Forall (fun b => (1 <= length b <= Z.to_nat k)%nat) batches
    /\ (exists full rest,
          batches = full ++ rest
          /\ Forall (fun b => length b = Z.to_nat k) full
          /\ (length rest <= 1)%nat)
    /\ (length records = 97%nat -> k = 96 ->
        map (@length A) batches = [96; 1]%nat).
Proof.
  intros Hk. exists (batches_of (Z.to_nat k) (batch_count records k) records).
  destruct (batch_count_bounds records k Hk) as (Hupper & Hlower & Hzero).
  split; [now apply create_batches_pos |].
  split; [now apply batches_of_concat |].
  split; [| split].
  - unfold batches_of. apply Forall_map, List.Forall_forall.
    intros j Hj. apply in_seq in Hj.
    rewrite length_firstn, length_skipn. nia.
  - destruct (batch_count records k) as [|m] eqn:Em.
    + exists [], []. repeat split; [constructor | simpl; lia].
    + exists (batches_of (Z.to_nat k) m records),
        [firstn (Z.to_nat k) (skipn (m * Z.to_nat k) records)].
      split; [apply batches_of_snoc |]. split; [| simpl; lia].
      apply batches_of_full. specialize (Hlower ltac:(lia)).
      replace (S m - 1)%nat with m in Hlower by lia. lia.
  - intros Hlen ->. rewrite batches_of_lengths. unfold batch_count.
    rewrite Hlen. reflexivity.
Qed.

Lemma batches_partition_records_witness :
  0 < 2
  /\ exists batches,
       Transform.create_batches [1; 2; 3; 4; 5]%nat 2 = Py.Ok batches
       /\ concat batches = [1; 2; 3; 4; 5]%nat
       /\ Forall (fun b => (1 <= length b <= Z.to_nat 2)%nat) batches
       /\ (exists full rest,
             batches = full ++ rest
             /\ Forall (fun b => length b = Z.to_nat 2) full
             /\ (length rest <= 1)%nat)
       /\ (length [1; 2; 3; 4; 5]%nat = 97%nat -> 2 = 96 ->
           map (@length nat) batches = [96; 1]%nat).
Proof.
  split; [lia |]. apply (batches_partition_records [1; 2; 3; 4; 5]%nat 2). lia.
Defined.

(** Claim C5, as the code has it.  [create_batches] raises Python's
    [ValueError] (from [range]) when the batch size is zero, returns no
    batch at all, without raising, when it is negative, and succeeds when
    it is positive. *)
Theorem create_batches_by_sign {A} (records : list A) (k : Z) :
  Transform.create_batches records k
  = if k =? 0 then Py.Raise Py.ValueError
    else if k <? 0 then Py.Ok []
    else Py.Ok (batches_of (Z.to_nat k) (batch_count records k) records).
Proof.
  destruct (Z.eqb_spec k 0) as [-> | Hne]; [apply create_batches_zero |].
  destruct (Z.ltb_spec k 0) as [Hneg | Hpos].
  - now apply create_batches_neg.
  - apply create_batches_pos. lia.
Qed.

(** Claim C5 does not hold as stated: with a batch size of -1 nothing
    fails, and the three records are in no batch; with 0 the exception is a
    [ValueError]. *)
Lemma negative_batch_size_does_not_fail :
  Transform.create_batches [1; 2; 3]%nat (-1) = Py.Ok []
  /\ Transform.create_batches [1; 2; 3]%nat 0 = Py.Raise Py.ValueError
  /\ exn_class Py.ValueError <> "ConfigurationError"%string.
Proof. repeat split. discriminate. Qed.

(** Claim C10.  Whatever the input, the output of [sanitize_id], and of
    [sanitize_pdf_id] whatever [Path.stem] returns, consists of lowercase
    ASCII letters, digits and underscores, neither begins nor ends with an
    underscore, and has no two underscores in a row; in particular it is
    ASCII only. *)
Theorem sanitized_ids_are_canonical (text : pystr) :
  (canonical_id (Transform.sanitize_id text)
   /\ ascii_safe (Transform.sanitize_id text))
  /\ forall stem : pystr -> pystr,
       canonical_id (Upsert.sanitize_pdf_id stem text)
       /\ ascii_safe (Upsert.sanitize_pdf_id stem text).
Proof.
  split.
  - split; [| apply canonical_ascii]; apply sanitize_id_canonical.
  - intros stem.
    split; [| apply canonical_ascii]; apply sanitize_pdf_id_canonical.
Qed.

(** Claim C9.  [sanitize_id] is idempotent on every ASCII input (and,
    by [sanitize_id_idempotent_all], on every other input too). *)
Theorem sanitize_id_idempotent (x : pystr) :
  ascii_safe x ->
  Transform.sanitize_id (Transform.sanitize_id x) = Transform.sanitize_id x.
Proof. intros _. apply sanitize_id_fixed, sanitize_id_canonical. Qed.

Lemma sanitize_id_idempotent_witness :
  ascii_safe Examples.title
  /\ Transform.sanitize_id (Transform.sanitize_id Examples.title)
     = Transform.sanitize_id Examples.title.
Proof.
  assert (H : ascii_safe Examples.title)
    by (unfold ascii_safe; repeat constructor).
  split; [exact H | exact (sanitize_id_idempotent Examples.title H)].
Defined.

(** Claim C4, as the code has it.  The [str.replace] calls of
    [sanitize_id] turn each space and each hyphen into an underscore and
    delete each of [( ) [ ]]; the characters they leave alone include the
    other whitespace characters, which the next step, replacing every
    character that is not an ASCII letter, digit or underscore, turns into
    underscores. *)
Theorem replace_stage_by_character (text : pystr) :
  Transform.replace_specials text = flat_map replace_special_char text
  /\ forall c, Py.isspace c = true ->
       Transform.ascii_only (Transform.replace_specials [c]) = [chr "_"].
Proof.
  split; [apply replace_specials_chars |].
  intros c Hc. now apply whitespace_becomes_underscore.
Qed.

(** Claim C4 does not hold as stated: the parentheses of ["a(b)c"] are
    deleted, not replaced by underscores. *)
Lemma parentheses_are_deleted :
  Transform.replace_specials (py "a(b)c") = py "abc"
  /\ spec_replace_specials (py "a(b)c") = py "a_b_c"
  /\ Transform.replace_specials (py "a(b)c") <> spec_replace_specials (py "a(b)c")
  /\ Transform.sanitize_id (py "a(b)c") = py "abc".
Proof. repeat split. discriminate. Qed.

(** Claim C8.  A document titled ["DB (Insurance) 2025.pdf"] has the
    sanitized id [db_insurance_2025], and with two slides numbered 1 and 2
    the builder returns three records whose ids are, in order,
    [db_insurance_2025_meta], [db_insurance_2025_slide_001] and
    [db_insurance_2025_slide_002]. *)
Theorem db_insurance_record_ids (timestamp : pystr) (deck : DeckMeta)
    (slide1 slide2 : Slide) :
  filename deck = Some (py "DB (Insurance) 2025.pdf") ->
  slide_number slide1 = Some 1 -> slide_number slide2 = Some 2 ->
  Transform.sanitize_id (py "DB (Insurance) 2025.pdf") = py "db_insurance_2025"
  /\ exists records info,
       Transform.transform_metadata_to_records timestamp
         {| deck_metadata := Some deck; slide_data := Some [slide1; slide2] |}
       = Py.Ok (records, info)
       /\ Transform.di_pdf_id info = py "db_insurance_2025"
       /\ map record_id records
          = [Some (VStr (py "db_insurance_2025_meta"));
             Some (VStr (py "db_insurance_2025_slide_001"));
             Some (VStr (py "db_insurance_2025_slide_002"))].
Proof.
  intros Hf H1 H2. split; [reflexivity |].
  unfold Transform.transform_metadata_to_records.
  cbn [deck_metadata slide_data]. pysimpl. rewrite Hf. pysimpl.
  cbv zeta. cbn [Py.for_each]. unfold Transform.append_slide.
  rewrite (slide_record_numbered _ _ _ _ 1 H1). pysimpl.
  rewrite (slide_record_numbered _ _ _ _ 2 H2). pysimpl.
  do 2 eexists. split; [reflexivity |]. split; [reflexivity |].
  cbn [app map]. rewrite deck_record_id, !slide_record_of_id. reflexivity.
Qed.

Lemma db_insurance_record_ids_witness :
  Transform.sanitize_id (py "DB (Insurance) 2025.pdf") = py "db_insurance_2025"
  /\ exists records info,
       Transform.transform_metadata_to_records Examples.timestamp
         {| deck_metadata := Some Examples.deck;
            slide_data := Some [Examples.slide_numbered 1;
                                Examples.slide_numbered 2] |}
       = Py.Ok (records, info)
       /\ Transform.di_pdf_id info = py "db_insurance_2025"
       /\ map record_id records
          = [Some (VStr (py "db_insurance_2025_meta"));
             Some (VStr (py "db_insurance_2025_slide_001"));
             Some (VStr (py "db_insurance_2025_slide_002"))].
Proof.
  apply (db_insurance_record_ids Examples.timestamp Examples.deck
           (Examples.slide_numbered 1) (Examples.slide_numbered 2));
    reflexivity.
Defined.

(** Claim C6, as the code has it.  For every document with a slide
    that lacks [slide_number], building the records raises Python's
    [KeyError] (it names [slide_number] when the deck metadata and its file
    name are there) and returns no record, also none of the preceding
    slides; [process_metadata_file] catches the exception, reports nothing,
    writes no batch and returns [False]. *)
Theorem missing_slide_number_fails_document (fs : Transform.FileSystem)
    (timestamp : pystr)
    (data : Metadata) (slides : list Slide) (slide : Slide) :
  slide_data data = Some slides -> In slide slides ->
  slide_number slide = None ->
  (exists key,
     Transform.transform_metadata_to_records timestamp data
     = Py.Raise (Py.KeyError key)
     /\ forall deck fname,
          deck_metadata data = Some deck -> filename deck = Some fname ->
          key = "slide_number"%string)
  /\ Transform.process_metadata_file fs timestamp data
     = {| Transform.returned := false;
          Transform.invalid_reports := [];
          Transform.saved_batches := [] |}.
Proof.
  intros Hs Hin Hnone.
  destruct (transform_keyerror timestamp data slides slide Hs Hin Hnone)
    as [key Hkey].
  split.
  - exists key. split; [exact Hkey |]. intros deck fname Hd Hf.
    rewrite (transform_missing_number timestamp data deck slides fname slide)
      in Hkey by assumption.
    now injection Hkey as <-.
  - now apply (process_metadata_file_raise fs timestamp data
                 (Py.KeyError key)).
Qed.

Lemma missing_slide_number_fails_document_witness :
  (exists key,
     Transform.transform_metadata_to_records Examples.timestamp
       (Examples.document [Examples.slide_numbered 1; Examples.slide_unnumbered])
     = Py.Raise (Py.KeyError key)
     /\ forall deck fname,
          deck_metadata
            (Examples.document
               [Examples.slide_numbered 1; Examples.slide_unnumbered])
          = Some deck ->
          filename deck = Some fname -> key = "slide_number"%string)
  /\ Transform.process_metadata_file accepting_files Examples.timestamp
       (Examples.document [Examples.slide_numbered 1; Examples.slide_unnumbered])
     = {| Transform.returned := false;
          Transform.invalid_reports := [];
          Transform.saved_batches := [] |}.
Proof.
  apply (missing_slide_number_fails_document accepting_files
           Examples.timestamp
           (Examples.document
              [Examples.slide_numbered 1; Examples.slide_unnumbered])
           [Examples.slide_numbered 1; Examples.slide_unnumbered]
           Examples.slide_unnumbered).
  - reflexivity.
  - right. left. reflexivity.
  - reflexivity.
Defined.

(** Claim C6 does not hold as stated: the exception of a document whose
    second slide has no number is a [KeyError]; no exception class named
    [MalformedInputError] exists in the scripts. *)
Lemma missing_slide_number_raises_keyerror :
  Transform.transform_metadata_to_records Examples.timestamp
    (Examples.document [Examples.slide_numbered 1; Examples.slide_unnumbered])
  = Py.Raise (Py.KeyError "slide_number")
  /\ exn_class (Py.KeyError "slide_number") <> "MalformedInputError"%string.
Proof. split; [reflexivity | discriminate]. Qed.

(** Claim C3, as the code has it.  [validate_pinecone_records],
    started without earlier errors, passes exactly when every record has
    the seven required fields, a non-empty id, a content that is a
    non-empty string (nothing is trimmed), a known type and, for a slide,
    [slide_number] and [keywords]; it does not stop at the first failure
    but reports at least one reason for every offending record, and none
    for any other.  The loop of [process_metadata_file], whose
    [validate_record] accepts a record with an [_id] and a string content
    that is non-empty after trimming, reports one reason per offending
    record, in order; and when a built record fails, it returns [False]
    and writes no batch of the document. *)
Theorem validation_collects_then_blocks (records : list (gmap string value)) :
  (fst (ValidateTransformation.validate_pinecone_records [] records) = true
   <-> Forall (fun r => record_ok r = true) records)
  /\ (forall i r, nth_error records i = Some r ->
        (record_ok r = false
         <-> exists m,
               In m (snd (ValidateTransformation.validate_pinecone_records
                            [] records))
               /\ message_index m = Some i))
  /\ Transform.validation_loop records
     = (map invalid_report
            (List.filter (fun r => negb (record_passes r)) records),
        length (List.filter (fun r => negb (record_passes r)) records))
  /\ (forall r, record_passes r = true
                <-> is_Some (r !! "_id")
                    /\ exists s, r !! "content" = Some (VStr s)
                                 /\ Py.strip_ws s <> [])
  /\ (forall fs timestamp data info,
        Transform.transform_metadata_to_records timestamp data
        = Py.Ok (records, info) ->
        Exists (fun r => record_passes r = false) records ->
        Transform.process_metadata_file fs timestamp data
        = {| Transform.returned := false;
             Transform.invalid_reports :=
               map invalid_report
                   (List.filter (fun r => negb (record_passes r)) records);
             Transform.saved_batches := [] |}).
Proof.
  assert (Hsnd : snd (ValidateTransformation.validate_pinecone_records [] records)
                 = ValidateTransformation.check_records 0 records []).
  { unfold ValidateTransformation.validate_pinecone_records.
    now destruct (ValidateTransformation.check_records 0 records []). }
  split; [| split; [| split; [| split]]].
  - rewrite <- (check_records_nil 0 records).
    unfold ValidateTransformation.validate_pinecone_records.
    destruct (ValidateTransformation.check_records 0 records []);
      cbn [fst]; split; (reflexivity || discriminate).
  - intros i r Hnth. rewrite Hsnd. split.
    + intros Hbad.
      destruct (check_records_reports 0 records i r Hnth Hbad) as [m [Hin Hm]].
      exists m. split; [exact Hin | exact Hm].
    + intros [m [Hin Hm]].
      destruct (check_records_origin 0 records m i Hin Hm)
        as [j [r' [Hj [Hnth' Hm']]]].
      cbn in Hj. subst j. rewrite Hnth in Hnth'. injection Hnth' as <-.
      apply not_true_iff_false. intros Hok.
      apply (check_record_nil i r) in Hok. rewrite Hok in Hm'. destruct Hm'.
  - apply validation_loop_reports.
  - apply validate_record_passes.
  - intros fs timestamp data info. apply process_metadata_file_blocked.
Qed.

(** Claim C3 does not hold as stated: a record whose content is three
    spaces passes [validate_pinecone_records]; a record with an empty id
    and an unknown type passes [validate_record]; and an empty record gets
    four reasons, not one. *)
Lemma blank_content_passes_validation :
  ValidateTransformation.validate_pinecone_records
    [] [Examples.blank_content_record] = (true, [])
  /\ spec_record_valid Examples.blank_content_record = false
  /\ Transform.validate_record Examples.odd_type_record = (true, "Valid"%string)
  /\ spec_record_valid Examples.odd_type_record = false
  /\ length (snd (ValidateTransformation.validate_pinecone_records [] [∅]))
     = 4%nat.
Proof. repeat split. Qed.

(** Claim C3 on a built document: a numbered slide with nothing to index
    gets an empty content, is reported once, and blocks the document. *)
Lemma validation_collects_then_blocks_witness :
  exists records,
    Transform.process_metadata_file accepting_files Examples.timestamp
      (Examples.document [Examples.slide_numbered 1; Examples.slide_blank 2])
    = {| Transform.returned := false;
         Transform.invalid_reports :=
           map invalid_report
               (List.filter (fun r => negb (record_passes r)) records);
         Transform.saved_batches := [] |}
    /\ map fst (map invalid_report
                    (List.filter (fun r => negb (record_passes r)) records))
       = [VStr (py "db_insurance_2025_slide_002")].
Proof.
  destruct (Transform.transform_metadata_to_records Examples.timestamp
              (Examples.document
                 [Examples.slide_numbered 1; Examples.slide_blank 2]))
    as [[records info] | e] eqn:Hrun; [| discriminate Hrun].
  exists records. split.
  - apply (proj2 (proj2 (proj2 (proj2
             (validation_collects_then_blocks records))))
             accepting_files Examples.timestamp _ info Hrun).
    injection Hrun as <- _. right. right. left. reflexivity.
  - injection Hrun as <- _. reflexivity.
Defined.





(** The hits of the examples are well formed: each has a content, none a
    field named [_id] or [_score]. *)
Lemma example_hit_wf id score content company :
  wf_hit (Examples.hit id score content company).
Proof. repeat split. now eexists. Defined.


(** The merge of the example hits, run: [a] is in both lists and gets the
    mean 0.5 with the dense content, [c] comes first, and [a] precedes [b],
    which has the same score and was inserted later. *)
Example merge_example_ids :
  (fun r => match r with
            | Py.Ok merged =>
                map (fun d => (Value.get d "_id", Value.get d "_score",
                               Value.get d "content")) merged
            | Py.Raise _ => []
            end)
    (UnifiedIndex._merge_results Examples.dense_hits Examples.sparse_hits)
  = [(VStr (py "c"), VFloat 0.875, VStr (py "sparse c"));
     (VStr (py "a"), VFloat 0.5, VStr (py "dense a"));
     (VStr (py "b"), VFloat 0.5, VStr (py "dense b"))].
Proof. vm_compute. reflexivity. Qed.

(** Claim C1 does not hold for every pair of hit lists.  When an id is
    met twice among the sparse hits it is averaged twice: dense 0.75,
    sparse 0.25 then 1.0 give ((0.75 + 0.25) / 2 + 1.0) / 2 = 0.75 in both
    merges, which is the mean of the dense score and neither sparse score.
    When a dense hit has a field named [_score], [_merge_results] takes
    that field for the score: dense 0.75 with a field 0.25 and sparse 0.5
    give 0.375, not the mean 0.625.  And when a hit has no content,
    [merge_results] raises [KeyError] and returns no result at all. *)
Lemma repeated_id_is_not_the_mean :
  (exists doc,
     UnifiedIndex._merge_results
       [Examples.hit "a" 0.75 "dense a" "acme"]
       [Examples.hit "a" 0.25 "sparse a" "other";
        Examples.hit "a" 1 "sparse a again" "other"]
     = Py.Ok [doc]
     /\ doc !! "_score" = Some (VFloat 0.75)
     /\ PrimFloat.eqb 0.75 (mean 0.75 0.25) = false
     /\ PrimFloat.eqb 0.75 (mean 0.75 1) = false)
  /\ (exists doc,
        HybridSearch.merge_results
          [Examples.hit "a" 0.75 "dense a" "acme"]
          [Examples.hit "a" 0.25 "sparse a" "other";
           Examples.hit "a" 1 "sparse a again" "other"]
        = Py.Ok [doc]
        /\ doc !! "_score" = Some (VFloat 0.75)
        /\ PrimFloat.eqb 0.75 (mean 0.75 0.25) = false
        /\ PrimFloat.eqb 0.75 (mean 0.75 1) = false)
  /\ (exists doc,
        UnifiedIndex._merge_results
          [{| hit_id := py "a"; hit_score := 0.75;
              hit_fields := <["content" := VStr (py "dense a")]>
                            (<["_score" := VFloat 0.25]> ∅) |}]
          [Examples.hit "a" 0.5 "sparse a" "other"]
        = Py.Ok [doc]
        /\ doc !! "_score" = Some (VFloat 0.375)
        /\ PrimFloat.eqb 0.375 (mean 0.75 0.5) = false)
  /\ HybridSearch.merge_results
       [{| hit_id := py "a"; hit_score := 0.75; hit_fields := ∅ |}]
       [Examples.hit "a" 0.5 "sparse a" "other"]
     = Py.Raise (Py.KeyError "content").
Proof.
  split; [| split; [| split]].
  - eexists. split; [vm_compute; reflexivity |].
    split; [vm_compute; reflexivity |]. split; vm_compute; reflexivity.
  - eexists. split; [vm_compute; reflexivity |].
    split; [vm_compute; reflexivity |]. split; vm_compute; reflexivity.
  - eexists. split; [vm_compute; reflexivity |].
    split; vm_compute; reflexivity.
  - vm_compute. reflexivity.
Qed.

(** Outside the hypotheses of C1.  An id met twice among the sparse hits is
    averaged twice: dense 0.75, sparse 0.25 then 1.0 give
    ((0.75 + 0.25) / 2 + 1.0) / 2 = 0.75.  And a field named [_score]
    replaces the hit's own score in [_merge_results]. *)
Example repeated_sparse_id_averaged_twice :
  (fun r => match r with
            | Py.Ok merged => map (fun d => Value.get d "_score") merged
            | Py.Raise _ => []
            end)
    (UnifiedIndex._merge_results
       [Examples.hit "a" 0.75 "dense a" "acme"]
       [Examples.hit "a" 0.25 "sparse a" "other";
        Examples.hit "a" 1 "sparse a again" "other"])
  = [VFloat 0.75].
Proof. vm_compute. reflexivity. Qed.

Example score_field_replaces_score :
  (fun r => match r with
            | Py.Ok merged => map (fun d => Value.get d "_score") merged
            | Py.Raise _ => []
            end)
    (UnifiedIndex._merge_results
       [{| hit_id := py "a"; hit_score := 0.75;
           hit_fields := <["content" := VStr (py "dense a")]>
                         (<["_score" := VFloat 0.25]> ∅) |}]
       [])
  = [VFloat 0.25].
Proof. vm_compute. reflexivity. Qed.

(** * Further properties *)

(** ** Sorting, whatever the keys *)

Section SortMore.

Context {A : Type}.
Implicit Types (x : value * A) (l r : list (value * A)).

Lemma insert_desc_perm x l r :
  Sorted.insert_desc x l = Py.Ok r -> Permutation (x :: l) r.
Proof.
  revert r. induction l as [|y l IH]; intros r; cbn [Sorted.insert_desc].
  - intros [= <-]. reflexivity.
  - destruct (Value.lt (fst x) (fst y)) as [[|] | e]; pysimpl;
      [| intros [= <-]; reflexivity | discriminate].
    destruct (Sorted.insert_desc x l) as [r' | e]; pysimpl; [| discriminate].
    intros [= <-]. rewrite perm_swap. constructor. now apply IH.
Qed.

Lemma sort_desc_perm l r : Sorted.sort_desc l = Py.Ok r -> Permutation l r.
Proof.
  revert r. induction l as [|x l IH]; intros r; cbn [Sorted.sort_desc].
  - intros [= <-]. constructor.
  - destruct (Sorted.sort_desc l) as [r' | e]; pysimpl; [| discriminate].
    intros H. apply insert_desc_perm in H. rewrite <- H.
    constructor. now apply IH.
Qed.

(** Where [insert_desc] puts [x]: in front, or behind the head. *)
Lemma insert_desc_head x l r :
  Sorted.insert_desc x l = Py.Ok r ->
  r = x :: l
  \/ exists y l' r', l = y :: l' /\ r = y :: r'
                     /\ Value.lt (fst x) (fst y) = Py.Ok true.
Proof.
  destruct l as [|y l]; cbn [Sorted.insert_desc].
  - intros [= <-]. now left.
  - destruct (Value.lt (fst x) (fst y)) as [[|] | e] eqn:E; pysimpl;
      [| intros [= <-]; now left | discriminate].
    destruct (Sorted.insert_desc x l) as [r' | e]; pysimpl; [| discriminate].
    intros [= <-]. right. now exists y, l, r'.
Qed.

End SortMore.

Lemma ltb_asym (a b : float) :
  PrimFloat.ltb a b = true -> PrimFloat.ltb b a = false.
Proof.
  rewrite !ltb_spec. unfold SFltb, SFcompare.
  destruct (Prim2SF a) as [sa | sa | | sa ma ea],
           (Prim2SF b) as [sb | sb | | sb mb eb];
    try discriminate; try reflexivity;
    try (destruct sa; discriminate || reflexivity);
    try (destruct sb; discriminate || reflexivity);
    try (destruct sa, sb; discriminate || reflexivity).
  change (PosDef.Pos.compare_cont Eq mb ma)
    with (Pos.compare_cont (CompOpp Eq) mb ma).
  rewrite <- (Pos.compare_cont_antisym ma mb Eq).
  rewrite (Z.compare_antisym ea eb).
  destruct sa, sb; try discriminate; try reflexivity;
    destruct (ea ?= eb)%Z; cbn [CompOpp]; try discriminate; try reflexivity;
    destruct (Pos.compare_cont Eq ma mb); cbn [CompOpp];
    discriminate || reflexivity.
Qed.







Section SortOrder.

Context {A : Type}.
Implicit Types (x : value * A) (l r : list (value * A)).

Lemma insert_desc_descending x l r :
  float_key x -> Forall float_key l -> descending (floats_of l) ->
  Sorted.insert_desc x l = Py.Ok r -> descending (floats_of r).
Proof.
  intros [s Hs] Hl. destruct x as [kx ax]. cbn [fst] in Hs. subst kx.
  revert r.
  induction Hl as [|[ky ay] l [t Ht] Hl IH]; intros r Hd;
    cbn [Sorted.insert_desc].
  - intros [= <-]. cbn. tauto.
  - cbn [fst] in Ht. subst ky. cbn [Value.lt fst]. pysimpl.
    destruct (PrimFloat.ltb s t) eqn:Est.
    + destruct (Sorted.insert_desc (VFloat s, ax) l) as [r' | e] eqn:Ei;
        pysimpl; [| discriminate].
      intros [= <-]. cbn [floats_of map descending fst key_float] in *.
      destruct Hd as [Hyl Hd]. split; [| now apply IH].
      destruct (insert_desc_head _ l r' Ei)
        as [-> | (z & l' & r'' & -> & -> & _)].
      * cbn [map fst key_float]. now apply ltb_asym.
      * exact Hyl.
    + intros [= <-]. cbn [floats_of map descending fst key_float] in *.
      split; [exact Est | exact Hd].
Qed.

Lemma sort_desc_descending l r :
  Forall float_key l -> Sorted.sort_desc l = Py.Ok r ->
  descending (floats_of r).
Proof.
  intros Hl. revert r. induction Hl as [|x l Hx Hl IH]; intros r;
    cbn [Sorted.sort_desc].
  - intros [= <-]. exact I.
  - destruct (sort_desc_float l Hl) as [r' [Er [_ Hf]]].
    rewrite Er. pysimpl. intros Hi.
    apply (insert_desc_descending x r' r Hx Hf (IH r' Er) Hi).
Qed.

End SortOrder.

Lemma with_keys_spec key (docs : list (gmap string value)) keyed :
  Sorted.with_keys key docs = Py.Ok keyed ->
  map snd keyed = docs
  /\ Forall (fun kd => snd kd !! key = Some (fst kd)) keyed.
Proof.
  revert keyed. induction docs as [|d docs IH]; intros keyed;
    cbn [Sorted.with_keys].
  - intros [= <-]. split; constructor.
  - unfold Value.getitem. destruct (d !! key) as [k|] eqn:Ek; pysimpl;
      [| discriminate].
    destruct (Sorted.with_keys key docs) as [r | e]; pysimpl; [| discriminate].
    intros [= <-]. destruct (IH r eq_refl) as [Hs Hk]. split.
    + cbn [map snd]. now rewrite Hs.
    + constructor; [exact Ek | exact Hk].
Qed.

(** Sorting rearranges, whatever the keys are, when it succeeds. *)
Lemma sorted_by_desc_perm key (docs merged : list (gmap string value)) :
  Sorted.sorted_by_desc key docs = Py.Ok merged -> Permutation docs merged.
Proof.
  unfold Sorted.sorted_by_desc.
  destruct (Sorted.with_keys key docs) as [keyed | e] eqn:Ek; pysimpl;
    [| discriminate].
  destruct (Sorted.sort_desc keyed) as [r | e] eqn:Es; pysimpl;
    [| discriminate].
  intros [= <-]. destruct (with_keys_spec _ _ _ Ek) as [<- _].
  apply Permutation_map. now apply sort_desc_perm.
Qed.

(** The scores of the sorted documents, read off in order. *)
Lemma sorted_by_desc_descending (docs merged : list (gmap string value)) :
  Forall (fun d => exists s, d !! "_score" = Some (VFloat s)) docs ->
  Sorted.sorted_by_desc "_score" docs = Py.Ok merged ->
  exists scores,
    map (fun d => d !! "_score") merged = map (fun s => Some (VFloat s)) scores
    /\ descending scores.
Proof.
  intros Hdocs. unfold Sorted.sorted_by_desc.
  destruct (Sorted.with_keys "_score" docs) as [keyed | e] eqn:Ek; pysimpl;
    [| discriminate].
  destruct (with_keys_spec _ _ _ Ek) as [Hsnd Hkey].
  assert (Hfk : Forall float_key keyed).
  { apply List.Forall_forall. intros kd Hin.
    assert (Hd : In (snd kd) docs) by (rewrite <- Hsnd; now apply in_map).
    destruct (proj1 (List.Forall_forall _ _) Hdocs _ Hd) as [s Hs].
    rewrite (proj1 (List.Forall_forall _ _) Hkey kd Hin) in Hs.
    exists s. congruence. }
  destruct (Sorted.sort_desc keyed) as [r | e] eqn:Es; pysimpl;
    [| discriminate].
  intros [= <-]. exists (floats_of r). split.
  - pose proof (sort_desc_perm _ _ Es) as Hp.
    assert (Hr : Forall (fun kd => snd kd !! "_score" = Some (fst kd)
                                   /\ float_key kd) r).
    { apply List.Forall_forall. intros kd Hin.
      apply (Permutation_in _ (Permutation_sym Hp)) in Hin. split.
      - exact (proj1 (List.Forall_forall _ _) Hkey kd Hin).
      - exact (proj1 (List.Forall_forall _ _) Hfk kd Hin). }
    clear -Hr. induction Hr as [|kd r [Hk [s Hs]] _ IH]; [reflexivity |].
    unfold floats_of in *. cbn [map]. rewrite IH, Hk, Hs. reflexivity.
  - exact (sort_desc_descending keyed r Hfk Es).
Qed.

(** ** More on the merge *)

Section ODictMore.

Context {V : Type}.
Implicit Types (d : ODict.t V) (k : pystr) (v : V).

Lemma odict_keys_set_In d k v k' :
  In k' (ODict.keys (ODict.set d k v)) <-> k' = k \/ In k' (ODict.keys d).
Proof.
  rewrite odict_keys_set. destruct (ODict.get d k) as [v0|] eqn:E.
  - split; [now right |]. intros [-> | H]; [| exact H].
    destruct (List.in_dec (List.list_eq_dec N.eq_dec) k (ODict.keys d)) as [Hin | Hn];
      [exact Hin |].
    apply odict_get_None in Hn. congruence.
  - rewrite in_app_iff. cbn [In]. intuition congruence.
Qed.

Lemma odict_set_length d k v :
  (length (ODict.set d k v) <= S (length d))%nat.
Proof.
  induction d as [|[k' v'] d IH]; cbn [ODict.set length]; [lia |].
  destruct (Py.str_eqb k k'); cbn [length]; lia.
Qed.

End ODictMore.

Section MergeMore.

Variable make_doc : Hit -> Py.result (gmap string value).
Variable doc_of : Hit -> gmap string value.
Hypothesis make_doc_wf : forall h, wf_hit h -> make_doc h = Py.Ok (doc_of h).
Hypothesis doc_of_id :
  forall h, wf_hit h -> doc_of h !! "_id" = Some (VStr (hit_id h)).
Hypothesis doc_of_score :
  forall h, wf_hit h -> doc_of h !! "_score" = Some (VFloat (hit_score h)).

Implicit Types (hits : ODict.t (gmap string value)) (h : Hit).

Local Abbreviation dense_ok :=
  (dense_loop make_doc doc_of make_doc_wf doc_of_id doc_of_score).
Local Abbreviation sparse_ok :=
  (sparse_loop make_doc doc_of make_doc_wf doc_of_id doc_of_score).
Local Abbreviation sparse_step :=
  (add_sparse_good make_doc doc_of make_doc_wf doc_of_id doc_of_score).

(** Either loop body files its document under the hit's id. *)
Lemma add_dense_sets hits h hits' :
  Merge.add_dense make_doc hits h = Py.Ok hits' ->
  exists doc, hits' = ODict.set hits (hit_id h) doc.
Proof.
  unfold Merge.add_dense. destruct (make_doc h) as [doc | e]; pysimpl;
    [| discriminate].
  intros [= <-]. now exists doc.
Qed.

Lemma add_sparse_sets hits h hits' :
  Merge.add_sparse make_doc hits h = Py.Ok hits' ->
  exists doc, hits' = ODict.set hits (hit_id h) doc.
Proof.
  unfold Merge.add_sparse. destruct (ODict.get hits (hit_id h)) as [doc|].
  - destruct (Value.getitem doc "_score") as [old | e]; pysimpl;
      [| discriminate].
    destruct (Value.add_float old (hit_score h)) as [sum | e]; pysimpl;
      [| discriminate].
    intros [= <-]. now eexists.
  - destruct (make_doc h) as [doc | e]; pysimpl; [| discriminate].
    intros [= <-]. now exists doc.
Qed.

(** The keys after a loop: those before it and the ids of its hits. *)
Lemma loop_keys
    (body : ODict.t (gmap string value) -> Hit
            -> Py.result (ODict.t (gmap string value))) l hits hits' :
  (forall hits h hits1, body hits h = Py.Ok hits1 ->
     exists doc, hits1 = ODict.set hits (hit_id h) doc) ->
  Py.for_each body l hits = Py.Ok hits' ->
  (forall k, In k (ODict.keys hits')
             <-> In k (ODict.keys hits) \/ In k (hit_ids l))
  /\ (length hits' <= length hits + length l)%nat.
Proof.
  intros Hbody. revert hits. induction l as [|h l IH]; intros hits;
    cbn [Py.for_each].
  - intros [= <-]. split; [| lia]. intros k. cbn. tauto.
  - destruct (body hits h) as [hits1 | e] eqn:E; pysimpl; [| discriminate].
    intros Hrun. destruct (Hbody _ _ _ E) as [doc ->].
    destruct (IH _ Hrun) as [Hk Hlen]. split.
    + intros k. rewrite Hk, odict_keys_set_In.
      unfold hit_ids. cbn [map In]. intuition congruence.
    + pose proof (odict_set_length hits (hit_id h) doc). cbn [length]. lia.
Qed.


Lemma good_doc_ids hits :
  good hits ->
  doc_ids (ODict.values hits)
  = map (fun k => Some (VStr k)) (ODict.keys hits).
Proof.
  intros [_ Hall]. unfold doc_ids, ODict.values, ODict.keys.
  induction Hall as [|[k d] hits [Hk _] _ IH]; [reflexivity |].
  cbn [map fst snd] in *. now rewrite Hk, IH.
Qed.

Lemma good_scores hits :
  good hits ->
  Forall (fun d => exists s, d !! "_score" = Some (VFloat s))
         (ODict.values hits).
Proof.
  intros [_ Hall]. unfold ODict.values. apply Forall_map.
  eapply List.Forall_impl; [| exact Hall]. intros [k d] [_ Hs]. exact Hs.
Qed.

(** The merge of well-formed hits, ids repeated or not: it succeeds, no
    id comes twice, the ids are those of the two lists, and the scores
    come in descending order. *)
Lemma merge_hits_dedup dense sparse :
  Forall wf_hit dense -> Forall wf_hit sparse ->
  exists merged ids scores,
    Merge.merge_hits make_doc dense sparse = Py.Ok merged
    /\ doc_ids merged = map (fun id => Some (VStr id)) ids
    /\ List.NoDup ids
    /\ (forall id, In id ids <-> In id (hit_ids dense ++ hit_ids sparse))
    /\ map (fun d => d !! "_score") merged
       = map (fun s => Some (VFloat s)) scores
    /\ descending scores.
Proof.
  intros Hwd Hws. unfold Merge.merge_hits.
  destruct (dense_ok dense [] Hwd) as [hits1 [Hrun1 [Hgood1 _]]].
  { split; constructor. }
  destruct (sparse_ok sparse hits1 Hws Hgood1) as [hits2 [Hrun2 [Hgood2 _]]].
  rewrite Hrun1. pysimpl. rewrite Hrun2. pysimpl.
  destruct (loop_keys _ _ _ _ add_dense_sets Hrun1) as [Hk1 _].
  destruct (loop_keys _ _ _ _ add_sparse_sets Hrun2) as [Hk2 _].
  destruct (sorted_by_desc_scores (ODict.values hits2) (good_scores _ Hgood2))
    as [merged [Hsort Hperm]].
  destruct (sorted_by_desc_descending _ _ (good_scores _ Hgood2) Hsort)
    as [scores [Hscores Hdesc]].
  assert (Hids : Permutation (doc_ids merged)
                   (map (fun k => Some (VStr k)) (ODict.keys hits2))).
  { rewrite <- (good_doc_ids hits2 Hgood2). unfold doc_ids.
    apply Permutation_sym. now apply Permutation_map. }
  apply Permutation_map_inv in Hids. destruct Hids as [ids [Hids Hpk]].
  exists merged, ids, scores. rewrite Hsort. split; [reflexivity |].
  split; [exact Hids |]. split; [| split; [| split]].
  - apply (Permutation_NoDup Hpk). apply Hgood2.
  - intros id. split.
    + intros Hin. apply (Permutation_in _ (Permutation_sym Hpk)) in Hin.
      apply Hk2 in Hin. rewrite Hk1 in Hin. cbn [ODict.keys map In] in Hin.
      apply in_or_app. tauto.
    + intros Hin. apply (Permutation_in _ Hpk).
      apply Hk2. rewrite Hk1. apply in_app_or in Hin. tauto.
  - exact Hscores.
  - exact Hdesc.
Qed.



End MergeMore.

(** ** The merge on any hits *)

Section MergeAny.

Variable make_doc : Hit -> Py.result (gmap string value).

Implicit Types (hits : ODict.t (gmap string value)) (h : Hit).

Lemma for_each_app {A S} (body : S -> A -> Py.result S) l1 l2 s :
  Py.for_each body (l1 ++ l2) s
  = (s1 ← Py.for_each body l1 s; Py.for_each body l2 s1).
Proof.
  revert s. induction l1 as [|a l1 IH]; intros s; cbn [app Py.for_each].
  - reflexivity.
  - destruct (body s a) as [s1 | e]; pysimpl; [apply IH | reflexivity].
Qed.

Lemma existsb_str_eqb (id : pystr) ids :
  existsb (Py.str_eqb id) ids = true <-> In id ids.
Proof.
  rewrite existsb_exists. split.
  - intros [x [Hin E]]. apply str_eqb_eq in E. now subst.
  - intros Hin. exists id. split; [exact Hin | apply str_eqb_refl].
Qed.

(** A sparse hit whose id is in [hits] already: nothing of its fields is
    read. *)
Lemma add_sparse_forget ids hits h :
  (forall id, In id ids -> In id (ODict.keys hits)) ->
  Merge.add_sparse make_doc hits (forget_seen ids h)
  = Merge.add_sparse make_doc hits h.
Proof.
  intros Hids. unfold forget_seen.
  destruct (existsb (Py.str_eqb (hit_id h)) ids) eqn:E; [| reflexivity].
  apply existsb_str_eqb, Hids in E.
  destruct (ODict.get hits (hit_id h)) as [doc|] eqn:Hget.
  - unfold Merge.add_sparse. cbn [without_fields hit_id hit_score].
    rewrite Hget. reflexivity.
  - apply odict_get_None in Hget. contradiction.
Qed.

Lemma sparse_loop_forget ids sparse hits :
  (forall id, In id ids -> In id (ODict.keys hits)) ->
  Py.for_each (Merge.add_sparse make_doc) (map (forget_seen ids) sparse) hits
  = Py.for_each (Merge.add_sparse make_doc) sparse hits.
Proof.
  revert hits. induction sparse as [|h sparse IH]; intros hits Hids;
    cbn [map Py.for_each]; [reflexivity |].
  rewrite (add_sparse_forget ids hits h Hids).
  destruct (Merge.add_sparse make_doc hits h) as [hits1 | e] eqn:E; pysimpl;
    [| reflexivity].
  apply IH. intros id Hin.
  destruct (add_sparse_sets make_doc _ _ _ E) as [doc ->].
  apply odict_keys_set_In. right. now apply Hids.
Qed.

Lemma merge_hits_forget dense sparse :
  Merge.merge_hits make_doc dense (map (forget_seen (hit_ids dense)) sparse)
  = Merge.merge_hits make_doc dense sparse.
Proof.
  unfold Merge.merge_hits.
  destruct (Py.for_each (Merge.add_dense make_doc) dense []) as [hits | e]
    eqn:E; pysimpl; [| reflexivity].
  rewrite sparse_loop_forget; [reflexivity |].
  intros id Hin.
  apply (proj1 (loop_keys _ _ _ _ (add_dense_sets make_doc) E)). now right.
Qed.

(** A hit for which no document can be built. *)
Variable doc_of : Hit -> gmap string value.
Hypothesis make_doc_wf : forall h, wf_hit h -> make_doc h = Py.Ok (doc_of h).
Hypothesis doc_of_id :
  forall h, wf_hit h -> doc_of h !! "_id" = Some (VStr (hit_id h)).
Hypothesis doc_of_score :
  forall h, wf_hit h -> doc_of h !! "_score" = Some (VFloat (hit_score h)).

Lemma merge_hits_dense_raises pre h post sparse e :
  Forall wf_hit pre -> make_doc h = Py.Raise e ->
  Merge.merge_hits make_doc (pre ++ h :: post) sparse = Py.Raise e.
Proof.
  intros Hpre Hh. unfold Merge.merge_hits. rewrite for_each_app.
  destruct (dense_loop make_doc doc_of make_doc_wf doc_of_id doc_of_score
              pre [] Hpre) as [hits1 [-> _]].
  { split; constructor. }
  pysimpl. cbn [Py.for_each]. unfold Merge.add_dense at 1. rewrite Hh.
  reflexivity.
Qed.

Lemma merge_hits_sparse_raises dense pre h post e :
  Forall wf_hit dense -> Forall wf_hit pre -> make_doc h = Py.Raise e ->
  ~ In (hit_id h) (hit_ids dense ++ hit_ids pre) ->
  Merge.merge_hits make_doc dense (pre ++ h :: post) = Py.Raise e.
Proof.
  intros Hdense Hpre Hh Hnew. unfold Merge.merge_hits.
  destruct (dense_loop make_doc doc_of make_doc_wf doc_of_id doc_of_score
              dense [] Hdense) as [hits1 [Hrun1 [Hgood1 [Hoth1 _]]]].
  { split; constructor. }
  rewrite Hrun1. pysimpl. rewrite for_each_app.
  destruct (sparse_loop make_doc doc_of make_doc_wf doc_of_id doc_of_score
              pre hits1 Hpre Hgood1) as [hits2 [-> [_ [Hoth2 _]]]].
  pysimpl. cbn [Py.for_each]. unfold Merge.add_sparse at 1.
  rewrite Hoth2, Hoth1; cbn [ODict.get].
  - rewrite Hh. reflexivity.
  - intros H. apply Hnew, in_or_app. now left.
  - intros H. apply Hnew, in_or_app. now right.
Qed.

End MergeAny.

(** ** The six names of [merge_results] *)

Section HybridKeys.

Lemma hybrid_make_doc_keys h doc :
  HybridSearch.make_doc h = Py.Ok doc -> within_hybrid_keys doc.
Proof.
  unfold HybridSearch.make_doc.
  destruct (Value.getitem (hit_fields h) "content") as [c | e]; pysimpl;
    [| discriminate].
  intros [= <-] key [v Hv]. rewrite copy_keys_lookup in Hv.
  unfold HybridSearch.copied_keys, hybrid_keys in *. cbn [existsb In] in *.
  destruct (String.eqb_spec key "keywords") as [-> | H1]; [tauto |].
  destruct (String.eqb_spec key "slide_number") as [-> | H2]; [tauto |].
  destruct (String.eqb_spec key "type") as [-> | H3]; [tauto |].
  cbn [orb] in Hv.
  destruct (decide (key = "_score"%string)) as [-> | H4]; [tauto |].
  rewrite lookup_insert_ne in Hv by congruence.
  destruct (decide (key = "content"%string)) as [-> | H5]; [tauto |].
  rewrite lookup_insert_ne in Hv by congruence.
  destruct (decide (key = "_id"%string)) as [-> | H6]; [tauto |].
  rewrite lookup_insert_ne in Hv by congruence.
  rewrite lookup_empty in Hv. discriminate.
Qed.

Lemma rescored_keys doc s :
  within_hybrid_keys doc ->
  within_hybrid_keys (<["_score" := VFloat s]> doc).
Proof.
  intros Hdoc key [v Hv].
  destruct (decide (key = "_score"%string)) as [-> | Hne]; [now left |].
  rewrite lookup_insert_ne in Hv by congruence. apply Hdoc. now exists v.
Qed.

Lemma hybrid_add_dense_keys hits h hits' :
  hybrid_hits_ok hits ->
  Merge.add_dense HybridSearch.make_doc hits h = Py.Ok hits' ->
  hybrid_hits_ok hits'.
Proof.
  intros Hok. unfold Merge.add_dense.
  destruct (HybridSearch.make_doc h) as [doc | e] eqn:E; pysimpl;
    [| discriminate].
  intros [= <-]. apply odict_set_Forall; [exact Hok |].
  exact (hybrid_make_doc_keys h doc E).
Qed.

Lemma hybrid_add_sparse_keys hits h hits' :
  hybrid_hits_ok hits ->
  Merge.add_sparse HybridSearch.make_doc hits h = Py.Ok hits' ->
  hybrid_hits_ok hits'.
Proof.
  intros Hok. unfold Merge.add_sparse.
  destruct (ODict.get hits (hit_id h)) as [doc|] eqn:Hget.
  - destruct (Value.getitem doc "_score") as [old | e]; pysimpl;
      [| discriminate].
    destruct (Value.add_float old (hit_score h)) as [sum | e]; pysimpl;
      [| discriminate].
    intros [= <-]. apply odict_set_Forall; [exact Hok |].
    apply rescored_keys. apply odict_get_In in Hget.
    exact (proj1 (List.Forall_forall _ _) Hok _ Hget).
  - destruct (HybridSearch.make_doc h) as [doc | e] eqn:E; pysimpl;
      [| discriminate].
    intros [= <-]. apply odict_set_Forall; [exact Hok |].
    exact (hybrid_make_doc_keys h doc E).
Qed.

Lemma for_each_invariant {A S} (P : S -> Prop)
    (body : S -> A -> Py.result S) l s s' :
  (forall s a s1, P s -> body s a = Py.Ok s1 -> P s1) ->
  P s -> Py.for_each body l s = Py.Ok s' -> P s'.
Proof.
  intros Hbody. revert s. induction l as [|a l IH]; intros s Hs;
    cbn [Py.for_each].
  - now intros [= <-].
  - destruct (body s a) as [s1 | e] eqn:E; pysimpl; [| discriminate].
    apply IH. exact (Hbody _ _ _ Hs E).
Qed.

Lemma merge_results_keys dense sparse merged :
  HybridSearch.merge_results dense sparse = Py.Ok merged ->
  Forall within_hybrid_keys merged.
Proof.
  unfold HybridSearch.merge_results, Merge.merge_hits.
  destruct (Py.for_each (Merge.add_dense HybridSearch.make_doc) dense [])
    as [hits1 | e] eqn:E1; pysimpl; [| discriminate].
  destruct (Py.for_each (Merge.add_sparse HybridSearch.make_doc) sparse hits1)
    as [hits2 | e] eqn:E2; pysimpl; [| discriminate].
  intros Hsort.
  assert (H1 : hybrid_hits_ok hits1).
  { apply (for_each_invariant hybrid_hits_ok _ _ _ _
             hybrid_add_dense_keys (List.Forall_nil _) E1). }
  assert (H2 : hybrid_hits_ok hits2).
  { apply (for_each_invariant hybrid_hits_ok _ _ _ _
             hybrid_add_sparse_keys H1 E2). }
  apply (Permutation_Forall (sorted_by_desc_perm _ _ _ Hsort)).
  unfold ODict.values. apply Forall_map. exact H2.
Qed.

End HybridKeys.

(** ** The sanitizers, character by character *)

Section SanitizeChars.

Implicit Types (s clean text : pystr) (c : pychar).

Local Ltac ranges :=
  unfold Py.lower_char, Py.isascii, Py.isalnum_ascii, Py.is_digit,
    Py.is_upper, Py.is_lower;
  repeat (match goal with
    | |- context [N.leb ?a ?b] => destruct (N.leb_spec a b)
    | |- context [N.ltb ?a ?b] => destruct (N.ltb_spec a b)
    end; cbn [andb orb negb] in * );
  try (intros; first [reflexivity | discriminate | lia]).

Lemma alnum_ascii c : Py.isalnum_ascii c = true -> Py.isascii c = true.
Proof. ranges. Qed.

Lemma alnum_lower_char c :
  Py.isalnum_ascii (Py.lower_char c) = Py.isalnum_ascii c.
Proof.
  unfold Py.lower_char. destruct (Py.is_upper c) eqn:E; [| reflexivity].
  unfold Py.isalnum_ascii at 2. rewrite E, orb_true_r. cbn [orb].
  revert E. ranges.
Qed.

Lemma map_flat_map {A B C} (f : B -> C) (g : A -> list B) l :
  map f (flat_map g l) = flat_map (fun x => map f (g x)) l.
Proof.
  induction l as [|x l IH]; [reflexivity |].
  cbn [flat_map]. now rewrite map_app, IH.
Qed.

Lemma map_as_flat_map {A B} (f : A -> B) l :
  map f l = flat_map (fun x => [f x]) l.
Proof. induction l as [|x l IH]; [reflexivity |]. cbn. now rewrite IH. Qed.

Lemma transform_keeps_char c :
  Transform.keeps c = Py.isalnum_ascii c || N.eqb c 95.
Proof.
  unfold Transform.keeps. change (chr "_") with 95%N.
  destruct (Py.isalnum_ascii c) eqn:E.
  - now rewrite (alnum_ascii c E).
  - cbn [orb]. destruct (N.eqb_spec c 95) as [-> | H]; [reflexivity |].
    apply andb_false_r.
Qed.

Lemma upsert_keeps_char c :
  Upsert.keeps c
  = Py.isalnum_ascii c || N.eqb c 95 || N.eqb c 45 || N.eqb c 32.
Proof.
  unfold Upsert.keeps. change (py "_- ") with [95%N; 45%N; 32%N].
  cbn [Py.contains Py.startswith]. rewrite !andb_true_r, !orb_false_r.
  destruct (Py.isalnum_ascii c) eqn:E.
  - now rewrite (alnum_ascii c E).
  - cbn [orb].
    destruct (N.eqb_spec c 95) as [-> | H1]; [reflexivity |].
    destruct (N.eqb_spec c 45) as [-> | H2]; [reflexivity |].
    destruct (N.eqb_spec c 32) as [-> | H3]; [reflexivity |].
    apply andb_false_r.
Qed.

(** [sanitize_id] up to the loop that collapses underscores. *)
Lemma sanitize_id_by_char text :
  Transform.ascii_only (Transform.replace_specials text)
  = flat_map sanitize_char text.
Proof.
  unfold Transform.ascii_only.
  rewrite replace_specials_chars, map_flat_map.
  apply flat_map_ext. intros c. unfold replace_special_char, sanitize_char.
  destruct (N.eqb_spec 32 c) as [<- | H1]; [reflexivity |].
  destruct (N.eqb_spec 45 c) as [<- | H2]; [reflexivity |].
  destruct (N.eqb_spec 40 c) as [<- | H3]; [reflexivity |].
  destruct (N.eqb_spec 41 c) as [<- | H4]; [reflexivity |].
  destruct (N.eqb_spec 91 c) as [<- | H5]; [reflexivity |].
  destruct (N.eqb_spec 93 c) as [<- | H6]; [reflexivity |].
  cbn [orb map]. rewrite transform_keeps_char. change (chr "_") with 95%N.
  destruct (Py.isalnum_ascii c); [reflexivity |]. cbn [orb].
  destruct (N.eqb_spec c 95) as [-> | H7]; reflexivity.
Qed.

(** [sanitize_pdf_id] up to the same loop: the same function of each
    character, though the script orders its steps differently. *)
Lemma sanitize_pdf_id_by_char base :
  Py.replace
    (Py.replace
       (map (fun c => if Upsert.keeps c then c else chr "_")
          (Py.replace
             (Py.replace
                (Py.replace (Py.replace base (py "(") (py ""))
                   (py ")") (py ""))
                (py "[") (py ""))
             (py "]") (py "")))
       (py " ") (py "_"))
    (py "-") (py "_")
  = flat_map sanitize_char base.
Proof.
  change (py " ") with [32%N]. change (py "(") with [40%N].
  change (py ")") with [41%N]. change (py "[") with [91%N].
  change (py "]") with [93%N]. change (py "-") with [45%N].
  change (py "_") with [95%N]. change (py "") with (@nil N).
  change (chr "_") with 95%N.
  rewrite !replace_char, map_as_flat_map, !flat_map_flat_map.
  apply flat_map_ext. intros c. unfold sanitize_char.
  destruct (N.eqb_spec 40 c) as [<- | H1]; [reflexivity |].
  cbn [flat_map app orb].
  destruct (N.eqb_spec 41 c) as [<- | H2]; [reflexivity |].
  cbn [flat_map app orb].
  destruct (N.eqb_spec 91 c) as [<- | H3]; [reflexivity |].
  cbn [flat_map app orb].
  destruct (N.eqb_spec 93 c) as [<- | H4]; [reflexivity |].
  cbn [flat_map app orb].
  destruct (N.eqb_spec 32 c) as [<- | H5]; [reflexivity |].
  destruct (N.eqb_spec 45 c) as [<- | H6]; [reflexivity |].
  destruct (N.eqb_spec 95 c) as [<- | H7]; [reflexivity |].
  rewrite upsert_keeps_char.
  rewrite (proj2 (N.eqb_neq c 95)), (proj2 (N.eqb_neq c 45)),
    (proj2 (N.eqb_neq c 32)), !orb_false_r by congruence.
  destruct (Py.isalnum_ascii c).
  - rewrite (proj2 (N.eqb_neq 32 c) H5). cbn [flat_map app].
    now rewrite (proj2 (N.eqb_neq 45 c) H6).
  - reflexivity.
Qed.

Lemma sanitize_id_unfold text :
  Transform.sanitize_id text
  = Py.lower (Py.strip (py "_")
      (collapse_underscores
         (flat_map sanitize_char (Transform.strip_pdf_ext text)))).
Proof. unfold Transform.sanitize_id. now rewrite sanitize_id_by_char. Qed.

Lemma sanitize_pdf_id_unfold (stem : pystr -> pystr) text :
  Upsert.sanitize_pdf_id stem text
  = Py.lower (Py.strip (py "_")
      (collapse_underscores (flat_map sanitize_char (stem text)))).
Proof.
  unfold Upsert.sanitize_pdf_id. now rewrite sanitize_pdf_id_by_char.
Qed.

(** *** The letters and digits are kept *)

Lemma alnums_app s r : alnums (s ++ r) = alnums s ++ alnums r.
Proof. unfold alnums. apply List.filter_app. Qed.

Lemma alnums_underscores s :
  Forall (fun c => c = 95%N) s -> alnums s = [].
Proof.
  induction 1 as [|c s -> _ IH]; [reflexivity |]. exact IH.
Qed.

Lemma alnums_sanitize_char c : alnums (sanitize_char c) = alnums [c].
Proof.
  unfold sanitize_char.
  destruct (N.eqb_spec 40 c) as [<- | H1]; [reflexivity |].
  destruct (N.eqb_spec 41 c) as [<- | H2]; [reflexivity |].
  destruct (N.eqb_spec 91 c) as [<- | H3]; [reflexivity |].
  destruct (N.eqb_spec 93 c) as [<- | H4]; [reflexivity |].
  cbn [orb]. destruct (Py.isalnum_ascii c) eqn:E; [reflexivity |].
  unfold alnums. cbn [List.filter]. now rewrite E.
Qed.

Lemma alnums_by_char s : alnums (flat_map sanitize_char s) = alnums s.
Proof.
  induction s as [|c s IH]; [reflexivity |].
  cbn [flat_map]. rewrite alnums_app, alnums_sanitize_char, IH.
  change (c :: s) with ([c] ++ s). now rewrite alnums_app.
Qed.

Lemma alnums_collapse_step s :
  alnums (Py.replace s [95%N; 95%N] [95%N]) = alnums s.
Proof.
  pattern s. apply (replace_scan_ind 95%N [95%N]); clear s.
  - reflexivity.
  - intros r IH. rewrite replace_match, !alnums_app, IH. reflexivity.
  - intros c r E IH. rewrite replace_no_match by exact E.
    change (c :: Py.replace r [95%N; 95%N] [95%N])
      with ([c] ++ Py.replace r [95%N; 95%N] [95%N]).
    change (c :: r) with ([c] ++ r). now rewrite !alnums_app, IH.
Qed.

Lemma alnums_collapse_loop n s : alnums (collapse_loop n s) = alnums s.
Proof.
  revert s. induction n as [|n IH]; intros s; cbn [collapse_loop];
    [reflexivity |].
  destruct (Py.contains (py "__") s); [| reflexivity].
  rewrite IH. apply alnums_collapse_step.
Qed.

Lemma lstrip_prefix chars s :
  exists p, s = p ++ Py.lstrip chars s
            /\ Forall (fun c => existsb (N.eqb c) chars = true) p.
Proof.
  induction s as [|c s [p [Hp Hall]]]; cbn [Py.lstrip].
  - exists []. split; [reflexivity | constructor].
  - destruct (existsb (N.eqb c) chars) eqn:E.
    + exists (c :: p). split; [cbn; now rewrite <- Hp |].
      constructor; assumption.
    + exists []. split; [reflexivity | constructor].
Qed.

Lemma strip_parts chars s :
  exists p q,
    s = p ++ Py.strip chars s ++ q
    /\ Forall (fun c => existsb (N.eqb c) chars = true) p
    /\ Forall (fun c => existsb (N.eqb c) chars = true) q.
Proof.
  unfold Py.strip, Py.rstrip.
  destruct (lstrip_prefix chars s) as [p [Hp Hpall]].
  destruct (lstrip_prefix chars (rev (Py.lstrip chars s))) as [q [Hq Hqall]].
  exists p, (rev q). split; [| split].
  - rewrite <- rev_app_distr, <- Hq, rev_involutive. exact Hp.
  - exact Hpall.
  - apply Forall_rev. exact Hqall.
Qed.

Lemma alnums_strip s : alnums (Py.strip (py "_") s) = alnums s.
Proof.
  destruct (strip_parts (py "_") s) as (p & q & E & Hp & Hq).
  assert (U : forall l, Forall (fun c => existsb (N.eqb c) (py "_") = true) l
                        -> alnums l = []).
  { intros l Hl. apply alnums_underscores.
    eapply List.Forall_impl; [| exact Hl]. intros c Hc.
    cbv beta in Hc. rewrite (strips_underscore c) in Hc.
    now apply N.eqb_eq in Hc. }
  rewrite E at 2. rewrite !alnums_app, (U p Hp), (U q Hq), app_nil_r.
  reflexivity.
Qed.

Lemma alnums_lower s : alnums (Py.lower s) = Py.lower (alnums s).
Proof.
  induction s as [|c s IH]; [reflexivity |].
  unfold alnums, Py.lower in *. cbn [map List.filter].
  rewrite alnum_lower_char, IH. now destruct (Py.isalnum_ascii c).
Qed.

Lemma alnums_finish clean :
  alnums (Py.lower (Py.strip (py "_") (collapse_underscores clean)))
  = Py.lower (alnums clean).
Proof.
  rewrite alnums_lower, alnums_strip. unfold collapse_underscores.
  now rewrite alnums_collapse_loop.
Qed.

Lemma alnums_sanitize_id text :
  alnums (Transform.sanitize_id text)
  = Py.lower (alnums (Transform.strip_pdf_ext text)).
Proof. now rewrite sanitize_id_unfold, alnums_finish, alnums_by_char. Qed.

Lemma alnums_sanitize_pdf_id (stem : pystr -> pystr) text :
  alnums (Upsert.sanitize_pdf_id stem text) = Py.lower (alnums (stem text)).
Proof. now rewrite sanitize_pdf_id_unfold, alnums_finish, alnums_by_char. Qed.

(** A canonical identifier that is not empty begins with a letter or a
    digit. *)
Lemma canonical_alnums s : canonical_id s -> s <> [] -> alnums s <> [].
Proof.
  intros (Hc & Hfirst & _) Hne. destruct s as [|c r]; [congruence |].
  inversion Hc as [|? ? Hid _]; subst.
  change (py "_") with [95%N] in Hfirst. cbn [Py.startswith] in Hfirst.
  rewrite andb_true_r in Hfirst.
  unfold alnums. cbn [List.filter].
  assert (E : Py.isalnum_ascii c = true).
  { unfold id_char in Hid. change (chr "_") with 95%N in Hid.
    rewrite N.eqb_sym, Hfirst, orb_false_r in Hid.
    unfold Py.isalnum_ascii.
    destruct (Py.is_lower c), (Py.is_digit c); try discriminate;
      now rewrite ?orb_true_r. }
  rewrite E. discriminate.
Qed.

Lemma sanitize_id_empty text :
  Transform.sanitize_id text = []
  <-> alnums (Transform.strip_pdf_ext text) = [].
Proof.
  pose proof (alnums_sanitize_id text) as E. split.
  - intros H. rewrite H in E. change (alnums []) with (@nil N) in E.
    destruct (alnums (Transform.strip_pdf_ext text)); [reflexivity |].
    discriminate.
  - intros H. rewrite H in E. change (Py.lower []) with (@nil N) in E.
    destruct (Transform.sanitize_id text) as [|c r] eqn:Es; [reflexivity |].
    exfalso. apply (canonical_alnums (c :: r)); [| discriminate | exact E].
    rewrite <- Es. apply sanitize_id_canonical.
Qed.

Lemma sanitize_id_not_underscore text :
  Transform.sanitize_id text <> py "_".
Proof.
  intros H. destruct (sanitize_id_canonical text) as (_ & Hfirst & _).
  rewrite H in Hfirst. discriminate.
Qed.

End SanitizeChars.

(** ** More on the record builder *)

Section BuilderMore.

Import Transform.

Implicit Types (deck : DeckMeta) (slide : Slide) (slides : list Slide)
  (data : Metadata) (records : list (gmap string value)).

Lemma slides_loop_map pdf_id fname deck slides records :
  Forall (fun s => slide_number s <> None) slides ->
  Py.for_each (append_slide pdf_id fname deck) slides records
  = Py.Ok (records
           ++ map (fun s => slide_record_of pdf_id fname deck s
                              (default 0 (slide_number s))) slides).
Proof.
  intros Hall. revert records.
  induction Hall as [|s slides Hs Hall IH]; intros records.
  - cbn. now rewrite app_nil_r.
  - destruct (slide_number s) as [n|] eqn:Es; [| congruence].
    cbn [Py.for_each]. unfold append_slide at 1.
    rewrite (slide_record_numbered _ _ _ _ n Es). pysimpl.
    rewrite IH, <- app_assoc. cbn [map app]. rewrite Es. reflexivity.
Qed.

Lemma transform_built timestamp data deck slides fname :
  deck_metadata data = Some deck -> slide_data data = Some slides ->
  filename deck = Some fname ->
  Forall (fun s => slide_number s <> None) slides ->
  transform_metadata_to_records timestamp data
  = Py.Ok (built_records (document_id timestamp fname) fname deck slides,
           {| di_pdf_id := document_id timestamp fname;
              di_filename := fname;
              di_company := get_str (company_name deck);
              di_industry := get_str (deck_industry deck);
              di_total_records := S (length slides);
              di_deck_metadata_record := 1;
              di_slide_records := length slides |}).
Proof.
  intros Hd Hs Hf Hall. unfold transform_metadata_to_records.
  rewrite Hd, Hs. pysimpl. rewrite Hf. pysimpl. cbv zeta.
  rewrite (slides_loop_map _ _ _ _ _ Hall). pysimpl.
  unfold built_records. cbn [app length]. now rewrite length_map.
Qed.


Lemma deck_record_fields pdf_id fname deck :
  deck_record pdf_id fname deck !! "type" = Some (VStr (py "deck_metadata"))
  /\ deck_record pdf_id fname deck !! "slide_number" = None
  /\ deck_record pdf_id fname deck !! "content"
     = Some (VStr (build_deck_content deck))
  /\ of_document pdf_id fname deck (deck_record pdf_id fname deck).
Proof.
  unfold of_document, deck_record.
  destruct (nonempty (pdf_url deck)); repeat split; by simplify_map_eq.
Qed.

Lemma slide_record_fields pdf_id fname deck slide n :
  slide_record_of pdf_id fname deck slide n !! "type"
  = Some (VStr (py "slide"))
  /\ slide_record_of pdf_id fname deck slide n !! "slide_number"
     = Some (VInt n)
  /\ slide_record_of pdf_id fname deck slide n !! "content"
     = Some (VStr (build_slide_content slide))
  /\ of_document pdf_id fname deck
       (slide_record_of pdf_id fname deck slide n).
Proof.
  unfold of_document, slide_record_of. repeat split; by simplify_map_eq.
Qed.

(** *** [validate_record] on the records of the builder *)

Lemma lstrip_ws_last s c :
  Py.isspace c = false -> Py.lstrip_ws (s ++ [c]) <> [].
Proof.
  intros Hc. induction s as [|x s IH]; cbn [app Py.lstrip_ws].
  - rewrite Hc. discriminate.
  - destruct (Py.isspace x); [exact IH | discriminate].
Qed.

Lemma strip_ws_head c s :
  Py.isspace c = false -> Py.strip_ws (c :: s) <> [].
Proof.
  intros Hc. unfold Py.strip_ws. cbn [Py.lstrip_ws]. rewrite Hc.
  cbn [rev]. intros H. apply (f_equal (@rev _)) in H.
  rewrite rev_involutive in H. cbn [rev] in H.
  exact (lstrip_ws_last (rev s) c Hc H).
Qed.

Lemma passes_with_text record i c s :
  record !! "_id" = Some i -> record !! "content" = Some (VStr (c :: s)) ->
  Py.isspace c = false -> record_passes record = true.
Proof.
  intros Hi Hc Hs. apply validate_record_passes. split; [now exists i |].
  exists (c :: s). split; [exact Hc | now apply strip_ws_head].
Qed.

Lemma deck_record_passes pdf_id fname deck :
  record_passes (deck_record pdf_id fname deck) = true.
Proof.
  destruct (deck_record_fields pdf_id fname deck) as (_ & _ & Hc & _).
  pose proof (deck_record_id pdf_id fname deck) as Hi.
  eapply passes_with_text; [exact Hi | rewrite Hc; reflexivity | reflexivity].
Qed.

Lemma slide_content_text slide :
  match build_slide_content slide with
  | [] => slide_has_text slide = false
  | c :: _ => slide_has_text slide = true /\ Py.isspace c = false
  end.
Proof.
  unfold build_slide_content, slide_has_text.
  destruct (nonempty (slide_content slide)) as [c1|];
    destruct (nonempty (slide_summary slide)) as [c2|];
    destruct (nonempty (keywords slide)) as [c3|];
    destruct (nonempty (slide_layout slide)) as [c4|];
    cbn [app Py.join]; try (split; reflexivity); reflexivity.
Qed.

Lemma slide_record_passes pdf_id fname deck slide n :
  record_passes (slide_record_of pdf_id fname deck slide n)
  = slide_has_text slide.
Proof.
  destruct (slide_record_fields pdf_id fname deck slide n)
    as (_ & _ & Hc & _).
  pose proof (slide_record_of_id pdf_id fname deck slide n) as Hi.
  pose proof (slide_content_text slide) as Ht.
  destruct (build_slide_content slide) as [|c s].
  - rewrite Ht. unfold record_passes, validate_record.
    unfold record_id in Hi. rewrite Hi, Hc. reflexivity.
  - destruct Ht as [-> Hs].
    exact (passes_with_text _ _ c s Hi Hc Hs).
Qed.



End BuilderMore.

(** ** The slide number in a record id *)

Section SlideNumbers.

Lemma unpy_py (s : string) : unpy (py s) = s.
Proof.
  unfold unpy, py. rewrite List.map_map.
  rewrite (map_ext _ (fun a => a)) by apply ascii_N_embedding.
  rewrite map_id. apply string_of_list_ascii_of_string.
Qed.

Lemma zeros_digits k d :
  repeat (chr "0") k ++ py (NilEmpty.string_of_uint d)
  = py (NilEmpty.string_of_uint (Nat.iter k Decimal.D0 d)).
Proof.
  induction k as [|k IH]; [reflexivity |].
  cbn [repeat app Nat.iter]. rewrite IH. reflexivity.
Qed.

Lemma of_uint_zeros k d : N.of_uint (Nat.iter k Decimal.D0 d) = N.of_uint d.
Proof. induction k as [|k IH]; [reflexivity | exact IH]. Qed.

Lemma zeros_nonnil k d : d <> Decimal.Nil -> Nat.iter k Decimal.D0 d <> Decimal.Nil.
Proof. intros H. destruct k; [exact H | discriminate]. Qed.

Lemma to_uint_nonnil (n : N) : N.to_uint n <> Decimal.Nil.
Proof.
  destruct n as [|p]; [discriminate |]. apply DecimalPos.Unsigned.to_uint_nonnil.
Qed.

Lemma nonnil_string d :
  d <> Decimal.Nil -> NilZero.string_of_uint d = NilEmpty.string_of_uint d.
Proof. destruct d; [congruence | reflexivity ..]. Qed.

Lemma digits_no_sign d :
  d <> Decimal.Nil ->
  Py.startswith (py (NilEmpty.string_of_uint d)) (py "-") = false.
Proof. destruct d; [congruence | reflexivity ..]. Qed.

Lemma read_digits d :
  d <> Decimal.Nil ->
  NilZero.uint_of_string (unpy (py (NilEmpty.string_of_uint d))) = Some d.
Proof.
  intros H. rewrite unpy_py, <- (nonnil_string d H). now apply NilZero.usu.
Qed.

(** The digits [format(n, "03d")] writes read back as [n]. *)
Lemma parse_format_03d (z : Z) : parse_int (Py.format_03d z) = Some z.
Proof.
  unfold Py.format_03d, Py.decimal.
  set (n := Z.to_N (Z.abs z)).
  rewrite (nonnil_string _ (to_uint_nonnil n)).
  set (sign := if z <? 0 then py "-" else []).
  rewrite zeros_digits.
  set (d := Nat.iter _ Decimal.D0 (N.to_uint n)).
  assert (Hd : d <> Decimal.Nil) by apply zeros_nonnil, to_uint_nonnil.
  assert (Hn : N.of_uint d = n).
  { unfold d. rewrite of_uint_zeros. apply DecimalN.Unsigned.of_to. }
  unfold parse_int, sign. destruct (Z.ltb_spec z 0) as [Hneg | Hpos].
  - change (py "-" ++ py (NilEmpty.string_of_uint d))
      with (45%N :: py (NilEmpty.string_of_uint d)).
    change (py "-") with [45%N]. cbn [Py.startswith N.eqb Pos.eqb andb skipn].
    rewrite skipn_O, (read_digits d Hd). cbn [option_map]. rewrite Hn. f_equal.
    unfold n. lia.
  - cbn [app]. rewrite (digits_no_sign d Hd), (read_digits d Hd).
    cbn [option_map]. rewrite Hn. f_equal. unfold n. lia.
Qed.

Lemma format_03d_inj (a b : Z) : Py.format_03d a = Py.format_03d b -> a = b.
Proof.
  intros H. apply (f_equal parse_int) in H.
  rewrite !parse_format_03d in H. now injection H.
Qed.

End SlideNumbers.

(** * Further properties of the merges and of the searches *)

Lemma example_hits_wf :
  Forall wf_hit Examples.dense_hits /\ Forall wf_hit Examples.sparse_hits.
Proof. split; repeat constructor; apply example_hit_wf. Defined.

(** X1.  [_merge_results] and [merge_results] deduplicate: on well-formed
    hits, ids repeated or not, each returns one result per id, and the ids
    of the results are exactly the ids found in the dense or the sparse
    list. *)
Theorem merged_ids_distinct_union (dense sparse : list Hit) :
  Forall wf_hit dense -> Forall wf_hit sparse ->
  (exists merged ids,
     UnifiedIndex._merge_results dense sparse = Py.Ok merged
     /\ doc_ids merged = map (fun id => Some (VStr id)) ids
     /\ List.NoDup ids
     /\ forall id, In id ids <-> In id (hit_ids dense ++ hit_ids sparse))
  /\ (exists merged ids,
        HybridSearch.merge_results dense sparse = Py.Ok merged
        /\ doc_ids merged = map (fun id => Some (VStr id)) ids
        /\ List.NoDup ids
        /\ forall id, In id ids <-> In id (hit_ids dense ++ hit_ids sparse)).
Proof.
  intros Hwd Hws. split.
  - destruct (merge_hits_dedup UnifiedIndex.make_doc unified_doc
                unified_make_doc unified_doc_id unified_doc_score
                dense sparse Hwd Hws)
      as (merged & ids & scores & Hrun & Hids & Hnd & Hin & _).
    exists merged, ids. split; [exact Hrun |]. split; [exact Hids |].
    split; [exact Hnd | exact Hin].
  - destruct (merge_hits_dedup HybridSearch.make_doc hybrid_doc
                hybrid_make_doc hybrid_doc_id
                (fun h _ => hybrid_doc_score h)
                dense sparse Hwd Hws)
      as (merged & ids & scores & Hrun & Hids & Hnd & Hin & _).
    exists merged, ids. split; [exact Hrun |]. split; [exact Hids |].
    split; [exact Hnd | exact Hin].
Qed.

Lemma merged_ids_distinct_union_witness :
  (exists merged ids,
     UnifiedIndex._merge_results Examples.dense_hits Examples.sparse_hits
     = Py.Ok merged
     /\ doc_ids merged = map (fun id => Some (VStr id)) ids
     /\ List.NoDup ids
     /\ forall id, In id ids
                   <-> In id (hit_ids Examples.dense_hits
                              ++ hit_ids Examples.sparse_hits))
  /\ (exists merged ids,
        HybridSearch.merge_results Examples.dense_hits Examples.sparse_hits
        = Py.Ok merged
        /\ doc_ids merged = map (fun id => Some (VStr id)) ids
        /\ List.NoDup ids
        /\ forall id, In id ids
                      <-> In id (hit_ids Examples.dense_hits
                                 ++ hit_ids Examples.sparse_hits)).
Proof.
  apply (merged_ids_distinct_union Examples.dense_hits Examples.sparse_hits);
    apply example_hits_wf.
Defined.






(** X4.  A hit without a [content] field makes either merge raise
    [KeyError('content')]: always when it is a dense hit, and when it is a
    sparse hit whose id no earlier hit has.  (The hits before it are
    well formed.) *)
Theorem missing_content_raises_keyerror
    (dense sparse pre post : list Hit) (h : Hit) :
  hit_fields h !! "content" = None ->
  Forall wf_hit pre ->
  dense = pre ++ h :: post
  \/ (sparse = pre ++ h :: post
      /\ Forall wf_hit dense
      /\ ~ In (hit_id h) (hit_ids dense ++ hit_ids pre)) ->
  UnifiedIndex._merge_results dense sparse = Py.Raise (Py.KeyError "content")
  /\ HybridSearch.merge_results dense sparse
     = Py.Raise (Py.KeyError "content").
Proof.
  intros Hc Hpre Hwhere.
  assert (Hu : UnifiedIndex.make_doc h = Py.Raise (Py.KeyError "content"))
    by (unfold UnifiedIndex.make_doc, Value.getitem; now rewrite Hc).
  assert (Hh : HybridSearch.make_doc h = Py.Raise (Py.KeyError "content"))
    by (unfold HybridSearch.make_doc, Value.getitem; now rewrite Hc).
  destruct Hwhere as [-> | (-> & Hdense & Hnew)]; split.
  - exact (merge_hits_dense_raises UnifiedIndex.make_doc unified_doc
             unified_make_doc unified_doc_id unified_doc_score
             pre h post sparse _ Hpre Hu).
  - exact (merge_hits_dense_raises HybridSearch.make_doc hybrid_doc
             hybrid_make_doc hybrid_doc_id (fun h _ => hybrid_doc_score h)
             pre h post sparse _ Hpre Hh).
  - exact (merge_hits_sparse_raises UnifiedIndex.make_doc unified_doc
             unified_make_doc unified_doc_id unified_doc_score
             dense pre h post _ Hdense Hpre Hu Hnew).
  - exact (merge_hits_sparse_raises HybridSearch.make_doc hybrid_doc
             hybrid_make_doc hybrid_doc_id (fun h _ => hybrid_doc_score h)
             dense pre h post _ Hdense Hpre Hh Hnew).
Qed.

Lemma missing_content_raises_keyerror_witness :
  UnifiedIndex._merge_results
    Examples.dense_hits
    ([Examples.hit "a" 0.25 "sparse a" "other"]
     ++ without_fields (Examples.hit "c" 0.875 "sparse c" "other") :: [])
  = Py.Raise (Py.KeyError "content")
  /\ HybridSearch.merge_results
       Examples.dense_hits
       ([Examples.hit "a" 0.25 "sparse a" "other"]
        ++ without_fields (Examples.hit "c" 0.875 "sparse c" "other") :: [])
     = Py.Raise (Py.KeyError "content").
Proof.
  apply (missing_content_raises_keyerror Examples.dense_hits _
           [Examples.hit "a" 0.25 "sparse a" "other"] []
           (without_fields (Examples.hit "c" 0.875 "sparse c" "other"))).
  - reflexivity.
  - repeat constructor; apply example_hit_wf.
  - right. split; [reflexivity |]. split; [apply example_hits_wf |].
    cbn; intros H; decompose [or] H; discriminate || contradiction.
Defined.

(** X5.  Of a sparse hit whose id a dense hit has, the merges read the id
    and the score only: emptying the fields of every such sparse hit
    changes neither the result nor the exception of either merge, whatever
    the hits are. *)
Theorem seen_sparse_hit_fields_unread (dense sparse : list Hit) :
  UnifiedIndex._merge_results
    dense (map (forget_seen (hit_ids dense)) sparse)
  = UnifiedIndex._merge_results dense sparse
  /\ HybridSearch.merge_results
       dense (map (forget_seen (hit_ids dense)) sparse)
     = HybridSearch.merge_results dense sparse.
Proof. split; apply merge_hits_forget. Qed.

(** X6.  A result of [merge_results] of [setup_hybrid_search.py] has no
    entry under a name other than [_id], [content], [_score], [keywords],
    [slide_number] and [type], whatever fields the hits carry. *)
Theorem hybrid_results_have_six_names (dense sparse : list Hit)
    (merged : list (gmap string value)) :
  HybridSearch.merge_results dense sparse = Py.Ok merged ->
  Forall within_hybrid_keys merged.
Proof. apply merge_results_keys. Qed.

Lemma hybrid_results_have_six_names_witness :
  exists merged,
    HybridSearch.merge_results Examples.dense_hits Examples.sparse_hits
    = Py.Ok merged
    /\ length merged = 3%nat
    /\ Forall within_hybrid_keys merged.
Proof.
  eexists. split; [vm_compute; reflexivity |]. split; [reflexivity |].
  apply (hybrid_results_have_six_names Examples.dense_hits
           Examples.sparse_hits).
  vm_compute. reflexivity.
Defined.

(** ** Failures before the reranker *)

Section SearchFailures.

Import UnifiedIndex UnifiedSearch.

Lemma cascading_search_fails svc query namespace filters top_k rerank_top_n e :
  let q := search_query_of query filters top_k in
  before_rerank svc DENSE_INDEX_NAME SPARSE_INDEX_NAME namespace q
    _merge_results = Py.Raise e ->
  IO.run (cascading_search svc query namespace filters top_k rerank_top_n)
  = (Py.Raise e,
     calls_before_rerank svc DENSE_INDEX_NAME SPARSE_INDEX_NAME namespace q).
Proof.
  intros q. unfold IO.run, cascading_search, before_rerank,
    calls_before_rerank.
  fold (search_query_of query filters top_k). fold q.
  intros Hfail.
  unfold mbind, io_bind, IO.bind, IO.call, IO.pure.
  unfold mbind, result_bind, Py.bind in Hfail.
  destruct (index_search svc DENSE_INDEX_NAME namespace q) as [dense | e1];
    [| now injection Hfail as ->].
  destruct (index_search svc SPARSE_INDEX_NAME namespace q) as [sparse | e2];
    [| now injection Hfail as ->].
  rewrite Hfail. reflexivity.
Qed.

Lemma hybrid_search_fails svc query top_k rerank_top_n e :
  let q := {| sq_top_k := top_k; sq_text := query; sq_filter := None |} in
  before_rerank svc HybridSearch.DENSE_INDEX HybridSearch.SPARSE_INDEX
    HybridSearch.NAMESPACE q HybridSearch.merge_results = Py.Raise e ->
  IO.run (HybridSearchRun.hybrid_search svc query top_k rerank_top_n)
  = (Py.Raise e,
     calls_before_rerank svc HybridSearch.DENSE_INDEX
       HybridSearch.SPARSE_INDEX HybridSearch.NAMESPACE q).
Proof.
  intros q. unfold IO.run, HybridSearchRun.hybrid_search, before_rerank,
    calls_before_rerank. fold q.
  intros Hfail.
  unfold mbind, io_bind, IO.bind, IO.call, IO.pure.
  unfold mbind, result_bind, Py.bind in Hfail.
  destruct (index_search svc HybridSearch.DENSE_INDEX HybridSearch.NAMESPACE q)
    as [dense | e1]; [| now injection Hfail as ->].
  destruct (index_search svc HybridSearch.SPARSE_INDEX HybridSearch.NAMESPACE q)
    as [sparse | e2]; [| now injection Hfail as ->].
  rewrite Hfail. reflexivity.
Qed.

Lemma hybrid_search_result svc query top_k rerank_top_n dense sparse merged :
  let q := {| sq_top_k := top_k; sq_text := query; sq_filter := None |} in
  index_search svc HybridSearch.DENSE_INDEX HybridSearch.NAMESPACE q
  = Py.Ok dense ->
  index_search svc HybridSearch.SPARSE_INDEX HybridSearch.NAMESPACE q
  = Py.Ok sparse ->
  HybridSearch.merge_results dense sparse = Py.Ok merged ->
  IO.run (HybridSearchRun.hybrid_search svc query top_k rerank_top_n)
  = (hybrid_after_rerank (inference_rerank svc query merged rerank_top_n),
     [CallSearch HybridSearch.DENSE_INDEX HybridSearch.NAMESPACE q;
      CallSearch HybridSearch.SPARSE_INDEX HybridSearch.NAMESPACE q;
      CallRerank query merged rerank_top_n]).
Proof.
  intros q Hd Hs Hm.
  unfold IO.run, HybridSearchRun.hybrid_search. fold q.
  unfold mbind, io_bind, IO.bind, IO.call, IO.pure, mret, io_ret, IO.ret.
  rewrite Hd, Hs, Hm. unfold hybrid_after_rerank.
  destruct (inference_rerank svc query merged rerank_top_n) as [r | e];
    [| reflexivity].
  cbn [mbind result_bind Py.bind].
  destruct (Py.for_each HybridSearchRun.display_item r tt); reflexivity.
Qed.

End SearchFailures.

(** X7.  A failure before the reranker ends the search: when an index
    search or the merge raises, [cascading_search] and [hybrid_search]
    raise the same exception, the reranker is not called, and the sparse
    index is not searched if the dense search was the one that failed. *)
Theorem failure_before_rerank_propagates (svc : Services)
    (query namespace : pystr) (filters : option (gmap string value))
    (top_k rerank_top_n : Z) (e : Py.exn) :
  (before_rerank svc UnifiedIndex.DENSE_INDEX_NAME
     UnifiedIndex.SPARSE_INDEX_NAME namespace
     (search_query_of query filters top_k) UnifiedIndex._merge_results
   = Py.Raise e ->
   IO.run (UnifiedSearch.cascading_search svc query namespace filters top_k
             rerank_top_n)
   = (Py.Raise e,
      calls_before_rerank svc UnifiedIndex.DENSE_INDEX_NAME
        UnifiedIndex.SPARSE_INDEX_NAME namespace
        (search_query_of query filters top_k)))
  /\ (before_rerank svc HybridSearch.DENSE_INDEX HybridSearch.SPARSE_INDEX
        HybridSearch.NAMESPACE
        {| sq_top_k := top_k; sq_text := query; sq_filter := None |}
        HybridSearch.merge_results
      = Py.Raise e ->
      IO.run (HybridSearchRun.hybrid_search svc query top_k rerank_top_n)
      = (Py.Raise e,
         calls_before_rerank svc HybridSearch.DENSE_INDEX
           HybridSearch.SPARSE_INDEX HybridSearch.NAMESPACE
           {| sq_top_k := top_k; sq_text := query; sq_filter := None |})).
Proof.
  split.
  - apply cascading_search_fails.
  - apply hybrid_search_fails.
Qed.

Lemma failure_before_rerank_propagates_witness :
  IO.run (UnifiedSearch.cascading_search (failing_services 503) (py "renewal")
            UnifiedIndex.GLOBAL_NAMESPACE None 20 5)
  = (Py.Raise (Py.ServiceError 503),
     [CallSearch UnifiedIndex.DENSE_INDEX_NAME UnifiedIndex.GLOBAL_NAMESPACE
        (search_query_of (py "renewal") None 20)])
  /\ IO.run (HybridSearchRun.hybrid_search (failing_services 503)
               (py "renewal") 10 5)
     = (Py.Raise (Py.ServiceError 503),
        [CallSearch HybridSearch.DENSE_INDEX HybridSearch.NAMESPACE
           {| sq_top_k := 10; sq_text := py "renewal"; sq_filter := None |}]).
Proof.
  split.
  - apply (proj1 (failure_before_rerank_propagates (failing_services 503)
                    (py "renewal") UnifiedIndex.GLOBAL_NAMESPACE None 20 5
                    (Py.ServiceError 503))).
    reflexivity.
  - apply (proj2 (failure_before_rerank_propagates (failing_services 503)
                    (py "renewal") UnifiedIndex.GLOBAL_NAMESPACE None 10 5
                    (Py.ServiceError 503))).
    reflexivity.
Defined.

(** X21.  A search makes exactly three calls when its two index searches
    answer with well-formed hits: the dense search, the sparse search, and
    one call of the reranker with all the merged documents.
    [cascading_search] asks the reranker for
    [min(rerank_top_n, len(merged))] results, [hybrid_search] for
    [rerank_top_n] whatever the number of merged documents.  Neither calls
    a service after the reranker: each prints the reranker's answer and
    returns it, or raises what the reranker or the printing raised. *)
Theorem search_calls_reranker_once (svc : Services) (query namespace : pystr)
    (filters : option (gmap string value)) (top_k rerank_top_n : Z) :
  let q := search_query_of query filters top_k in
  let q' := {| sq_top_k := top_k; sq_text := query; sq_filter := None |} in
  (forall dense sparse,
     index_search svc UnifiedIndex.DENSE_INDEX_NAME namespace q
     = Py.Ok dense ->
     index_search svc UnifiedIndex.SPARSE_INDEX_NAME namespace q
     = Py.Ok sparse ->
     Forall wf_hit dense -> Forall wf_hit sparse ->
     exists merged,
       UnifiedIndex._merge_results dense sparse = Py.Ok merged
       /\ IO.run (UnifiedSearch.cascading_search svc query namespace filters
                    top_k rerank_top_n)
          = (after_rerank
               (inference_rerank svc query merged
                  (Z.min rerank_top_n (Z.of_nat (length merged)))),
             [CallSearch UnifiedIndex.DENSE_INDEX_NAME namespace q;
              CallSearch UnifiedIndex.SPARSE_INDEX_NAME namespace q;
              CallRerank query merged
                (Z.min rerank_top_n (Z.of_nat (length merged)))]))
  /\ (forall dense sparse,
        index_search svc HybridSearch.DENSE_INDEX HybridSearch.NAMESPACE q'
        = Py.Ok dense ->
        index_search svc HybridSearch.SPARSE_INDEX HybridSearch.NAMESPACE q'
        = Py.Ok sparse ->
        Forall wf_hit dense -> Forall wf_hit sparse ->
        exists merged,
          HybridSearch.merge_results dense sparse = Py.Ok merged
          /\ IO.run (HybridSearchRun.hybrid_search svc query top_k
                       rerank_top_n)
             = (hybrid_after_rerank
                  (inference_rerank svc query merged rerank_top_n),
                [CallSearch HybridSearch.DENSE_INDEX HybridSearch.NAMESPACE
                   q';
                 CallSearch HybridSearch.SPARSE_INDEX HybridSearch.NAMESPACE
                   q';
                 CallRerank query merged rerank_top_n])).
Proof.
  intros q q'. split.
  - intros dense sparse Hd Hs Hwd Hws.
    destruct (merge_hits_dedup UnifiedIndex.make_doc unified_doc
                unified_make_doc unified_doc_id unified_doc_score
                dense sparse Hwd Hws) as (merged & _ & _ & Hrun & _).
    exists merged. split; [exact Hrun |].
    exact (cascading_search_run svc query namespace filters top_k rerank_top_n
             dense sparse merged Hd Hs Hrun).
  - intros dense sparse Hd Hs Hwd Hws.
    destruct (merge_hits_dedup HybridSearch.make_doc hybrid_doc
                hybrid_make_doc hybrid_doc_id
                (fun h _ => hybrid_doc_score h)
                dense sparse Hwd Hws) as (merged & _ & _ & Hrun & _).
    exists merged. split; [exact Hrun |].
    exact (hybrid_search_result svc query top_k rerank_top_n dense sparse
             merged Hd Hs Hrun).
Qed.

Lemma example_dense_hits_wf : Forall wf_hit Examples.dense_hits.
Proof. repeat constructor; apply example_hit_wf. Defined.

Lemma example_sparse_hits_wf : Forall wf_hit Examples.sparse_hits.
Proof. repeat constructor; apply example_hit_wf. Defined.

Lemma search_calls_reranker_once_witness :
  (exists merged,
     UnifiedIndex._merge_results Examples.dense_hits Examples.sparse_hits
     = Py.Ok merged
     /\ IO.run (UnifiedSearch.cascading_search example_index (py "renewal")
                  UnifiedIndex.GLOBAL_NAMESPACE None 20 5)
        = (after_rerank
             (inference_rerank example_index (py "renewal") merged
                (Z.min 5 (Z.of_nat (length merged)))),
           [CallSearch UnifiedIndex.DENSE_INDEX_NAME
              UnifiedIndex.GLOBAL_NAMESPACE
              (search_query_of (py "renewal") None 20);
            CallSearch UnifiedIndex.SPARSE_INDEX_NAME
              UnifiedIndex.GLOBAL_NAMESPACE
              (search_query_of (py "renewal") None 20);
            CallRerank (py "renewal") merged
              (Z.min 5 (Z.of_nat (length merged)))]))
  /\ (exists merged,
        HybridSearch.merge_results Examples.dense_hits Examples.sparse_hits
        = Py.Ok merged
        /\ IO.run (HybridSearchRun.hybrid_search example_index
                     (py "renewal") 20 5)
           = (hybrid_after_rerank
                (inference_rerank example_index (py "renewal") merged 5),
              [CallSearch HybridSearch.DENSE_INDEX HybridSearch.NAMESPACE
                 {| sq_top_k := 20; sq_text := py "renewal";
                    sq_filter := None |};
               CallSearch HybridSearch.SPARSE_INDEX HybridSearch.NAMESPACE
                 {| sq_top_k := 20; sq_text := py "renewal";
                    sq_filter := None |};
               CallRerank (py "renewal") merged 5])).
Proof.
  split.
  - apply (proj1 (search_calls_reranker_once example_index (py "renewal")
                    UnifiedIndex.GLOBAL_NAMESPACE None 20 5)
             Examples.dense_hits Examples.sparse_hits);
      [reflexivity | reflexivity | |].
    + exact example_dense_hits_wf.
    + exact example_sparse_hits_wf.
  - apply (proj2 (search_calls_reranker_once example_index (py "renewal")
                    UnifiedIndex.GLOBAL_NAMESPACE None 20 5)
             Examples.dense_hits Examples.sparse_hits);
      [reflexivity | reflexivity | |].
    + exact example_dense_hits_wf.
    + exact example_sparse_hits_wf.
Defined.

(** The two searches of the example, run: three documents are merged,
    the reranker is asked for three of them by [cascading_search] and for
    five by [hybrid_search], and its answer comes back. *)
Example searches_of_the_example :
  (fun run => (match fst run with
               | Py.Ok final => Some (length final)
               | Py.Raise _ => None
               end,
               map (fun c => match c with
                             | CallRerank _ docs top_n =>
                                 Some (length docs, top_n)
                             | _ => None
                             end) (snd run)))
    (IO.run (UnifiedSearch.cascading_search example_index (py "renewal")
               UnifiedIndex.GLOBAL_NAMESPACE None 20 5))
  = (Some 3%nat, [None; None; Some (3%nat, 3)])
  /\ (fun run => (match fst run with
                  | Py.Ok final => Some (length final)
                  | Py.Raise _ => None
                  end,
                  map (fun c => match c with
                                | CallRerank _ docs top_n =>
                                    Some (length docs, top_n)
                                | _ => None
                                end) (snd run)))
       (IO.run (HybridSearchRun.hybrid_search example_index (py "renewal")
                  20 5))
     = (Some 3%nat, [None; None; Some (3%nat, 5)]).
Proof. split; vm_compute; reflexivity. Qed.

(** * Further properties of the sanitizers *)

(** X8.  The two sanitizers are the same function: on a file name whose
    stem does not itself end in [.pdf], [sanitize_pdf_id] of
    [upsert_to_pinecone.py] returns what [sanitize_id] of
    [transform_to_pinecone_format.py] returns on the stem, although the
    scripts order the replacement steps differently. *)
Theorem sanitizers_agree (stem : pystr -> pystr) (name : pystr) :
  Py.endswith (stem name) (py ".pdf") = false ->
  Upsert.sanitize_pdf_id stem name = Transform.sanitize_id (stem name).
Proof.
  intros Hext. rewrite sanitize_pdf_id_unfold, sanitize_id_unfold.
  unfold Transform.strip_pdf_ext. now rewrite Hext.
Qed.

Lemma sanitizers_agree_witness :
  Upsert.sanitize_pdf_id Transform.strip_pdf_ext Examples.title
  = Transform.sanitize_id (Transform.strip_pdf_ext Examples.title).
Proof.
  apply (sanitizers_agree Transform.strip_pdf_ext Examples.title).
  reflexivity.
Defined.

(** X9.  A sanitizer neither drops, adds nor reorders an ASCII letter or
    digit: the letters and digits of the identifier are those of the input
    (once the [.pdf] extension is off), lowercased, in the same order. *)
Theorem sanitizers_keep_letters_and_digits (stem : pystr -> pystr)
    (text : pystr) :
  alnums (Transform.sanitize_id text)
  = Py.lower (alnums (Transform.strip_pdf_ext text))
  /\ alnums (Upsert.sanitize_pdf_id stem text)
     = Py.lower (alnums (stem text)).
Proof.
  split; [apply alnums_sanitize_id | apply alnums_sanitize_pdf_id].
Qed.

(** X10.  The record builder falls back on the generated id
    [doc_<timestamp>] exactly when the file name, its [.pdf] extension
    apart, has no ASCII letter or digit; otherwise the document id is the
    sanitized file name.  The id is never empty, and the second test of the
    script, [pdf_id == '_'], never holds. *)
Theorem document_id_fallback (timestamp fname : pystr) :
  Transform.document_id timestamp fname
  = (if Py.str_eqb (alnums (Transform.strip_pdf_ext fname)) []
     then py "doc_" ++ timestamp
     else Transform.sanitize_id fname)
  /\ Transform.document_id timestamp fname <> []
  /\ Transform.sanitize_id fname <> py "_".
Proof.
  pose proof (sanitize_id_not_underscore fname) as Hu.
  pose proof (sanitize_id_empty fname) as He.
  assert (E : Transform.document_id timestamp fname
              = if Py.str_eqb (alnums (Transform.strip_pdf_ext fname)) []
                then py "doc_" ++ timestamp
                else Transform.sanitize_id fname).
  { unfold Transform.document_id.
    rewrite (str_eqb_neq _ _ Hu), orb_false_r.
    destruct (Py.str_eqb (Transform.sanitize_id fname) []) eqn:E1.
    - apply str_eqb_eq, He in E1. rewrite E1. reflexivity.
    - destruct (Py.str_eqb (alnums (Transform.strip_pdf_ext fname)) [])
        eqn:E2; [| reflexivity].
      apply str_eqb_eq, He, str_eqb_eq in E2. congruence. }
  split; [exact E |]. split; [| exact Hu].
  rewrite E.
  destruct (Py.str_eqb (alnums (Transform.strip_pdf_ext fname)) []) eqn:E2.
  - discriminate.
  - intros H. apply He in H. rewrite H in E2. discriminate.
Qed.

(** * Further properties of the record builder *)

Lemma example_slides_numbered :
  Forall (fun s => slide_number s <> None)
         [Examples.slide_numbered 1; Examples.slide_numbered 2].
Proof. repeat constructor; discriminate. Defined.

(** X11.  The records of one document: when the document has its deck
    metadata with a file name and every slide has a number, the builder
    returns one deck record followed by one record per slide, in the order
    of the slides.  The deck record is the only one of type
    [deck_metadata] and has no [slide_number]; each slide record has type
    [slide] and the number of its slide; all records carry the same
    [pdf_id], [pdf_filename], [company] and [industry]; and the document
    summary counts them. *)
Theorem built_records_shape (timestamp : pystr) (data : Metadata)
    (deck : DeckMeta) (slides : list Slide) (fname : pystr) :
  deck_metadata data = Some deck -> slide_data data = Some slides ->
  filename deck = Some fname ->
  Forall (fun s => slide_number s <> None) slides ->
  exists records info,
    Transform.transform_metadata_to_records timestamp data
    = Py.Ok (records, info)
    /\ length records = S (length slides)
    /\ map (fun r => r !! "type") records
       = Some (VStr (py "deck_metadata"))
         :: map (fun _ => Some (VStr (py "slide"))) slides
    /\ map (fun r => r !! "slide_number") records
       = None :: map (fun s => option_map VInt (slide_number s)) slides
    /\ Forall (of_document (Transform.document_id timestamp fname) fname deck)
              records
    /\ Transform.di_pdf_id info = Transform.document_id timestamp fname
    /\ Transform.di_total_records info = S (length slides)
    /\ Transform.di_slide_records info = length slides.
Proof.
  intros Hd Hs Hf Hall. do 2 eexists.
  split; [exact (transform_built timestamp data deck slides fname Hd Hs Hf Hall) |].
  set (id := Transform.document_id timestamp fname).
  destruct (deck_record_fields id fname deck) as (Ht & Hn & _ & Hdoc).
  unfold built_records. cbn [length map].
  rewrite length_map, Ht, Hn, !List.map_map.
  split; [reflexivity |]. split; [| split; [| split]].
  - f_equal;
      try (apply map_ext; intros s; apply (slide_record_fields id fname deck s)).
  - f_equal. apply map_ext_in. intros s Hin.
    rewrite (proj1 (proj2 (slide_record_fields id fname deck s _))).
    destruct (slide_number s) as [n|] eqn:E; [reflexivity |].
    exfalso. exact (proj1 (List.Forall_forall _ _) Hall s Hin E).
  - constructor; [exact Hdoc |]. apply Forall_map, List.Forall_forall.
    intros s _. apply (slide_record_fields id fname deck s).
  - repeat split.
Qed.

Lemma built_records_shape_witness :
  exists records info,
    Transform.transform_metadata_to_records Examples.timestamp
      (Examples.document [Examples.slide_numbered 1; Examples.slide_numbered 2])
    = Py.Ok (records, info)
    /\ length records = 3%nat
    /\ map (fun r => r !! "type") records
       = [Some (VStr (py "deck_metadata")); Some (VStr (py "slide"));
          Some (VStr (py "slide"))]
    /\ map (fun r => r !! "slide_number") records
       = [None; Some (VInt 1); Some (VInt 2)]
    /\ Forall (of_document
                 (Transform.document_id Examples.timestamp Examples.title)
                 Examples.title Examples.deck) records
    /\ Transform.di_pdf_id info
       = Transform.document_id Examples.timestamp Examples.title
    /\ Transform.di_total_records info = 3%nat
    /\ Transform.di_slide_records info = 2%nat.
Proof.
  apply (built_records_shape Examples.timestamp
           (Examples.document
              [Examples.slide_numbered 1; Examples.slide_numbered 2])
           Examples.deck
           [Examples.slide_numbered 1; Examples.slide_numbered 2]
           Examples.title);
    [reflexivity | reflexivity | reflexivity | apply example_slides_numbered].
Defined.

(** X12.  [validate_record] on what the builder builds: the deck record
    always passes, and a slide record passes exactly when the slide has a
    non-empty [slide_content], [slide_summary], [keywords] or
    [slide_layout]. *)
Theorem built_records_validity (pdf_id fname : pystr) (deck : DeckMeta)
    (slide : Slide) (n : Z) :
  record_passes (Transform.deck_record pdf_id fname deck) = true
  /\ record_passes (Transform.slide_record_of pdf_id fname deck slide n)
     = slide_has_text slide.
Proof. split; [apply deck_record_passes | apply slide_record_passes]. Qed.




(** When the summary cannot be written the run returns [False], and the
    batch file of the document is there. *)
Example returns_false_after_saving :
  (fun outcome =>
     (Transform.returned outcome,
      map (@length _) (Transform.saved_batches outcome)))
    (Transform.process_metadata_file summary_refused Examples.timestamp
       (Examples.document
          [Examples.slide_numbered 1; Examples.slide_numbered 2]))
  = (false, [3%nat]).
Proof. vm_compute. reflexivity. Qed.

(** X14.  The number in a record id: the digits that the builder writes
    after [_slide_] read back as the slide number, so the record ids of a
    document are pairwise distinct exactly when its slide numbers are
    (the id of the deck record differs from every slide id). *)
Theorem record_ids_distinct_iff (timestamp : pystr) (data : Metadata)
    (deck : DeckMeta) (slides : list Slide) (fname : pystr) :
  deck_metadata data = Some deck -> slide_data data = Some slides ->
  filename deck = Some fname ->
  Forall (fun s => slide_number s <> None) slides ->
  (forall n, parse_int (Py.format_03d n) = Some n)
  /\ exists records info,
       Transform.transform_metadata_to_records timestamp data
       = Py.Ok (records, info)
       /\ (List.NoDup (map record_id records)
           <-> List.NoDup (map slide_number slides)).
Proof.
  intros Hd Hs Hf Hall. split; [exact parse_format_03d |].
  destruct (transform_numbered timestamp data deck slides fname Hd Hs Hf Hall)
    as (records & info & Hrun & Hids).
  exists records, info. split; [exact Hrun |]. rewrite Hids.
  set (id := Transform.document_id timestamp fname).
  set (f := fun o : option Z =>
              match o with
              | Some n => Some (VStr (id ++ py "_slide_" ++ Py.format_03d n))
              | None => None
              end).
  assert (Hmap : map (slide_id id) slides = map f (map slide_number slides)).
  { rewrite List.map_map. reflexivity. }
  assert (Hinj : forall a b, f a = f b -> a = b).
  { intros [a|] [b|]; unfold f; try discriminate; [| reflexivity].
    intros H. injection H as H. apply (app_inv_head id) in H.
    apply (app_inv_head (py "_slide_") (Py.format_03d a) (Py.format_03d b))
      in H.
    f_equal. now apply format_03d_inj. }
  assert (Hmeta : ~ In (Some (VStr (id ++ py "_meta"))) (map (slide_id id) slides)).
  { rewrite in_map_iff. intros [s [E _]]. unfold slide_id in E.
    destruct (slide_number s) as [n|]; [| discriminate].
    injection E as E. apply app_inv_head in E.
    apply (f_equal (firstn 2)) in E. discriminate. }
  rewrite Hmap in *. split.
  - intros H. inversion H as [|? ? _ Hnd]; subst.
    exact (NoDup_map_inv f _ Hnd).
  - intros H. constructor; [exact Hmeta |].
    apply Finite.Injective_map_NoDup; [exact Hinj | exact H].
Qed.

Lemma record_ids_distinct_iff_witness :
  (forall n, parse_int (Py.format_03d n) = Some n)
  /\ exists records info,
       Transform.transform_metadata_to_records Examples.timestamp
         (Examples.document
            [Examples.slide_numbered 1; Examples.slide_numbered 2])
       = Py.Ok (records, info)
       /\ (List.NoDup (map record_id records)
           <-> List.NoDup
                 (map slide_number
                    [Examples.slide_numbered 1; Examples.slide_numbered 2])).
Proof.
  apply (record_ids_distinct_iff Examples.timestamp
           (Examples.document
              [Examples.slide_numbered 1; Examples.slide_numbered 2])
           Examples.deck
           [Examples.slide_numbered 1; Examples.slide_numbered 2]
           Examples.title);
    [reflexivity | reflexivity | reflexivity | apply example_slides_numbered].
Defined.

(** * The validator of [validate_transformation.py] *)

Section ValidatorFacts.

Import ValidateTransformation TransformationValidator.

Variable stem : pystr -> pystr.
Variable repr_set : list string -> string.

Implicit Types (deck : DeckMeta) (slide : Slide) (slides : list Slide)
  (data : Metadata) (errs : list message).

Lemma filter_missing_nil {A} (has : A -> bool) l :
  List.filter (fun key => negb (has key)) l = [] <-> forallb has l = true.
Proof.
  induction l as [|k l IH]; cbn [List.filter forallb]; [tauto |].
  destruct (has k); cbn [negb andb]; [exact IH |]. split; discriminate.
Qed.

Lemma check_slide_nil idx slide :
  check_slide repr_set idx slide = [] <-> slide_complete slide = true.
Proof.
  unfold check_slide, slide_complete.
  rewrite <- filter_missing_nil.
  destruct (List.filter _ REQUIRED_SLIDE_FIELDS); split;
    try reflexivity; discriminate.
Qed.

Lemma check_slides_app idx slides errs :
  check_slides repr_set idx slides errs
  = errs ++ check_slides repr_set idx slides [].
Proof.
  revert idx errs. induction slides as [|s slides IH]; intros idx errs.
  - cbn. now rewrite app_nil_r.
  - cbn [check_slides]. rewrite IH. rewrite (IH _ ([] ++ _)).
    cbn [app]. now rewrite app_assoc.
Qed.

Lemma check_slides_nil idx slides :
  check_slides repr_set idx slides [] = []
  <-> Forall (fun s => slide_complete s = true) slides.
Proof.
  revert idx. induction slides as [|s slides IH]; intros idx.
  - split; [constructor | reflexivity].
  - cbn [check_slides app]. rewrite check_slides_app. split.
    + intros H. apply app_eq_nil in H. destruct H as [H1 H2].
      constructor; [now apply (check_slide_nil idx) | now apply (IH (S idx))].
    + intros H. inversion H; subst.
      rewrite (proj2 (check_slide_nil idx s)) by assumption.
      now apply IH.
Qed.

(** The structure check, started with or without earlier errors. *)
Lemma validate_structure_errors errs data :
  exists new,
    validate_typescript_structure repr_set errs data
    = (match errs ++ new with
       | [] => match deck_metadata data, slide_data data with
               | Some _, Some _ => true
               | _, _ => false
               end
       | _ :: _ => false
       end, errs ++ new)
    /\ (new = []
        <-> exists deck slides,
              deck_metadata data = Some deck /\ slide_data data = Some slides
              /\ deck_complete deck = true
              /\ Forall (fun s => slide_complete s = true) slides).
Proof.
  unfold validate_typescript_structure.
  destruct (deck_metadata data) as [deck|].
  2:{ exists [Earlier "Missing 'deck_metadata' field"]. split.
      - destruct (errs ++ _); reflexivity.
      - split; [discriminate | intros (? & ? & ? & _); discriminate]. }
  destruct (slide_data data) as [slides|].
  2:{ exists [Earlier "Missing 'slide_data' field"]. split.
      - destruct (errs ++ _); reflexivity.
      - split; [discriminate | intros (? & ? & _ & ? & _); discriminate]. }
  rewrite check_slides_app.
  pose proof (filter_missing_nil (deck_has deck) REQUIRED_DECK_FIELDS) as Hdeck.
  fold (deck_complete deck) in Hdeck.
  pose proof (check_slides_nil 0 slides) as Hslides.
  destruct (List.filter _ REQUIRED_DECK_FIELDS) as [|k ks].
  - exists (check_slides repr_set 0 slides []). split.
    + destruct (errs ++ check_slides repr_set 0 slides []); reflexivity.
    + rewrite Hslides. split.
      * intros H. exists deck, slides. repeat split; try assumption.
        now apply Hdeck.
      * intros (d & s & [= <-] & [= <-] & _ & H). exact H.
  - exists (Earlier ("Missing deck_metadata fields: " ++ repr_set (k :: ks))
            :: check_slides repr_set 0 slides []). split.
    + rewrite <- app_assoc. cbn [app].
      destruct (errs ++ _ :: check_slides repr_set 0 slides []);
        reflexivity.
    + split; [discriminate |].
      intros (d & s & [= <-] & _ & H & _). apply Hdeck in H. discriminate.
Qed.

Lemma validate_structure_true data :
  fst (validate_typescript_structure repr_set [] data) = true ->
  validate_typescript_structure repr_set [] data = (true, [])
  /\ exists deck slides,
       deck_metadata data = Some deck /\ slide_data data = Some slides
       /\ deck_complete deck = true
       /\ Forall (fun s => slide_complete s = true) slides.
Proof.
  destruct (validate_structure_errors [] data) as [new [E Hnew]].
  rewrite E. cbn [app fst]. destruct new as [|m new]; [| discriminate].
  intros _. split; [| now apply Hnew].
  destruct (proj1 Hnew eq_refl) as (d & s & -> & -> & _). reflexivity.
Qed.

Lemma deck_complete_fields deck :
  deck_complete deck = true ->
  exists fname industry company summary pages,
    filename deck = Some fname /\ deck_industry deck = Some industry
    /\ company_name deck = Some company
    /\ executive_summary deck = Some summary
    /\ total_pages deck = Some pages.
Proof.
  unfold deck_complete, REQUIRED_DECK_FIELDS, deck_has.
  cbn [forallb String.eqb Ascii.eqb Bool.eqb andb].
  rewrite !andb_true_iff, !bool_decide_eq_true.
  intros ([f ->] & [i ->] & [c ->] & [s ->] & [p ->] & _).
  now exists f, i, c, s, p.
Qed.

Lemma slide_complete_fields slide :
  slide_complete slide = true ->
  exists n summary ks layout image,
    slide_number slide = Some n /\ slide_summary slide = Some summary
    /\ keywords slide = Some ks /\ slide_layout slide = Some layout
    /\ image_url slide = Some image.
Proof.
  unfold slide_complete, REQUIRED_SLIDE_FIELDS, slide_has.
  cbn [forallb String.eqb Ascii.eqb Bool.eqb andb].
  rewrite !andb_true_iff, !bool_decide_eq_true.
  intros ([n ->] & [s ->] & [k ->] & [l ->] & [i ->] & _).
  now exists n, s, k, l, i.
Qed.

(** A record with an id, a content, a type and the four fields of its
    document is one [validate_pinecone_records] has nothing to say
    about. *)
Lemma record_ok_intro (r : gmap string value) rid content ty :
  r !! "_id" = Some (VStr rid) -> rid <> [] ->
  r !! "content" = Some (VStr content) -> content <> [] ->
  r !! "type" = Some (VStr ty) ->
  ty = py "deck_metadata"
  \/ (ty = py "slide" /\ is_Some (r !! "slide_number")
      /\ is_Some (r !! "keywords")) ->
  is_Some (r !! "pdf_id") -> is_Some (r !! "pdf_title") ->
  is_Some (r !! "company") -> is_Some (r !! "industry") ->
  record_ok r = true.
Proof.
  intros Hid Hrid Hc Hne Ht Hty [p Hp] [t Htitle] [co Hco] [i Hi].
  unfold record_ok, required_fields, has_key, Value.get, known_type.
  cbn [forallb]. rewrite Hid, Hc, Ht, Hp, Htitle, Hco, Hi.
  cbn [default from_option]. unfold Datatypes.id.
  cbn [andb Value.is_str Value.truthy Value.eq_str].
  destruct rid as [|r0 rid']; [congruence |].
  destruct content as [|c0 content']; [congruence |]. cbn [andb].
  destruct Hty as [-> | (-> & [num Hnum] & [kw Hkw])].
  - reflexivity.
  - rewrite Hnum, Hkw. reflexivity.
Qed.

Lemma slide_record_complete pdf_id pdf_title company industry slide :
  slide_complete slide = true ->
  exists r,
    slide_record pdf_id pdf_title company industry slide = Py.Ok r
    /\ record_ok r = true.
Proof.
  intros H.
  destruct (slide_complete_fields slide H)
    as (n & summary & ks & layout & image & Hn & Hs & Hk & Hl & Hi).
  unfold slide_record, _build_slide_content.
  rewrite Hn, Hs, Hl, Hi. pysimpl. eexists. split; [reflexivity |].
  eapply record_ok_intro.
  - by simplify_map_eq.
  - intros E. apply app_eq_nil in E. destruct E as [_ E]. discriminate E.
  - by simplify_map_eq.
  - destruct (Transform.nonempty (slide_content slide)); cbn [app Py.join];
      discriminate.
  - by simplify_map_eq.
  - right. split; [reflexivity |]. split; eexists; by simplify_map_eq.
  - eexists; by simplify_map_eq.
  - eexists; by simplify_map_eq.
  - eexists; by simplify_map_eq.
  - eexists; by simplify_map_eq.
Qed.

Lemma slides_loop_complete pdf_id pdf_title company industry slides records :
  Forall (fun s => slide_complete s = true) slides ->
  exists built,
    Py.for_each (append_slide pdf_id pdf_title company industry) slides
      records
    = Py.Ok (records ++ built)
    /\ length built = length slides
    /\ Forall (fun r => record_ok r = true) built.
Proof.
  intros Hall. revert records.
  induction Hall as [|s slides Hs Hall IH]; intros records.
  - exists []. split; [cbn; now rewrite app_nil_r |]. split; constructor.
  - destruct (slide_record_complete pdf_id pdf_title company industry s Hs)
      as [r [Hr Hok]].
    cbn [Py.for_each]. unfold append_slide at 1. rewrite Hr. pysimpl.
    destruct (IH (records ++ [r])) as (built & Hrun & Hlen & Hbuilt).
    exists (r :: built). split; [| split].
    + rewrite Hrun, <- app_assoc. reflexivity.
    + cbn [length]. now rewrite Hlen.
    + constructor; assumption.
Qed.

Lemma deck_record_complete deck :
  deck_complete deck = true ->
  exists fname industry company r,
    filename deck = Some fname /\ deck_industry deck = Some industry
    /\ company_name deck = Some company
    /\ deck_record stem deck = Py.Ok r /\ record_ok r = true.
Proof.
  intros H.
  destruct (deck_complete_fields deck H)
    as (fname & industry & company & summary & pages
        & Hf & Hi & Hc & Hs & Hp).
  exists fname, industry, company.
  unfold deck_record, _build_deck_content.
  rewrite Hf, Hi, Hc, Hs, Hp. pysimpl. eexists.
  split; [reflexivity |]. split; [reflexivity |]. split; [reflexivity |].
  split; [reflexivity |].
  eapply record_ok_intro.
  - destruct (created_date deck); by simplify_map_eq.
  - intros E. apply app_eq_nil in E. destruct E as [_ E]. discriminate E.
  - destruct (created_date deck); by simplify_map_eq.
  - discriminate.
  - destruct (created_date deck); by simplify_map_eq.
  - now left.
  - destruct (created_date deck); eexists; by simplify_map_eq.
  - destruct (created_date deck); eexists; by simplify_map_eq.
  - destruct (created_date deck); eexists; by simplify_map_eq.
  - destruct (created_date deck); eexists; by simplify_map_eq.
Qed.

(** A document that passes the structure check is transformed without
    an exception, into records that pass the record check. *)
Lemma transform_complete data deck slides :
  deck_metadata data = Some deck -> slide_data data = Some slides ->
  deck_complete deck = true ->
  Forall (fun s => slide_complete s = true) slides ->
  exists records,
    transform_to_pinecone stem data = Py.Ok records
    /\ length records = S (length slides)
    /\ Forall (fun r => record_ok r = true) records.
Proof.
  intros Hd Hs Hdeck Hslides.
  destruct (deck_record_complete deck Hdeck)
    as (fname & industry & company & r & Hf & Hi & Hc & Hr & Hok).
  unfold transform_to_pinecone. rewrite Hd. pysimpl.
  rewrite Hf. pysimpl. rewrite Hc. pysimpl. rewrite Hi. pysimpl.
  rewrite Hr. pysimpl. rewrite Hs. pysimpl.
  destruct (slides_loop_complete (sanitize_filename stem fname) fname
              company industry slides [r] Hslides)
    as (built & Hrun & Hlen & Hbuilt).
  exists (r :: built). split; [exact Hrun |]. split.
  - cbn [length]. now rewrite Hlen.
  - constructor; assumption.
Qed.

Lemma validate_records_ok records :
  Forall (fun r => record_ok r = true) records ->
  validate_pinecone_records [] records = (true, []).
Proof.
  intros H. unfold validate_pinecone_records.
  now rewrite (proj2 (check_records_nil 0 records) H).
Qed.

Lemma main_outcome data :
  fst (validate_typescript_structure repr_set [] data) = true ->
  exists records,
    transform_to_pinecone stem data = Py.Ok records
    /\ Forall (fun r => record_ok r = true) records
    /\ main stem repr_set data = Saved records.
Proof.
  intros H. destruct (validate_structure_true data H)
    as (E & deck & slides & Hd & Hs & Hdeck & Hslides).
  destruct (transform_complete data deck slides Hd Hs Hdeck Hslides)
    as (records & Hrun & _ & Hok).
  exists records. split; [exact Hrun |]. split; [exact Hok |].
  unfold main. rewrite E. cbn [negb]. rewrite Hrun.
  now rewrite (validate_records_ok records Hok).
Qed.

Lemma main_rejected data :
  fst (validate_typescript_structure repr_set [] data) = false ->
  main stem repr_set data
  = StructureRejected (snd (validate_typescript_structure repr_set [] data)).
Proof.
  intros H. unfold main.
  destruct (validate_typescript_structure repr_set [] data) as [ok errs].
  cbn [fst snd] in *. now rewrite H.
Qed.

(** *** [str.split] and [sanitize_filename] *)












End ValidatorFacts.

(** * Further properties of the validator *)

(** X15.  The structure check is enough: a run of [main] of
    [validate_transformation.py] on a loaded document either stops at the
    structure check or saves the records.  Once the structure check has
    passed, [transform_to_pinecone] raises no [KeyError] and every record
    it builds passes [validate_pinecone_records]. *)
Theorem main_rejects_or_saves (stem : pystr -> pystr)
    (repr_set : list string -> string) (data : Metadata) :
  match TransformationValidator.main stem repr_set data with
  | TransformationValidator.StructureRejected errs =>
      TransformationValidator.validate_typescript_structure repr_set [] data
      = (false, errs)
  | TransformationValidator.Saved records =>
      TransformationValidator.validate_typescript_structure repr_set [] data
      = (true, [])
      /\ TransformationValidator.transform_to_pinecone stem data
         = Py.Ok records
      /\ ValidateTransformation.validate_pinecone_records [] records
         = (true, [])
  | TransformationValidator.TransformRaised _
  | TransformationValidator.RecordsRejected _ => False
  end.
Proof.
  destruct (fst (TransformationValidator.validate_typescript_structure
                   repr_set [] data)) eqn:E.
  - destruct (main_outcome stem repr_set data E) as (records & Hrun & Hok & ->).
    split; [apply (validate_structure_true repr_set data E) |].
    split; [exact Hrun | now apply validate_records_ok].
  - rewrite (main_rejected stem repr_set data E).
    destruct (TransformationValidator.validate_typescript_structure
                repr_set [] data) as [ok errs].
    cbn [fst snd] in *. now subst.
Qed.

(** X16.  The errors of a validator are never cleared: once
    [self.validation_errors] holds an error, both
    [validate_typescript_structure] and [validate_pinecone_records] return
    [False] whatever they are given, and keep the earlier errors in front
    of what they add. *)
Theorem validator_errors_persist (repr_set : list string -> string)
    (errs : list ValidateTransformation.message) (data : Metadata)
    (records : list (gmap string value)) :
  errs <> [] ->
  (fst (TransformationValidator.validate_typescript_structure
          repr_set errs data) = false
   /\ exists new,
        snd (TransformationValidator.validate_typescript_structure
               repr_set errs data) = errs ++ new)
  /\ ValidateTransformation.validate_pinecone_records errs records
     = (false,
        errs ++ snd (ValidateTransformation.validate_pinecone_records
                       [] records)).
Proof.
  intros Hne. destruct errs as [|m errs]; [congruence |]. split.
  - destruct (validate_structure_errors repr_set (m :: errs) data)
      as [new [E _]].
    rewrite E. cbn [app fst snd]. split; [reflexivity | now exists new].
  - unfold ValidateTransformation.validate_pinecone_records.
    rewrite check_records_app. cbn [app].
    now destruct (ValidateTransformation.check_records 0 records []).
Qed.

Lemma validator_errors_persist_witness :
  (fst (TransformationValidator.validate_typescript_structure example_repr
          [ValidateTransformation.EmptyId 0]
          (Examples.document [Examples.slide_numbered 1])) = false
   /\ exists new,
        snd (TransformationValidator.validate_typescript_structure
               example_repr [ValidateTransformation.EmptyId 0]
               (Examples.document [Examples.slide_numbered 1]))
        = [ValidateTransformation.EmptyId 0] ++ new)
  /\ ValidateTransformation.validate_pinecone_records
       [ValidateTransformation.EmptyId 0] []
     = (false,
        [ValidateTransformation.EmptyId 0]
        ++ snd (ValidateTransformation.validate_pinecone_records [] [])).
Proof.
  apply (validator_errors_persist example_repr
           [ValidateTransformation.EmptyId 0]
           (Examples.document [Examples.slide_numbered 1]) []).
  discriminate.
Defined.


Lemma sanitize_filename_is_a_prefix_example :
  TransformationValidator.sanitize_filename Transform.strip_pdf_ext
    (py "ilgram_DB_insurance_0529_v2_final.pdf")
  = py "ilgram_DB_insurance_0529".
Proof. reflexivity. Qed.

(** * Ingestion *)

Section IngestFacts.

Import Ingest.

Variable stem : pystr -> pystr.
Variable load : pystr -> Py.result Metadata.
Variable upsert_records :
  pystr -> pystr -> list (gmap string value) -> Py.result unit.

Implicit Types (deck : DeckMeta) (slide : Slide) (slides : list Slide)
  (data : Metadata) (records : list (gmap string value))
  (log : list UpsertCall).

Lemma upsert_each_spec targets records log :
  upsert_each upsert_records targets records log
  = (match first_failure upsert_records records targets with
     | None => Py.Ok tt
     | Some e => Py.Raise e
     end,
     log ++ upsert_calls records (attempted upsert_records records targets)).
Proof.
  revert log. induction targets as [|[index ns] targets IH]; intros log.
  - cbn. now rewrite app_nil_r.
  - cbn [upsert_each first_failure attempted fst snd upsert_calls map].
    destruct (upsert_records index ns records) as [[] | e].
    + rewrite IH, <- app_assoc. reflexivity.
    + reflexivity.
Qed.




Lemma slides_loop_unnumbered doc_id fname deck slides slide records :
  In slide slides -> slide_number slide = None ->
  Py.for_each (append_slide doc_id fname deck) slides records
  = Py.Raise (Py.KeyError "slide_number").
Proof.
  intros Hin Hnone. revert records.
  induction slides as [|s slides IH]; intros records; [destruct Hin |].
  cbn [Py.for_each]. unfold append_slide at 1, slide_record.
  destruct (slide_number s) as [n|] eqn:Es; pysimpl.
  - destruct Hin as [-> | Hin]; [congruence |]. now apply IH.
  - reflexivity.
Qed.


Lemma prepare_unnumbered path data slides slide :
  load path = Py.Ok data -> slide_data data = Some slides ->
  In slide slides -> slide_number slide = None ->
  exists key, prepare stem load path = Py.Raise (Py.KeyError key).
Proof.
  intros Hl Hs Hin Hnone. unfold prepare. rewrite Hl. pysimpl.
  destruct (deck_metadata data) as [deck|]; pysimpl; [| now eexists].
  rewrite Hs. pysimpl.
  destruct (filename deck) as [fname|]; pysimpl; [| now eexists].
  cbv zeta.
  rewrite (slides_loop_unnumbered _ _ _ _ slide) by assumption.
  now eexists.
Qed.

Lemma ingest_spec path namespace log :
  ingest_pdf_metadata stem load upsert_records path namespace log
  = match prepare stem load path with
    | Py.Raise e => (Py.Raise e, log)
    | Py.Ok (doc_id, records) =>
        let ns := default (py "doc:" ++ doc_id) namespace in
        (match first_failure upsert_records records (targets ns) with
         | None => Py.Ok doc_id
         | Some e => Py.Raise e
         end,
         log ++ upsert_calls records
                  (attempted upsert_records records (targets ns)))
    end.
Proof.
  unfold ingest_pdf_metadata.
  destruct (prepare stem load path) as [[doc_id records] | e];
    [| reflexivity].
  cbv zeta. rewrite upsert_each_spec.
  now destruct (first_failure upsert_records records _).
Qed.

(** The log a call starts with plays no part in what it does. *)
Lemma ingest_log path namespace log :
  ingest_pdf_metadata stem load upsert_records path namespace log
  = (fst (ingest_pdf_metadata stem load upsert_records path namespace []),
     log ++ snd (ingest_pdf_metadata stem load upsert_records path
                   namespace [])).
Proof.
  rewrite !ingest_spec.
  destruct (prepare stem load path) as [[doc_id records] | e];
    cbn [fst snd app]; [reflexivity | now rewrite app_nil_r].
Qed.

Lemma ingest_loop_spec files ingested failed log :
  let outcome f :=
    ingest_pdf_metadata stem load upsert_records f None [] in
  ingest_loop stem load upsert_records files ingested failed log
  = ((ingested ++ omap (fun f => ingested_id (outcome f)) files,
      failed ++ List.filter (fun f => ingest_failed (outcome f)) files),
     log ++ concat (map (fun f => snd (outcome f)) files)).
Proof.
  intros outcome. revert ingested failed log.
  induction files as [|f files IH]; intros ingested failed log.
  - cbn. now rewrite !app_nil_r.
  - cbn [ingest_loop]. rewrite ingest_log. fold (outcome f).
    assert (Ho : omap (fun f => ingested_id (outcome f)) (f :: files)
                 = match fst (outcome f) with
                   | Py.Ok doc_id => [doc_id]
                   | Py.Raise _ => []
                   end ++ omap (fun f => ingested_id (outcome f)) files).
    { cbn [omap list_omap]. unfold ingested_id at 1.
      now destruct (fst (outcome f)). }
    assert (Hf : List.filter (fun f => ingest_failed (outcome f)) (f :: files)
                 = match fst (outcome f) with
                   | Py.Ok _ => []
                   | Py.Raise _ => [f]
                   end
                   ++ List.filter (fun f => ingest_failed (outcome f)) files).
    { cbn [List.filter]. unfold ingest_failed at 1.
      now destruct (fst (outcome f)). }
    rewrite Ho, Hf. cbn [map concat].
    destruct (fst (outcome f)) as [doc_id | e]; rewrite IH;
      cbn [app]; now rewrite <- !app_assoc.
Qed.

Lemma ingest_partition files :
  let outcome f :=
    ingest_pdf_metadata stem load upsert_records f None [] in
  (length (omap (fun f => ingested_id (outcome f)) files)
   + length (List.filter (fun f => ingest_failed (outcome f)) files)
   = length files)%nat.
Proof.
  intros outcome. induction files as [|f files IH]; [reflexivity |].
  assert (Ho : omap (fun f => ingested_id (outcome f)) (f :: files)
               = match fst (outcome f) with
                 | Py.Ok doc_id => [doc_id]
                 | Py.Raise _ => []
                 end ++ omap (fun f => ingested_id (outcome f)) files).
  { cbn [omap list_omap]. unfold ingested_id at 1.
    now destruct (fst (outcome f)). }
  assert (Hf : List.filter (fun f => ingest_failed (outcome f)) (f :: files)
               = match fst (outcome f) with
                 | Py.Ok _ => []
                 | Py.Raise _ => [f]
                 end
                 ++ List.filter (fun f => ingest_failed (outcome f)) files).
  { cbn [List.filter]. unfold ingest_failed at 1.
    now destruct (fst (outcome f)). }
  rewrite Ho, Hf, !length_app.
  destruct (fst (outcome f)); cbn [length]; lia.
Qed.

End IngestFacts.

(** * Further properties of the ingestion *)

(** X18.  Nothing is upserted from a document that cannot be built: when
    the metadata file cannot be loaded, [ingest_pdf_metadata] raises the
    loader's exception, and when a slide of the document has no
    [slide_number] it raises a [KeyError]; in both cases it has called no
    upsert, whatever the slides before the faulty one are. *)
Theorem unbuilt_document_is_not_upserted (stem : pystr -> pystr)
    (load : pystr -> Py.result Metadata)
    (upsert_records : pystr -> pystr -> list (gmap string value)
                      -> Py.result unit)
    (path : pystr) (namespace : option pystr) (log : list Ingest.UpsertCall) :
  (forall e, load path = Py.Raise e ->
     Ingest.ingest_pdf_metadata stem load upsert_records path namespace log
     = (Py.Raise e, log))
  /\ (forall data slides slide,
        load path = Py.Ok data -> slide_data data = Some slides ->
        In slide slides -> slide_number slide = None ->
        exists key,
          Ingest.ingest_pdf_metadata stem load upsert_records path namespace
            log
          = (Py.Raise (Py.KeyError key), log)).
Proof.
  split.
  - intros e Hl. rewrite ingest_spec. unfold Ingest.prepare. now rewrite Hl.
  - intros data slides slide Hl Hs Hin Hnone.
    destruct (prepare_unnumbered stem load path data slides slide
                Hl Hs Hin Hnone) as [key Hkey].
    exists key. now rewrite ingest_spec, Hkey.
Qed.

Lemma unbuilt_document_is_not_upserted_witness :
  Ingest.ingest_pdf_metadata Transform.strip_pdf_ext example_load accept_all
    (py "missing.json") None []
  = (Py.Raise Py.ValueError, []).
Proof.
  apply (proj1 (unbuilt_document_is_not_upserted Transform.strip_pdf_ext
                  example_load accept_all (py "missing.json") None [])).
  reflexivity.
Defined.



(** With the sparse index down, the dense index has the document in its
    namespace and the sparse index has been tried once: two calls, and the
    error of the second. *)
Example ingest_with_sparse_index_down :
  (fun outcome =>
     (fst outcome,
      map (fun c => (Ingest.uc_index c, Ingest.uc_namespace c,
                     length (Ingest.uc_records c))) (snd outcome)))
    (Ingest.ingest_pdf_metadata Transform.strip_pdf_ext example_load
       sparse_down (py "deck_metadata.json") None [])
  = (Py.Raise (Py.ServiceError 503),
     [(UnifiedIndex.DENSE_INDEX_NAME, py "doc:DB (Insurance) 2025", 3%nat);
      (UnifiedIndex.SPARSE_INDEX_NAME, py "doc:DB (Insurance) 2025", 3%nat)]).
Proof. vm_compute. reflexivity. Qed.

(** X20.  [ingest_bulk] handles every file on its own: a file is listed
    under [failed] exactly when its ingestion raises, and contributes its
    document id to [ingested] otherwise, both in the order of the files;
    the upserts made are those of each file in turn, a failure neither
    stopping nor changing the ingestion of the files after it; and every
    file ends in exactly one of the two lists. *)
Theorem ingest_bulk_file_by_file (stem : pystr -> pystr)
    (load : pystr -> Py.result Metadata)
    (upsert_records : pystr -> pystr -> list (gmap string value)
                      -> Py.result unit)
    (files : list pystr) :
  let outcome f :=
    Ingest.ingest_pdf_metadata stem load upsert_records f None [] in
  let result := Ingest.ingest_bulk stem load upsert_records files in
  fst (fst result) = omap (fun f => ingested_id (outcome f)) files
  /\ snd (fst result)
     = List.filter (fun f => ingest_failed (outcome f)) files
  /\ snd result = concat (map (fun f => snd (outcome f)) files)
  /\ (length (fst (fst result)) + length (snd (fst result))
      = length files)%nat.
Proof.
  intros outcome result. unfold result, Ingest.ingest_bulk.
  rewrite (ingest_loop_spec stem load upsert_records files [] [] []).
  cbn [app fst snd]. fold outcome.
  split; [reflexivity |]. split; [reflexivity |]. split; [reflexivity |].
  apply ingest_partition.
Qed.

Example ingest_bulk_continues_after_failure :
  (fun result => (fst (fst result), snd (fst result), length (snd result)))
    (Ingest.ingest_bulk Transform.strip_pdf_ext example_load accept_all
       [py "missing.json"; py "deck_metadata.json"])
  = ([py "DB (Insurance) 2025"], [py "missing.json"], 4%nat).
Proof. vm_compute. reflexivity. Qed.

(** * [prepare_records] *)

Section PrepareFacts.

Import PrepareRecords.

Variable stem : pystr -> pystr.

Implicit Types (record : gmap string value)
  (records : list (gmap string value)).

Lemma replace_same (s old : pystr) : Py.replace s old old = s.
Proof.
  destruct old as [|x old].
  - unfold Py.replace. cbn [app].
    induction s as [|c s IH]; [reflexivity |]. cbn [flat_map app].
    now rewrite IH.
  - pattern s. apply (replace_scan_ind x old); clear s.
    + reflexivity.
    + intros r IH. now rewrite replace_match, IH.
    + intros c r E IH. now rewrite replace_no_match, IH by exact E.
Qed.

Lemma canonical_no_ext (s : pystr) :
  canonical_id s -> Py.endswith s (py ".pdf") = false.
Proof.
  intros [Hc _]. apply not_true_iff_false. intros H.
  apply endswith_spec in H. destruct H as [r ->].
  apply Forall_app in Hc. destruct Hc as [_ Hc].
  inversion Hc as [|? ? Hdot _]. discriminate Hdot.
Qed.

(** On an identifier that is canonical already, and that [Path.stem]
    leaves as it is, [sanitize_pdf_id] changes nothing. *)
Lemma sanitize_pdf_id_fixed (s : pystr) :
  canonical_id s -> stem s = s -> Upsert.sanitize_pdf_id stem s = s.
Proof.
  intros Hc Hs.
  rewrite sanitize_pdf_id_unfold, Hs.
  rewrite <- (sanitize_id_fixed s Hc) at 2.
  rewrite sanitize_id_unfold. unfold Transform.strip_pdf_ext.
  now rewrite (canonical_no_ext s Hc).
Qed.

Lemma rewrite_record_fixed pdf_id record :
  prepared pdf_id record -> rewrite_record pdf_id pdf_id record = Ok record.
Proof.
  intros ([rid Hid] & Hp & content & Hc & Ht).
  unfold rewrite_record. rewrite Hid, replace_same.
  rewrite (insert_id record "_id" _ Hid), (insert_id record "pdf_id" _ Hp).
  now rewrite Hc, Ht.
Qed.

Lemma rewrite_records_fixed pdf_id records :
  Forall (prepared pdf_id) records ->
  rewrite_records pdf_id pdf_id records = Ok records.
Proof.
  induction 1 as [|r records Hr _ IH]; [reflexivity |].
  cbn [rewrite_records]. now rewrite (rewrite_record_fixed _ _ Hr), IH.
Qed.

Lemma rewrite_record_ok original clean record record' :
  rewrite_record original clean record = Ok record' ->
  prepared clean record'
  /\ forall key, key <> "_id"%string -> key <> "pdf_id"%string ->
                 record' !! key = record !! key.
Proof.
  unfold rewrite_record.
  destruct (record !! "_id") as [[| | | | old_id |]|] eqn:Hid;
    try discriminate.
  cbv zeta.
  destruct (_ !! "content") as [content|] eqn:Hc; [| discriminate].
  destruct (Value.truthy content) eqn:Ht; [| discriminate].
  intros [= <-]. split.
  - split; [| split].
    + eexists. rewrite lookup_insert_ne by discriminate.
      apply lookup_insert_eq.
    + apply lookup_insert_eq.
    + exists content. split; [exact Hc | exact Ht].
  - intros key H1 H2. now rewrite !lookup_insert_ne by congruence.
Qed.

Lemma rewrite_records_ok original clean records records' :
  rewrite_records original clean records = Ok records' ->
  Forall (prepared clean) records'
  /\ Forall2 (fun record record' =>
                forall key, key <> "_id"%string -> key <> "pdf_id"%string ->
                            record' !! key = record !! key)
             records records'.
Proof.
  revert records'. induction records as [|r records IH]; intros records'.
  - intros [= <-]. split; constructor.
  - cbn [rewrite_records].
    destruct (rewrite_record original clean r) as [r' | e] eqn:Er;
      [| discriminate].
    destruct (rewrite_records original clean records) as [rs | e] eqn:Ers;
      [| discriminate].
    intros [= <-]. destruct (IH rs eq_refl) as [Hall Hsame].
    destruct (rewrite_record_ok _ _ _ _ Er) as [Hp Hk].
    split; constructor; assumption.
Qed.

(** What a successful [prepare_records] has read and returns. *)
Lemma prepare_records_ok records records' clean company :
  prepare_records stem records = Ok (records', clean, company) ->
  exists first rest original,
    records = first :: rest
    /\ default (VStr []) (first !! "pdf_id") = VStr original
    /\ company = default (VStr []) (first !! "company")
    /\ clean = Upsert.sanitize_pdf_id stem original
    /\ rewrite_records original clean records = Ok records'.
Proof.
  unfold prepare_records. destruct records as [|first rest]; [discriminate |].
  destruct (default (VStr []) (first !! "pdf_id"))
    as [| | | | original |] eqn:Ho; try discriminate.
  cbv zeta.
  destruct (rewrite_records original _ (first :: rest)) as [rs | e] eqn:Er;
    [| discriminate].
  intros [= <- <- <-]. now exists first, rest, original.
Qed.

End PrepareFacts.

(** X22.  What [prepare_records] returns: the records in the same number
    and order, each with a string as [_id], the returned document id as
    [pdf_id] and a non-empty content, every other field unchanged; the
    returned id is a canonical identifier.  An empty record list raises
    [ValueError]. *)
Theorem prepare_records_result (stem : pystr -> pystr)
    (records records' : list (gmap string value)) (clean : pystr)
    (company : value) :
  PrepareRecords.prepare_records stem records
  = PrepareRecords.Ok (records', clean, company) ->
  canonical_id clean
  /\ Forall (prepared clean) records'
  /\ Forall2 (fun record record' =>
                forall key, key <> "_id"%string -> key <> "pdf_id"%string ->
                            record' !! key = record !! key)
             records records'
  /\ PrepareRecords.prepare_records stem []
     = PrepareRecords.Raise (PrepareRecords.Builtin Py.ValueError).
Proof.
  intros H.
  destruct (prepare_records_ok stem _ _ _ _ H)
    as (first & rest & original & -> & _ & _ & -> & Hrun).
  destruct (rewrite_records_ok _ _ _ _ Hrun) as [Hall Hsame].
  split; [apply sanitize_pdf_id_canonical |].
  split; [exact Hall |]. split; [exact Hsame | reflexivity].
Qed.

Lemma prepare_records_result_witness :
  canonical_id (py "db_insurance")
  /\ Forall (prepared (py "db_insurance"))
            (example_validated_records "db_insurance")
  /\ Forall2 (fun record record' =>
                forall key, key <> "_id"%string -> key <> "pdf_id"%string ->
                            record' !! key = record !! key)
             (example_validated_records "DB Insurance")
             (example_validated_records "db_insurance")
  /\ PrepareRecords.prepare_records Transform.strip_pdf_ext []
     = PrepareRecords.Raise (PrepareRecords.Builtin Py.ValueError).
Proof.
  apply (prepare_records_result Transform.strip_pdf_ext
           (example_validated_records "DB Insurance")
           (example_validated_records "db_insurance")
           (py "db_insurance") (VStr (py "DB"))).
  vm_compute. reflexivity.
Defined.

(** X23.  [prepare_records] is idempotent: applied to the records it has
    returned, it returns them unchanged, with the same document id and
    company (for a [Path.stem] that leaves the sanitized id as it is, as it
    does a name without a dot or a slash). *)
Theorem prepare_records_idempotent (stem : pystr -> pystr)
    (records records' : list (gmap string value)) (clean : pystr)
    (company : value) :
  PrepareRecords.prepare_records stem records
  = PrepareRecords.Ok (records', clean, company) ->
  stem clean = clean ->
  PrepareRecords.prepare_records stem records'
  = PrepareRecords.Ok (records', clean, company).
Proof.
  intros H Hstem.
  destruct (prepare_records_ok stem _ _ _ _ H)
    as (first & rest & original & -> & _ & Hco & Hcl & Hrun).
  destruct (rewrite_records_ok _ _ _ _ Hrun) as [Hall Hsame].
  inversion Hsame as [|? first' ? rest' Hfirst _]; subst records'.
  inversion Hall as [|? ? Hp _]; subst.
  destruct Hp as (_ & Hpdf & _).
  unfold PrepareRecords.prepare_records. rewrite Hpdf. cbn [default from_option].
  unfold Datatypes.id. cbv zeta.
  assert (Hfix : Upsert.sanitize_pdf_id stem
                   (Upsert.sanitize_pdf_id stem original)
                 = Upsert.sanitize_pdf_id stem original).
  { apply sanitize_pdf_id_fixed; [apply sanitize_pdf_id_canonical | exact Hstem]. }
  rewrite Hfix, (rewrite_records_fixed _ _ Hall).
  now rewrite (Hfirst "company"%string) by discriminate.
Qed.

Lemma prepare_records_idempotent_witness :
  PrepareRecords.prepare_records Transform.strip_pdf_ext
    (example_validated_records "db_insurance")
  = PrepareRecords.Ok (example_validated_records "db_insurance",
                       py "db_insurance", VStr (py "DB")).
Proof.
  apply (prepare_records_idempotent Transform.strip_pdf_ext
           (example_validated_records "DB Insurance")
           (example_validated_records "db_insurance")
           (py "db_insurance") (VStr (py "DB"))).
  - vm_compute. reflexivity.
  - reflexivity.
Defined.
